(** * idataapi-transform: the Elasticsearch bulk client and the writer configs

    A shallow embedding of
      - [idataapi_transform/DataProcess/Config/ESConfig.py]
        ([init_es]: [MyAsyncTransport], [AIOHttpConnection],
        [MyAsyncElasticsearch]) and
      - [idataapi_transform/DataProcess/Config/ConfigUtil/WriterConfig.py]
        ([WESConfig], [WRedisConfig], [WMySQLConfig]),
    followed by the properties the specification states about them.

    Python objects are dynamically typed, so values live in one type
    [pyval]; a [dict] keeps its insertion order (the order [str] and
    [json.dumps] print); the records a caller hands to a write call are
    objects on a heap, addressed by reference, because the code updates
    them in place.  Code that can raise runs in a state-and-exception
    monad over the [world] it acts on.  What the code calls from
    libraries ([hashlib], [json], the client's serializer) is the
    interface [PyRuntime]. *)

From Stdlib Require Import ZArith List String Ascii Bool Lia QArith Lqa DecimalString.
From Stdlib.Strings Require Import Byte.
Import ListNotations.
Set Warnings "-register-all".
Close Scope Q_scope.
Open Scope string_scope.

(* ------------------------------------------------------------------ *)
(** ** Python values *)

Inductive pyval : Type :=
| VNone
| VBool (b : bool)
| VInt (z : Z)
| VStr (s : string)
| VList (l : list pyval)
| VDict (d : list (string * pyval)).

(** A [dict] with [str] keys, in insertion order. *)
Definition dict : Type := list (string * pyval).

(** [bool(v)]: what [if v:] and [not v] test. *)
Definition truthy (v : pyval) : bool :=
  match v with
  | VNone => false
  | VBool b => b
  | VInt z => negb (z =? 0)%Z
  | VStr s => match s with EmptyString => false | _ => true end
  | VList l => match l with [] => false | _ => true end
  | VDict d => match d with [] => false | _ => true end
  end.

Definition type_name (v : pyval) : string :=
  match v with
  | VNone => "NoneType"
  | VBool _ => "bool"
  | VInt _ => "int"
  | VStr _ => "str"
  | VList _ => "list"
  | VDict _ => "dict"
  end.

(** [d.get(k)] as an option. *)
Fixpoint dict_get (k : string) (d : dict) : option pyval :=
  match d with
  | [] => None
  | (k', v) :: d' => if String.eqb k k' then Some v else dict_get k d'
  end.

(** [k in d]. *)
Definition dict_has (k : string) (d : dict) : bool :=
  match dict_get k d with Some _ => true | None => false end.

(** [d[k] = v]: an existing key keeps its place, a new one goes last. *)
Fixpoint dict_set (k : string) (v : pyval) (d : dict) : dict :=
  match d with
  | [] => [(k, v)]
  | (k', v') :: d' =>
      if String.eqb k k' then (k, v) :: d' else (k', v') :: dict_set k v d'
  end.

(** [del d[k]] for a key that may be absent (as [d.pop(k, default)] leaves it). *)
Fixpoint dict_del (k : string) (d : dict) : dict :=
  match d with
  | [] => []
  | (k', v') :: d' =>
      if String.eqb k k' then d' else (k', v') :: dict_del k d'
  end.

(* ------------------------------------------------------------------ *)
(** ** Exceptions *)

(** [e.status_code] of a [TransportError]: an HTTP status, or the text
    ['N/A'] / ['TIMEOUT'] of the connection errors. *)
Inductive status_code := StatusInt (n : Z) | StatusText (s : string).

(** The classes of [elasticsearch.exceptions] the transport tells apart.
    [HttpStatusError] stands for [TransportError] itself and its
    per-status subclasses ([NotFoundError], [RequestError], ...);
    [ConnectionTimeout] and [SSLError] are subclasses of
    [ConnectionError]. *)
Inductive transport_kind :=
| HttpStatusError
| ConnectionError
| ConnectionTimeout
| SSLError.

Inductive exn :=
| TypeError (msg : string)
| KeyError (key : string)
| AttributeError (msg : string)
| ValueError (msg : string)
| TransportError (kind : transport_kind) (status : status_code) (info : string)
| OtherException (cls msg : string).

(** [isinstance(e, ConnectionTimeout)] and [isinstance(e, ConnectionError)]
    for a [TransportError] of kind [k]. *)
Definition isinstance_ConnectionTimeout (k : transport_kind) : bool :=
  match k with ConnectionTimeout => true | _ => false end.

Definition isinstance_ConnectionError (k : transport_kind) : bool :=
  match k with
  | ConnectionError | ConnectionTimeout | SSLError => true
  | HttpStatusError => false
  end.

Inductive result (A : Type) : Type :=
| Ok (a : A)
| Raise (e : exn).
Arguments Ok {A} a.
Arguments Raise {A} e.

(** Sequencing of operators that may raise. *)
Definition and_then {A B : Type} (r : result A) (f : A -> result B) : result B :=
  match r with
  | Ok a => f a
  | Raise e => Raise e
  end.

Notation "'let*' x ':=' r 'in' k" := (and_then r (fun x => k))
  (at level 10, x name, r at level 100, k at level 200).

(* ------------------------------------------------------------------ *)
(** ** The operators the code applies to values of unknown type *)

(** [s in t] for two strings. *)
Fixpoint is_prefix (s t : string) : bool :=
  match s, t with
  | EmptyString, _ => true
  | String a s', String b t' => Ascii.eqb a b && is_prefix s' t'
  | String _ _, EmptyString => false
  end.

Fixpoint is_substring (s t : string) : bool :=
  is_prefix s t ||
  match t with
  | EmptyString => false
  | String _ t' => is_substring s t'
  end.

(** [v[k]] for a [str] key [k]. *)
Definition py_getitem (v : pyval) (k : string) : result pyval :=
  match v with
  | VDict d =>
      match dict_get k d with
      | Some x => Ok x
      | None => Raise (KeyError k)
      end
  | VList _ => Raise (TypeError "list indices must be integers or slices, not str")
  | VStr _ => Raise (TypeError "string indices must be integers")
  | _ => Raise (TypeError ("'" ++ type_name v ++ "' object is not subscriptable"))
  end.

(** [for x in v]: the elements visited. *)
Definition py_iter (v : pyval) : result (list pyval) :=
  match v with
  | VList l => Ok l
  | VDict d => Ok (map (fun kv => VStr (fst kv)) d)
  | VStr s => Ok (map (fun c => VStr (String c EmptyString)) (list_ascii_of_string s))
  | _ => Raise (TypeError ("'" ++ type_name v ++ "' object is not iterable"))
  end.

(** [v.items()]. *)
Definition py_items (v : pyval) : result dict :=
  match v with
  | VDict d => Ok d
  | _ => Raise (AttributeError ("'" ++ type_name v ++ "' object has no attribute 'items'"))
  end.

(** [k in v] for a [str] [k]. *)
Definition py_contains (k : string) (v : pyval) : result bool :=
  match v with
  | VDict d => Ok (dict_has k d)
  | VList l =>
      Ok (existsb (fun x => match x with VStr s => String.eqb s k | _ => false end) l)
  | VStr s => Ok (is_substring k s)
  | _ => Raise (TypeError ("argument of type '" ++ type_name v ++ "' is not iterable"))
  end.

(** [len(v)]. *)
Definition py_len (v : pyval) : result Z :=
  match v with
  | VList l => Ok (Z.of_nat (List.length l))
  | VDict d => Ok (Z.of_nat (List.length d))
  | VStr s => Ok (Z.of_nat (String.length s))
  | _ => Raise (TypeError ("object of type '" ++ type_name v ++ "' has no len()"))
  end.

Definition int_of (v : pyval) : option Z :=
  match v with
  | VInt z => Some z
  | VBool b => Some (if b then 1 else 0)%Z
  | _ => None
  end.

(** The double quote, for the texts that contain one. *)
Definition dquote : string := String (ascii_of_nat 34) EmptyString.

(** [a + b]: concatenation of two [str] or two [list], the sum of two
    numbers ([bool] is a subclass of [int]); anything else is a
    [TypeError]. *)
Definition py_add (a b : pyval) : result pyval :=
  match a, b with
  | VStr s, VStr t => Ok (VStr (s ++ t))
  | VStr _, _ =>
      Raise (TypeError ("can only concatenate str (not " ++ dquote ++ type_name b
                        ++ dquote ++ ") to str"))
  | VList l, VList m => Ok (VList (l ++ m))
  | VList _, _ =>
      Raise (TypeError ("can only concatenate list (not " ++ dquote ++ type_name b
                        ++ dquote ++ ") to list"))
  | _, _ =>
      match int_of a, int_of b with
      | Some x, Some y => Ok (VInt (x + y))
      | _, _ =>
          Raise (TypeError ("unsupported operand type(s) for +: '" ++ type_name a
                            ++ "' and '" ++ type_name b ++ "'"))
      end
  end.

(** [v.encode("utf8")], given the encoder of [str]. *)
Definition py_encode (utf8 : string -> list byte) (v : pyval) : result (list byte) :=
  match v with
  | VStr s => Ok (utf8 s)
  | _ => Raise (AttributeError ("'" ++ type_name v ++ "' object has no attribute 'encode'"))
  end.

(** [k in item and item[k]], as a condition. *)
Definition present_and_truthy (k : string) (d : dict) : bool :=
  match dict_get k d with
  | Some v => truthy v
  | None => false
  end.

(** The line feed the bulk body is delimited with. *)
Definition newline : string := String (ascii_of_nat 10) EmptyString.

(** [range(n)]. *)
Definition range (n : Z) : list Z := map Z.of_nat (seq 0 (Z.to_nat n)).

(* ------------------------------------------------------------------ *)
(** ** The libraries *)

(** What the two files call and do not define: [hashlib.md5(b).hexdigest()],
    [s.encode("utf8")], [str(x)], [json.dumps(x)], the transport's
    [serializer.dumps] and [deserializer.loads], [traceback.format_exc()]
    and [str(e)].  The client's [JSONSerializer] hands a [str] back as it
    is, which is all the code relies on. *)
Class PyRuntime : Type := {
  md5_hexdigest : list byte -> string;
  encode_utf8 : string -> list byte;
  py_str : pyval -> string;
  json_dumps : pyval -> string;
  serializer_dumps : pyval -> result string;
  deserializer_loads : string -> pyval -> result pyval;
  format_exc : exn -> string;
  exn_str : exn -> string;
  serializer_dumps_str : forall s, serializer_dumps (VStr s) = Ok s
}.

(* ------------------------------------------------------------------ *)
(** ** The world the Elasticsearch client acts on *)

(** A reference to a record (a Python [dict] object) of the caller. *)
Definition addr : Type := nat.

(** What reaches [connection.perform_request]. *)
Record request := {
  rq_method : string;
  rq_url : string;
  rq_params : option dict;
  rq_body : option (list byte);
  rq_ignore : pyval;
  rq_timeout : pyval;
  rq_headers : option dict
}.

(** [(status, headers, raw_data)], or the exception raised. *)
Definition response : Type := result (Z * dict * string).

(** The transport's notes on its connections. *)
Inductive mark := Dead (connection : nat) | Live (connection : nat).

Record world := {
  heap : addr -> dict;          (* the caller's records *)
  log : list string;            (* [logging.error], oldest first *)
  clock : nat -> Z;             (* [int(time.time())] at the n-th reading *)
  ticks : nat;                  (* readings of the clock so far *)
  select : list mark -> nat;    (* [get_connection()], given the marks so far *)
  wire : nat -> nat -> request -> response;
                                (* the n-th [connection.perform_request], on a connection *)
  sent : list (nat * request);  (* the requests issued, oldest first *)
  marks : list mark             (* [mark_dead] / [mark_live], oldest first *)
}.

Definition with_heap (h : addr -> dict) (w : world) : world :=
  {| heap := h; log := log w; clock := clock w; ticks := ticks w;
     select := select w; wire := wire w; sent := sent w; marks := marks w |}.

Definition with_log (l : list string) (w : world) : world :=
  {| heap := heap w; log := l; clock := clock w; ticks := ticks w;
     select := select w; wire := wire w; sent := sent w; marks := marks w |}.

Definition with_ticks (n : nat) (w : world) : world :=
  {| heap := heap w; log := log w; clock := clock w; ticks := n;
     select := select w; wire := wire w; sent := sent w; marks := marks w |}.

Definition with_sent (s : list (nat * request)) (w : world) : world :=
  {| heap := heap w; log := log w; clock := clock w; ticks := ticks w;
     select := select w; wire := wire w; sent := s; marks := marks w |}.

Definition with_marks (m : list mark) (w : world) : world :=
  {| heap := heap w; log := log w; clock := clock w; ticks := ticks w;
     select := select w; wire := wire w; sent := sent w; marks := m |}.

(** A computation that reads and writes a state and may raise. *)
Definition ST (S A : Type) : Type := S -> result A * S.

Definition ret {S A : Type} (a : A) : ST S A := fun w => (Ok a, w).

Definition raise {S A : Type} (e : exn) : ST S A := fun w => (Raise e, w).

Definition bind {S A B : Type} (m : ST S A) (f : A -> ST S B) : ST S B :=
  fun w =>
    match m w with
    | (Ok a, w') => f a w'
    | (Raise e, w') => (Raise e, w')
    end.

(** A pure operator that may raise, inside a computation. *)
Definition lift {S A : Type} (r : result A) : ST S A := fun w => (r, w).

(** [try: m], handing the outcome to the handler that follows. *)
Definition catch {S A : Type} (m : ST S A) : ST S (result A) :=
  fun w => let (r, w') := m w in (Ok r, w').

(** The computations of the Elasticsearch client. *)
Definition M (A : Type) : Type := ST world A.

Declare Scope py_scope.
Delimit Scope py_scope with py.
Notation "x <- m ;; k" := (bind m (fun x => k))
  (at level 100, m at next level, right associativity) : py_scope.
Notation "m ;; k" := (bind m (fun _ => k))
  (at level 100, right associativity) : py_scope.
Open Scope py_scope.

(** [item[k] = v] on the record at [a]. *)
Definition setitem (a : addr) (k : string) (v : pyval) : M unit :=
  fun w =>
    (Ok tt,
     with_heap (fun x => if Nat.eqb x a then dict_set k v (heap w a) else heap w x) w).

(** The record at [a], as it is now. *)
Definition deref (a : addr) : M dict := fun w => (Ok (heap w a), w).

(** [int(time.time())]. *)
Definition time_time : M Z :=
  fun w => (Ok (clock w (ticks w)), with_ticks (S (ticks w)) w).

(** [logging.error(s)]. *)
Definition logging_error (s : string) : M unit :=
  fun w => (Ok tt, with_log (log w ++ [s]) w).

(** [self.get_connection()]. *)
Definition get_connection : M nat := fun w => (Ok (select w (marks w)), w).

(** [connection.perform_request(...)]: one request on the wire. *)
Definition connection_perform_request (connection : nat) (rq : request)
  : M (Z * dict * string) :=
  fun w =>
    (wire w (List.length (sent w)) connection rq,
     with_sent (sent w ++ [(connection, rq)]) w).

Definition mark_dead (connection : nat) : M unit :=
  fun w => (Ok tt, with_marks (marks w ++ [Dead connection]) w).

Definition mark_live (connection : nat) : M unit :=
  fun w => (Ok tt, with_marks (marks w ++ [Live connection]) w).

(* ------------------------------------------------------------------ *)
(** ** ESConfig.py: [MyAsyncTransport] *)

(** The transport's settings the two methods read. *)
Record transport := {
  max_retries : Z;
  retry_on_timeout : bool;
  retry_on_status : list Z;
  send_get_body_as : string
}.

(** [e.status_code == n] and [e.status_code in statuses]. *)
Definition status_is (s : status_code) (n : Z) : bool :=
  match s with
  | StatusInt m => (m =? n)%Z
  | StatusText _ => false
  end.

Definition status_in (s : status_code) (statuses : list Z) : bool :=
  existsb (status_is s) statuses.

(** [headers.get(k)]. *)
Definition headers_get (headers : dict) (k : string) : pyval :=
  match dict_get k headers with
  | Some v => v
  | None => VNone
  end.

(** The [retry] flag [main_loop] computes for a [TransportError]. *)
Definition should_retry (T : transport) (kind : transport_kind) (status : status_code)
  : bool :=
  if isinstance_ConnectionTimeout kind then retry_on_timeout T
  else if isinstance_ConnectionError kind then true
  else if status_in status (retry_on_status T) then true
  else false.

(** [if not actions: actions = "index"]. *)
Definition default_actions (actions : option string) : string :=
  match actions with
  | Some (String _ _ as a) => a
  | _ => "index"
  end.

Section ESConfig.
Context {RT : PyRuntime}.

(** The body of [for attempt in range(self.max_retries + 1)], over the
    attempts still to make.  Leaving the loop without a [return] makes
    the coroutine return [None]. *)
Fixpoint main_loop_for (T : transport) (rq : request) (attempts : list Z)
  : M pyval :=
  match attempts with
  | [] => ret VNone
  | attempt :: rest =>
      connection <- get_connection ;;
      r <- catch (connection_perform_request connection rq) ;;
      match r with
      | Raise (TransportError kind status info as e) =>
          if String.eqb (rq_method rq) "HEAD" && status_is status 404
          then ret (VBool false)
          else
            if should_retry T kind status then
              (* only mark as dead if we are retrying *)
              mark_dead connection ;;
              (* raise exception on last retry *)
              if (attempt =? max_retries T)%Z then raise e
              else main_loop_for T rq rest
            else raise e
      | Raise e => raise e
      | Ok (status, headers, data) =>
          if String.eqb (rq_method rq) "HEAD"
          then ret (VBool ((200 <=? status)%Z && (status <? 300)%Z))
          else
            (* connection didn't fail, confirm it's live status *)
            mark_live connection ;;
            if truthy (VStr data)
            then lift (deserializer_loads data (headers_get headers "content-type"))
            else ret (VStr data)
      end
  end.

Definition main_loop (T : transport) (method url : string) (params : option dict)
    (body : option (list byte)) (ignore timeout : pyval) (headers : option dict)
  : M pyval :=
  main_loop_for T
    {| rq_method := method; rq_url := url; rq_params := params; rq_body := body;
       rq_ignore := ignore; rq_timeout := timeout; rq_headers := headers |}
    (range (max_retries T + 1)).

(** [perform_request]: serialise the body, move a GET/HEAD body where
    [send_get_body_as] says, take [ignore] out of the parameters, and run
    [main_loop]. *)
Definition perform_request (T : transport) (method url : string)
    (params : option dict) (body : option pyval) (timeout : pyval)
    (headers : option dict) : M pyval :=
  placed <-
    match body with
    | None => ret (method, params, None)
    | Some b =>
        text <- lift (serializer_dumps b) ;;
        if (String.eqb method "HEAD" || String.eqb method "GET")
           && negb (String.eqb (send_get_body_as T) "GET")
        then
          if String.eqb (send_get_body_as T) "POST"
          then ret ("POST", params, Some text)
          else if String.eqb (send_get_body_as T) "source"
          then
            let params' := match params with Some p => p | None => [] end in
            ret (method, Some (dict_set "source" (VStr text) params'), None)
          else ret (method, params, Some text)
        else ret (method, params, Some text)
    end ;;
  let '(method, params, text) := placed in
  let body := option_map encode_utf8 text in
  let '(ignore, params) :=
    match params with
    | Some ((_ :: _) as p) =>
        let ignore := match dict_get "ignore" p with Some v => v | None => VList [] end in
        (match int_of ignore with Some _ => VList [ignore] | None => ignore end,
         Some (dict_del "ignore" p))
    | _ => (VList [], params)
    end in
  main_loop T method url params body ignore timeout headers.

(* ------------------------------------------------------------------ *)
(** ** ESConfig.py: [MyAsyncElasticsearch] *)

(** The bytes [default_id_hash_func] hashes: of [appCode + "_" + id]
    when the record has both and both are true, of [str(item)] otherwise. *)
Definition hash_input (d : dict) : result (list byte) :=
  if present_and_truthy "appCode" d && present_and_truthy "id" d
  then
    let* app_code := py_getitem (VDict d) "appCode" in
    let* id := py_getitem (VDict d) "id" in
    let* prefix := py_add app_code (VStr "_") in
    let* joined := py_add prefix id in
    py_encode encode_utf8 joined
  else Ok (encode_utf8 (py_str (VDict d))).

Definition default_id_hash_func (item : addr) : M pyval :=
  d <- deref item ;;
  value <- lift (hash_input d) ;;
  (if negb (dict_has "createDate" d)
   then now <- time_time ;; setitem item "createDate" (VInt now)
   else ret tt) ;;
  ret (VStr (md5_hexdigest value)).

(** The first loop of [add_dict_to_es]: stamp each record, compute its
    identifier, and append its two lines to [body]. *)
Fixpoint bulk_body (indices doc_type : pyval) (id_hash_func : addr -> M pyval)
    (app_code : pyval) (actions : string) (create_date : pyval)
    (items : list addr) (body : string) : M string :=
  match items with
  | [] => ret body
  | item :: rest =>
      (if truthy app_code then setitem item "appCode" app_code else ret tt) ;;
      (if truthy create_date then setitem item "createDate" create_date else ret tt) ;;
      id <- id_hash_func item ;;
      let action :=
        VDict [(actions, VDict [("_index", indices); ("_type", doc_type); ("_id", id)])] in
      d <- deref item ;;
      bulk_body indices doc_type id_hash_func app_code actions create_date rest
        (body ++ json_dumps action ++ newline ++ json_dumps (VDict d) ++ newline)
  end.

(** [for k, v in item.items()], over the pairs still to visit, with the
    counts [(success, fail)] so far. *)
Fixpoint count_results (error_if_fail : bool) (pairs : dict) (counts : Z * Z)
  : M (Z * Z) :=
  match pairs with
  | [] => ret counts
  | (k, v) :: rest =>
      failed <- lift (py_contains "error" v) ;;
      if failed : bool then
        (if error_if_fail
         then err <- lift (py_getitem v "error") ;; logging_error (json_dumps err)
         else ret tt) ;;
        count_results error_if_fail rest (fst counts, snd counts + 1)%Z
      else count_results error_if_fail rest (fst counts + 1, snd counts)%Z
  end.

(** [for item in r["items"]]. *)
Fixpoint count_items (error_if_fail : bool) (items : list pyval) (counts : Z * Z)
  : M (Z * Z) :=
  match items with
  | [] => ret counts
  | item :: rest =>
      pairs <- lift (py_items item) ;;
      counts' <- count_results error_if_fail pairs counts ;;
      count_items error_if_fail rest counts'
  end.

(** The [try] block of [add_dict_to_es]. *)
Definition bulk_request (T : transport) (body : string) (error_if_fail : bool)
    (timeout : pyval) : M (pyval * pyval * pyval) :=
  r <- perform_request T "POST" "/_bulk?pretty" None (Some (VStr body)) timeout None ;;
  errors <- lift (py_getitem r "errors") ;;
  if truthy errors then
    items <- lift (py_getitem r "items") ;;
    visited <- lift (py_iter items) ;;
    counts <- count_items error_if_fail visited (0, 0)%Z ;;
    ret (VInt (fst counts), VInt (snd counts), r)
  else
    items <- lift (py_getitem r "items") ;;
    success <- lift (py_len items) ;;
    ret (VInt success, VInt 0, r).

Definition add_dict_to_es (T : transport) (indices doc_type : pyval)
    (items : list addr) (id_hash_func : option (addr -> M pyval))
    (app_code : pyval) (actions : option string) (create_date : pyval)
    (error_if_fail : bool) (timeout : pyval) : M (pyval * pyval * pyval) :=
  let actions := default_actions actions in
  let id_hash_func :=
    match id_hash_func with
    | Some f => f
    | None => default_id_hash_func
    end in
  body <- bulk_body indices doc_type id_hash_func app_code actions create_date items "" ;;
  r <- catch (bulk_request T body error_if_fail timeout) ;;
  match r with
  | Ok counted => ret counted
  | Raise e =>
      logging_error (format_exc e) ;;
      logging_error ("elasticsearch Exception, give up: " ++ exn_str e) ;;
      ret (VNone, VNone, VNone)
  end.

End ESConfig.

(* ------------------------------------------------------------------ *)
(** ** ESConfig.py: [AIOHttpConnection] *)

(** What [session.request] and [response.text()] raise, as the handler
    of [perform_request] tells it apart: a [ServerFingerprintMismatch],
    an [asyncio.TimeoutError], or any other [Exception]; with [str(e)]. *)
Inductive session_error :=
| ServerFingerprintMismatch (msg : string)
| TimeoutError (msg : string)
| ClientError (cls msg : string).

Definition session_error_str (e : session_error) : string :=
  match e with
  | ServerFingerprintMismatch msg => msg
  | TimeoutError msg => msg
  | ClientError _ msg => msg
  end.

(** What is handed to [session.request], under the [aiohttp.Timeout] it
    runs in. *)
Record http_call := {
  call_method : string;
  call_url : string;
  call_data : option (list byte);
  call_headers : pyval;
  call_timeout : pyval
}.

(** How the session deals with a call: [session.request] raises and
    there is no response object; or there is one and [response.text()]
    raises; or the server's answer is read. *)
Inductive exchange :=
| RequestFails (e : session_error)
| TextFails (status : Z) (headers : dict) (e : session_error)
| Answered (status : Z) (headers : dict) (raw_data : string).

(** What a connection does that can be seen from outside, oldest first:
    the calls of its session, [response.release()], and the two logging
    methods of the client library (their [duration] argument, the only
    use of [self.loop.time()], is left out). *)
Inductive connection_event :=
| Requested (call : http_call)
| Released
| LogRequestFail (method url url_path : string) (body : option (list byte))
    (status_code : option Z) (response : option string)
    (exception : option session_error)
| LogRequestSuccess (method url url_path : string) (body : option (list byte))
    (status : Z) (raw_data : string).

(** [a or b]. *)
Definition py_or (a b : pyval) : pyval := if truthy a then a else b.

(** [local_headers = copy.deepcopy(es_headers); local_headers.update(headers)]. *)
Definition updated (es_headers : pyval) (headers : dict) : result pyval :=
  match es_headers with
  | VDict d => Ok (VDict (fold_left (fun d kv => dict_set (fst kv) (snd kv) d) headers d))
  | _ =>
      Raise (AttributeError ("'" ++ type_name es_headers
                             ++ "' object has no attribute 'update'"))
  end.

(** [status in ignore] for an [int] status. *)
Definition status_among (status : Z) (ignore : pyval) : result bool :=
  match ignore with
  | VList l =>
      Ok (existsb (fun x => match int_of x with
                            | Some n => (n =? status)%Z
                            | None => false
                            end) l)
  | VDict _ => Ok false
  | VStr _ => Raise (TypeError "'in <string>' requires string as left operand, not int")
  | _ => Raise (TypeError ("argument of type '" ++ type_name ignore
                           ++ "' is not iterable"))
  end.

(** The exception the handler raises in place of the session's. *)
Definition connection_error (e : session_error) : exn :=
  match e with
  | ServerFingerprintMismatch msg => TransportError SSLError (StatusText "N/A") msg
  | TimeoutError msg => TransportError ConnectionTimeout (StatusText "TIMEOUT") msg
  | ClientError _ msg => TransportError ConnectionError (StatusText "N/A") msg
  end.

Module AIOHttpConnection.

(** The attributes of a connection the method reads, and what its
    method [_raise_error], which is the client library's, reads from the
    raw data of a response as the error of the exception it raises. *)
Record t := {
  base_url : string;
  timeout : pyval;
  error_message : string -> string
}.

(** [self._raise_error(status_code, raw_data)], by the library's
    contract: it raises the exception class of the status
    ([HTTP_EXCEPTIONS.get(status_code, TransportError)], all of them
    [TransportError]s) with that status and the error read from the raw
    data. *)
Definition _raise_error (self : t) (status_code : Z) (raw_data : string) : exn :=
  TransportError HttpStatusError (StatusInt status_code) (error_message self raw_data).

Section Methods.
(** [es_headers] and [timeout_] are the arguments of the enclosing
    [init_es]; [urlencode] is the library's. *)
Variables (es_headers timeout_ : pyval) (urlencode : dict -> string).

Definition note (ev : connection_event) : ST (list connection_event) unit :=
  fun evs => (Ok tt, (evs ++ [ev])%list).

(** [perform_request], on a session that deals with the call as
    [session] says. *)
Definition perform_request (self : t) (session : http_call -> exchange)
    (method url : string) (params : option dict) (body : option (list byte))
    (timeout : pyval) (ignore : pyval) (headers : option dict)
  : ST (list connection_event) (Z * dict * string) :=
  let url_path :=
    match params with
    | Some ((_ :: _) as p) => url ++ "?" ++ urlencode p
    | _ => url
    end in
  let url := base_url self ++ url_path in
  local_headers <-
    match headers with
    | Some ((_ :: _) as h) => lift (updated es_headers h)
    | _ => ret es_headers
    end ;;
  let call :=
    {| call_method := method; call_url := url; call_data := body;
       call_headers := local_headers;
       call_timeout := py_or timeout (py_or timeout_ (AIOHttpConnection.timeout self)) |} in
  note (Requested call) ;;
  match session call with
  | RequestFails e =>
      note (LogRequestFail method url url_path body None None (Some e)) ;;
      raise (connection_error e)
  | TextFails status response_headers e =>
      note (LogRequestFail method url url_path body None None (Some e)) ;;
      note Released ;;
      raise (connection_error e)
  | Answered status response_headers raw_data =>
      note Released ;;
      failed <-
        (if (200 <=? status)%Z && (status <? 300)%Z then ret false
         else ignored <- lift (status_among status ignore) ;; ret (negb ignored)) ;;
      if failed : bool then
        note (LogRequestFail method url url_path body (Some status) (Some raw_data) None) ;;
        raise (_raise_error self status raw_data)
      else
        note (LogRequestSuccess method url url_path body status raw_data) ;;
        ret (status, response_headers, raw_data)
  end.

End Methods.
End AIOHttpConnection.

(** [get_es_client()]: a client for the hosts [init_es] recorded. *)
Record es_client := { hosts : pyval }.

Definition get_es_client (es_hosts : pyval) : es_client := {| hosts := es_hosts |}.

(** [init_es(hosts, es_headers, timeout_)]: records the hosts in the
    module's global and, when there are any, installs the two classes
    above.  The pair is the returned flag and the new [es_hosts]. *)
Definition init_es (hosts es_headers timeout_ : pyval) : bool * pyval :=
  (truthy hosts, hosts).

(* ------------------------------------------------------------------ *)
(** ** WriterConfig.py *)

(** [main_config] of [ConnectorConfig], which is not among the sources:
    the flags the constructors test and the path their messages quote. *)
Record main_config := {
  has_es_configured : bool;
  has_redis_configured : bool;
  has_mysql_configured : bool;
  ini_path : string
}.

(** A function object handed to a config ([filter_], [expand],
    [id_hash_func]), by reference: the configs only store it. *)
Definition callable : Type := nat.

(** The pool libraries ([aioredis], [aiomysql]) as the configs use them:
    every call is recorded, a constructor hands out a new object, and
    any call may raise. *)
Inductive pool_event :=
| CreateRedisPool (address : pyval * Z) (kwargs : dict) (pool : nat)
| CreatePool (host : pyval) (port : Z) (user password db : pyval) (loop : nat)
    (minsize maxsize : Z) (charset : pyval) (pool : nat)
| Acquire (pool connection : nat)
| Cursor (connection cur : nat)
| Release (pool : nat) (connection : option nat)
| Close (pool : nat)
| CreateTaskWaitClosed (loop pool : nat).

Record net := {
  fresh : nat;                  (* the next object *)
  fault : nat -> option exn;    (* what the n-th library call raises, if anything *)
  calls : nat;                  (* library calls so far *)
  events : list pool_event      (* the calls that went through, oldest first *)
}.

(** A library call that returns a new object. *)
Definition construct (ev : nat -> pool_event) : ST net nat :=
  fun n =>
    match fault n (calls n) with
    | Some e =>
        (Raise e, {| fresh := fresh n; fault := fault n; calls := S (calls n);
                     events := events n |})
    | None =>
        (Ok (fresh n),
         {| fresh := S (fresh n); fault := fault n; calls := S (calls n);
            events := events n ++ [ev (fresh n)] |})
    end.

(** A library call made for its effect. *)
Definition perform (ev : pool_event) : ST net unit :=
  fun n =>
    match fault n (calls n) with
    | Some e =>
        (Raise e, {| fresh := fresh n; fault := fault n; calls := S (calls n);
                     events := events n |})
    | None =>
        (Ok tt,
         {| fresh := fresh n; fault := fault n; calls := S (calls n);
            events := events n ++ [ev] |})
    end.

(** A method runs on its object [self] and on the libraries. *)
Definition on_net {C A : Type} (m : ST net A) : ST (C * net) A :=
  fun s => let (r, n) := m (snd s) in (r, (fst s, n)).

Definition self {C : Type} : ST (C * net) C := fun s => (Ok (fst s), s).

Definition assign {C : Type} (c : C) : ST (C * net) unit := fun s => (Ok tt, (c, snd s)).

(** How many pools the libraries were asked to build. *)
Definition is_construction (ev : pool_event) : bool :=
  match ev with
  | CreateRedisPool _ _ _ => true
  | CreatePool _ _ _ _ _ _ _ _ _ _ => true
  | _ => false
  end.

Definition constructions (n : net) : nat :=
  List.length (List.filter is_construction (events n)).

Module WESConfig.

Record t := {
  indices : pyval;
  doc_type : pyval;
  filter : option callable;
  expand : option callable;
  id_hash_func : option callable;
  es_client : es_client;
  app_code : pyval;
  actions : pyval;
  create_date : pyval;
  error_if_fail : bool;
  timeout : pyval;
  max_retry : Z;
  random_min_sleep : Q;
  random_max_sleep : Q;
  auto_insert_createDate : bool
}.

(** [WESConfig(indices, doc_type, ...)], given [main_config] and the
    module's [es_hosts]. *)
Definition __init__ (mc : main_config) (es_hosts : pyval)
    (indices doc_type : pyval) (filter_ expand id_hash_func : option callable)
    (appCode actions createDate : pyval) (error_if_fail : bool) (timeout : pyval)
    (max_retry : Z) (random_min_sleep random_max_sleep : Q)
    (auto_insert_createDate : bool) : result t :=
  if negb (has_es_configured mc) then
    Raise (ValueError ("You must config es_hosts before using Elasticsearch, "
                       ++ "Please edit configure file: " ++ ini_path mc))
  else
    Ok {| indices := indices; doc_type := doc_type; filter := filter_;
          expand := expand; id_hash_func := id_hash_func;
          es_client := get_es_client es_hosts; app_code := appCode;
          actions := actions; create_date := createDate;
          error_if_fail := error_if_fail; timeout := timeout;
          max_retry := max_retry; random_min_sleep := random_min_sleep;
          random_max_sleep := random_max_sleep;
          auto_insert_createDate := auto_insert_createDate |}.

End WESConfig.

(** The bound method [redis_write_method] holds. *)
Inductive redis_method := lpush (pool : nat) | rpush (pool : nat) | hset (pool : nat).

(** [a == b] for a value and a [str]. *)
Definition is_str (v : pyval) (s : string) : bool :=
  match v with
  | VStr t => String.eqb t s
  | _ => false
  end.

Module WRedisConfig.

Record t := {
  redis_pool_cli : option nat;
  key : pyval;
  host : pyval;
  port : Z;
  db : pyval;
  password : pyval;
  encoding : pyval;
  timeout : pyval;
  key_type : pyval;
  filter : option callable;
  name : string;
  redis_write_method : option redis_method;
  direction : pyval;
  max_retry : Z;
  random_min_sleep : Q;
  random_max_sleep : Q;
  compress : pyval;
  is_range : bool
}.

Section Methods.
Context {RT : PyRuntime}.

Definition __init__ (mc : main_config) (key key_type : pyval)
    (filter_ : option callable) (host : pyval) (port : Z)
    (db password timeout encoding direction : pyval) (max_retry : Z)
    (random_min_sleep random_max_sleep : Q) (compress : pyval) : result t :=
  if negb (has_redis_configured mc) && (port <=? 0)%Z then
    Raise (ValueError ("You must config redis before using Redis, "
                       ++ "Please edit configure file: " ++ ini_path mc))
  else if negb (is_str key_type "LIST" || is_str key_type "HASH") then
    Raise (ValueError "key_type must be one of (('LIST',))")
  else if negb (truthy encoding) then
    Raise (ValueError ("You must specific encoding, since I am going to load each "
                       ++ "object in json format, and treat it as dictionary in python"))
  else
    let password := if negb (truthy password) then VNone else password in
    Ok {| redis_pool_cli := None; key := key; host := host; port := port; db := db;
          password := password; encoding := encoding; timeout := timeout;
          key_type := key_type; filter := filter_;
          name := py_str host ++ "_" ++ py_str (VInt port) ++ "->" ++ py_str key;
          redis_write_method := None; direction := direction;
          max_retry := max_retry; random_min_sleep := random_min_sleep;
          random_max_sleep := random_max_sleep; compress := compress;
          is_range := is_str key_type "LIST" |}.

Definition set_pool (c : t) (pool : nat) : t :=
  {| redis_pool_cli := Some pool; key := key c; host := host c; port := port c;
     db := db c; password := password c; encoding := encoding c;
     timeout := timeout c; key_type := key_type c; filter := filter c;
     name := name c; redis_write_method := redis_write_method c;
     direction := direction c; max_retry := max_retry c;
     random_min_sleep := random_min_sleep c;
     random_max_sleep := random_max_sleep c; compress := compress c;
     is_range := is_range c |}.

Definition set_write_method (c : t) (m : redis_method) : t :=
  {| redis_pool_cli := redis_pool_cli c; key := key c; host := host c;
     port := port c; db := db c; password := password c; encoding := encoding c;
     timeout := timeout c; key_type := key_type c; filter := filter c;
     name := name c; redis_write_method := Some m;
     direction := direction c; max_retry := max_retry c;
     random_min_sleep := random_min_sleep c;
     random_max_sleep := random_max_sleep c; compress := compress c;
     is_range := is_range c |}.

Definition get_redis_pool_cli : ST (t * net) nat :=
  c <- self ;;
  match redis_pool_cli c with
  | None =>
      let kwargs : dict :=
        [("db", db c); ("password", password c); ("encoding", encoding c);
         ("timeout", timeout c); ("minsize", VInt 1); ("maxsize", VInt 3)] in
      let kwargs := if truthy (compress c) then dict_del "encoding" kwargs else kwargs in
      pool <- on_net (construct (CreateRedisPool (host c, port c) kwargs)) ;;
      assign (set_pool c pool) ;;
      c <- self ;;
      assign (set_write_method c
                (if is_str (key_type c) "LIST"
                 then if is_str (direction c) "L" then lpush pool else rpush pool
                 else hset pool)) ;;
      ret pool
  | Some pool => ret pool
  end.

End Methods.
End WRedisConfig.

Module WMySQLConfig.

Record t := {
  table : pyval;
  database : pyval;
  max_retry : Z;
  random_min_sleep : Q;
  random_max_sleep : Q;
  filter : option callable;
  name : string;
  host : pyval;
  port : Z;
  user : pyval;
  password : pyval;
  encoding : pyval;
  loop : nat;
  mysql_pool_cli : option nat;
  connection : option nat;
  cursor : option nat
}.

Section Methods.
Context {RT : PyRuntime}.

(** [WMySQLConfig(table, ...)], given [main_config], whether the module
    could import [aiomysql], and the loop [asyncio.get_event_loop()]
    answers with. *)
Definition __init__ (mc : main_config) (aiomysql_imported : bool) (event_loop : nat)
    (table : pyval) (filter_ : option callable) (max_retry : Z)
    (random_min_sleep random_max_sleep : Q) (host : pyval) (port : Z)
    (user password database encoding : pyval) (loop : option nat) : result t :=
  if negb (has_mysql_configured mc) && (port <=? 0)%Z then
    Raise (ValueError ("You must config mysql before using MySQL, "
                       ++ "Please edit configure file: " ++ ini_path mc))
  else if negb aiomysql_imported then
    Raise (ValueError ("module mysql disabled, please reinstall "
                       ++ "requirements with python version higher than 3.5.3 to enable it"))
  else
    let password := if negb (truthy password) then VStr "" else password in
    let loop := match loop with Some l => l | None => event_loop end in
    Ok {| table := table; database := database; max_retry := max_retry;
          random_min_sleep := random_min_sleep;
          random_max_sleep := random_max_sleep; filter := filter_;
          name := py_str table ++ "->" ++ py_str database;
          host := host; port := port; user := user; password := password;
          encoding := encoding; loop := loop;
          mysql_pool_cli := None; connection := None; cursor := None |}.

(** The three attributes the pool methods assign. *)
Definition set_handles (c : t) (pool conn cur : option nat) : t :=
  {| table := table c; database := database c; max_retry := max_retry c;
     random_min_sleep := random_min_sleep c;
     random_max_sleep := random_max_sleep c; filter := filter c;
     name := name c; host := host c; port := port c; user := user c;
     password := password c; encoding := encoding c; loop := loop c;
     mysql_pool_cli := pool; connection := conn; cursor := cur |}.

Definition get_mysql_pool_cli : ST (t * net) nat :=
  c <- self ;;
  match mysql_pool_cli c with
  | None =>
      pool <- on_net (construct (CreatePool (host c) (port c) (user c) (password c)
                                   (database c) (loop c) 1 3 (encoding c))) ;;
      assign (set_handles c (Some pool) (connection c) (cursor c)) ;;
      conn <- on_net (construct (Acquire pool)) ;;
      c <- self ;;
      assign (set_handles c (mysql_pool_cli c) (Some conn) (cursor c)) ;;
      cur <- on_net (construct (Cursor conn)) ;;
      c <- self ;;
      assign (set_handles c (mysql_pool_cli c) (connection c) (Some cur)) ;;
      ret pool
  | Some pool => ret pool
  end.

Definition free_resource : ST (t * net) unit :=
  c <- self ;;
  match mysql_pool_cli c with
  | Some pool =>
      on_net (perform (Release pool (connection c))) ;;
      on_net (perform (Close pool)) ;;
      on_net (perform (CreateTaskWaitClosed (loop c) pool)) ;;
      assign (set_handles c None None None)
  | None => ret tt
  end.

End Methods.
End WMySQLConfig.

(* ------------------------------------------------------------------ *)
(** ** The retry policy of the writers *)

Module RetryPolicy.

(** How one invocation of the operation ends. *)
Inductive outcome (A : Type) : Type :=
| Success (a : A)
| Transient (e : exn)
| Fatal (e : exn).
Arguments Success {A} a.
Arguments Transient {A} e.
Arguments Fatal {A} e.

(** What [attempt] answers. *)
Inductive answer (A : Type) : Type :=
| Returned (a : A)
| Propagated (e : exn)
| Exhausted (e : exn).
Arguments Returned {A} a.
Arguments Propagated {A} e.
Arguments Exhausted {A} e.

(** [random.uniform(a, b)] from one draw [u] of the unit interval. *)
Definition uniform (a b u : Q) : Q := (a + (b - a) * u)%Q.

Record run (A : Type) : Type := {
  answered : answer A;
  invocations : nat;      (* how many times the operation ran *)
  sleeps : list Q         (* the delays slept, in seconds, oldest first *)
}.
Arguments answered {A} r.
Arguments invocations {A} r.
Arguments sleeps {A} r.

(** Modelled from the spec: the writers' retry loop, which is not among
    the sources (the configs above only carry its [max_retry],
    [random_min_sleep] and [random_max_sleep]).  Section 4.1:
    [attempt(operation, max_retry, min_sleep, max_sleep)] invokes
    [operation] up to [max_retry + 1] times; between attempts, not after
    the final one, it sleeps a duration drawn uniformly from
    [[min_sleep, max_sleep]]; it retries only on a transient failure,
    any other failure propagates immediately; on exhaustion it returns a
    failure.  [operation i] is how the [i]-th invocation ends and
    [draw i] the [i]-th draw of the unit interval. *)
Fixpoint attempt_from {A : Type} (operation : nat -> outcome A) (draw : nat -> Q)
    (min_sleep max_sleep : Q) (retries_left : nat) (i : nat) (slept : list Q)
  : run A :=
  match operation i with
  | Success a => {| answered := Returned a; invocations := S i; sleeps := slept |}
  | Fatal e => {| answered := Propagated e; invocations := S i; sleeps := slept |}
  | Transient e =>
      match retries_left with
      | O => {| answered := Exhausted e; invocations := S i; sleeps := slept |}
      | S retries =>
          attempt_from operation draw min_sleep max_sleep retries (S i)
            (slept ++ [uniform min_sleep max_sleep (draw i)])
      end
  end.

Definition attempt {A : Type} (operation : nat -> outcome A) (draw : nat -> Q)
    (max_retry : Z) (min_sleep max_sleep : Q) : run A :=
  attempt_from operation draw min_sleep max_sleep (Z.to_nat max_retry) 0 [].

End RetryPolicy.

(* ------------------------------------------------------------------ *)
(** ** A runtime to compute with

    The libraries as CPython has them, for text whose characters are
    below U+0100 (a [string] holds one character per [ascii], so the
    UTF-8 encoding of a character from U+0080 on takes two bytes) and
    for JSON numbers without fraction or exponent.  The properties
    below hold for every [PyRuntime]; this one runs them on examples. *)

Module CPython.

(** [hashlib.md5], RFC 1321, on 32-bit words held in [Z]. *)
Module MD5.
Local Open Scope Z_scope.

Definition mask32 : Z := 0xffffffff.
Definition add32 (a b : Z) : Z := Z.land (a + b) mask32.
Definition not32 (a : Z) : Z := Z.lxor a mask32.
Definition rotl32 (x c : Z) : Z :=
  Z.lor (Z.land (Z.shiftl x c) mask32) (Z.shiftr x (32 - c)).

Definition shifts : list Z :=
  [7; 12; 17; 22; 7; 12; 17; 22; 7; 12; 17; 22; 7; 12; 17; 22;
   5; 9; 14; 20; 5; 9; 14; 20; 5; 9; 14; 20; 5; 9; 14; 20;
   4; 11; 16; 23; 4; 11; 16; 23; 4; 11; 16; 23; 4; 11; 16; 23;
   6; 10; 15; 21; 6; 10; 15; 21; 6; 10; 15; 21; 6; 10; 15; 21].

Definition sines : list Z :=
  [0xd76aa478; 0xe8c7b756; 0x242070db; 0xc1bdceee;
   0xf57c0faf; 0x4787c62a; 0xa8304613; 0xfd469501;
   0x698098d8; 0x8b44f7af; 0xffff5bb1; 0x895cd7be;
   0x6b901122; 0xfd987193; 0xa679438e; 0x49b40821;
   0xf61e2562; 0xc040b340; 0x265e5a51; 0xe9b6c7aa;
   0xd62f105d; 0x02441453; 0xd8a1e681; 0xe7d3fbc8;
   0x21e1cde6; 0xc33707d6; 0xf4d50d87; 0x455a14ed;
   0xa9e3e905; 0xfcefa3f8; 0x676f02d9; 0x8d2a4c8a;
   0xfffa3942; 0x8771f681; 0x6d9d6122; 0xfde5380c;
   0xa4beea44; 0x4bdecfa9; 0xf6bb4b60; 0xbebfbc70;
   0x289b7ec6; 0xeaa127fa; 0xd4ef3085; 0x04881d05;
   0xd9d4d039; 0xe6db99e5; 0x1fa27cf8; 0xc4ac5665;
   0xf4292244; 0x432aff97; 0xab9423a7; 0xfc93a039;
   0x655b59c3; 0x8f0ccc92; 0xffeff47d; 0x85845dd1;
   0x6fa87e4f; 0xfe2ce6e0; 0xa3014314; 0x4e0811a1;
   0xf7537e82; 0xbd3af235; 0x2ad7d2bb; 0xeb86d391].

(** [n] bytes of [x], least significant first, and back. *)
Fixpoint le_bytes (n : nat) (x : Z) : list Z :=
  match n with
  | O => []
  | S n' => Z.land x 255 :: le_bytes n' (Z.shiftr x 8)
  end.

Fixpoint le_word (bs : list Z) : Z :=
  match bs with
  | [] => 0
  | b :: bs' => b + 256 * le_word bs'
  end.

(** The message, a 1 bit, zeros up to 56 modulo 64, and the bit length. *)
Definition pad (msg : list Z) : list Z :=
  let n := Z.of_nat (List.length msg) in
  msg ++ [128] ++ repeat 0 (Z.to_nat ((55 - n) mod 64)) ++ le_bytes 8 (8 * n).

Fixpoint words (n : nat) (bs : list Z) : list Z :=
  match n with
  | O => []
  | S n' => le_word (firstn 4 bs) :: words n' (skipn 4 bs)
  end.

Definition step (m : list Z) (st : Z * Z * Z * Z) (i : nat) : Z * Z * Z * Z :=
  let '(a, b, c, d) := st in
  let iz := Z.of_nat i in
  let '(f, g) :=
    if iz <? 16 then (Z.lor (Z.land b c) (Z.land (not32 b) d), iz)
    else if iz <? 32 then (Z.lor (Z.land d b) (Z.land (not32 d) c), (5 * iz + 1) mod 16)
    else if iz <? 48 then (Z.lxor b (Z.lxor c d), (3 * iz + 5) mod 16)
    else (Z.lxor c (Z.lor b (not32 d)), (7 * iz) mod 16) in
  let f' := add32 (add32 (add32 f a) (nth i sines 0)) (nth (Z.to_nat g) m 0) in
  (d, add32 b (rotl32 f' (nth i shifts 0)), b, c).

Definition block (st : Z * Z * Z * Z) (bs : list Z) : Z * Z * Z * Z :=
  let '(a0, b0, c0, d0) := st in
  let '(a, b, c, d) := fold_left (step (words 16 bs)) (seq 0 64) st in
  (add32 a0 a, add32 b0 b, add32 c0 c, add32 d0 d).

Fixpoint blocks (n : nat) (st : Z * Z * Z * Z) (bs : list Z) : Z * Z * Z * Z :=
  match n with
  | O => st
  | S n' => blocks n' (block st (firstn 64 bs)) (skipn 64 bs)
  end.

Definition digest (msg : list byte) : list Z :=
  let padded := pad (map (fun b => Z.of_N (Byte.to_N b)) msg) in
  let '(a, b, c, d) :=
    blocks (Nat.div (List.length padded) 64)
      (0x67452301, 0xefcdab89, 0x98badcfe, 0x10325476) padded in
  le_bytes 4 a ++ le_bytes 4 b ++ le_bytes 4 c ++ le_bytes 4 d.

Definition hex_digit (n : Z) : ascii :=
  ascii_of_nat (Z.to_nat (if n <? 10 then 48 + n else 87 + n)).

Definition hex_byte (b : Z) : string :=
  String (hex_digit (b / 16)) (String (hex_digit (b mod 16)) EmptyString).

Definition hexdigest (msg : list byte) : string :=
  String.concat "" (map hex_byte (digest msg)).

End MD5.

(** [s.encode("utf8")]. *)
Definition utf8 (s : string) : list byte :=
  flat_map
    (fun c =>
       let n := N_of_ascii c in
       if (n <? 128)%N then [byte_of_ascii c]
       else
         match Byte.of_N (192 + n / 64), Byte.of_N (128 + n mod 64) with
         | Some hi, Some lo => [hi; lo]
         | _, _ => []
         end)
    (list_ascii_of_string s).

Definition decimal (z : Z) : string := NilZero.string_of_int (Z.to_int z).

Definition code (c : ascii) : Z := Z.of_N (N_of_ascii c).

Definition chr (n : Z) : string := String (ascii_of_N (Z.to_N n)) EmptyString.

Definition backslash : string := chr 92.

(** One character inside a JSON string literal. *)
Definition json_escape (ensure_ascii : bool) (c : ascii) : string :=
  let n := code c in
  if (n =? 34)%Z then backslash ++ dquote
  else if (n =? 92)%Z then backslash ++ backslash
  else if (n =? 10)%Z then backslash ++ "n"
  else if (n =? 13)%Z then backslash ++ "r"
  else if (n =? 9)%Z then backslash ++ "t"
  else if (n =? 8)%Z then backslash ++ "b"
  else if (n =? 12)%Z then backslash ++ "f"
  else if (n <? 32)%Z || (ensure_ascii && (126 <? n)%Z)
       then backslash ++ "u00" ++ MD5.hex_byte n
  else String c EmptyString.

Definition json_string (ensure_ascii : bool) (s : string) : string :=
  dquote ++ String.concat "" (map (json_escape ensure_ascii) (list_ascii_of_string s))
         ++ dquote.

(** [json.dumps(v, ensure_ascii=...)] with the default separators. *)
Fixpoint dumps (ensure_ascii : bool) (v : pyval) : string :=
  match v with
  | VNone => "null"
  | VBool true => "true"
  | VBool false => "false"
  | VInt z => decimal z
  | VStr s => json_string ensure_ascii s
  | VList l => "[" ++ String.concat ", " (map (dumps ensure_ascii) l) ++ "]"
  | VDict d =>
      "{" ++ String.concat ", "
               (map (fun kv => json_string ensure_ascii (fst kv) ++ ": "
                               ++ dumps ensure_ascii (snd kv)) d) ++ "}"
  end.

(** [c.isprintable()] below U+0100. *)
Definition printable (n : Z) : bool :=
  ((32 <=? n) && (n <=? 126) || (161 <=? n) && negb (n =? 173))%Z.

(** [repr(s)] of a [str]: single quotes unless the text has one and no
    double quote. *)
Definition repr_str (s : string) : string :=
  let cs := list_ascii_of_string s in
  let has q := existsb (fun c => (code c =? q)%Z) cs in
  let quote := if has 39%Z && negb (has 34%Z) then 34%Z else 39%Z in
  let escape c :=
    let n := code c in
    if (n =? quote)%Z || (n =? 92)%Z then backslash ++ String c EmptyString
    else if (n =? 10)%Z then backslash ++ "n"
    else if (n =? 13)%Z then backslash ++ "r"
    else if (n =? 9)%Z then backslash ++ "t"
    else if printable n then String c EmptyString
    else backslash ++ "x" ++ MD5.hex_byte n in
  chr quote ++ String.concat "" (map escape cs) ++ chr quote.

Fixpoint repr (v : pyval) : string :=
  match v with
  | VNone => "None"
  | VBool true => "True"
  | VBool false => "False"
  | VInt z => decimal z
  | VStr s => repr_str s
  | VList l => "[" ++ String.concat ", " (map repr l) ++ "]"
  | VDict d =>
      "{" ++ String.concat ", "
               (map (fun kv => repr_str (fst kv) ++ ": " ++ repr (snd kv)) d) ++ "}"
  end.

(** [str(v)]. *)
Definition str (v : pyval) : string :=
  match v with
  | VStr s => s
  | _ => repr v
  end.

(** [json.loads]: a value and the text left after it.  [fuel] bounds
    the nesting of the calls; twice the length of the text is enough. *)
Definition is_space (c : ascii) : bool :=
  let n := code c in ((n =? 32) || (n =? 9) || (n =? 10) || (n =? 13))%Z.

Fixpoint skip_spaces (s : string) : string :=
  match s with
  | String c s' => if is_space c then skip_spaces s' else s
  | EmptyString => s
  end.

Fixpoint drop (n : nat) (s : string) : string :=
  match n, s with
  | S n', String _ s' => drop n' s'
  | _, _ => s
  end.

Definition hex_value (c : ascii) : option Z :=
  let n := code c in
  if ((48 <=? n) && (n <=? 57))%Z then Some (n - 48)%Z
  else if ((97 <=? n) && (n <=? 102))%Z then Some (n - 87)%Z
  else if ((65 <=? n) && (n <=? 70))%Z then Some (n - 55)%Z
  else None.

(** The characters of a string literal, after its opening quote. *)
Fixpoint parse_chars (s : string) : option (string * string) :=
  match s with
  | EmptyString => None
  | String c s' =>
      let n := code c in
      if (n =? 34)%Z then Some (EmptyString, s')
      else if (n <? 32)%Z then None
      else if (n =? 92)%Z then
        match s' with
        | String e s'' =>
            let m := code e in
            if (m =? 117)%Z then
              match s'' with
              | String h1 (String h2 (String h3 (String h4 rest))) =>
                  match hex_value h1, hex_value h2, hex_value h3, hex_value h4,
                        parse_chars rest with
                  | Some 0%Z, Some 0%Z, Some a, Some b, Some (text, after) =>
                      Some (chr (16 * a + b) ++ text, after)
                  | _, _, _, _, _ => None
                  end
              | _ => None
              end
            else
              let plain :=
                if ((m =? 34) || (m =? 92) || (m =? 47))%Z then Some m
                else if (m =? 110)%Z then Some 10%Z
                else if (m =? 114)%Z then Some 13%Z
                else if (m =? 116)%Z then Some 9%Z
                else if (m =? 98)%Z then Some 8%Z
                else if (m =? 102)%Z then Some 12%Z
                else None in
              match plain, parse_chars s'' with
              | Some k, Some (text, after) => Some (chr k ++ text, after)
              | _, _ => None
              end
        | EmptyString => None
        end
      else
        match parse_chars s' with
        | Some (text, after) => Some (String c text, after)
        | None => None
        end
  end.

Fixpoint parse_digits (s : string) (acc : Z) : Z * string :=
  match s with
  | String c s' =>
      let n := code c in
      if ((48 <=? n) && (n <=? 57))%Z then parse_digits s' (10 * acc + (n - 48))%Z
      else (acc, s)
  | EmptyString => (acc, s)
  end.

Definition starts_with_digit (s : string) : bool :=
  match s with
  | String c _ => ((48 <=? code c) && (code c <=? 57))%Z
  | EmptyString => false
  end.

(** An integer; a fraction or an exponent is outside [pyval]. *)
Definition parse_number (s : string) : option (pyval * string) :=
  let '(negative, digits) :=
    match s with
    | String c s' => if (code c =? 45)%Z then (true, s') else (false, s)
    | EmptyString => (false, s)
    end in
  if starts_with_digit digits then
    let '(n, after) := parse_digits digits 0%Z in
    match after with
    | String c _ =>
        if ((code c =? 46) || (code c =? 101) || (code c =? 69))%Z then None
        else Some (VInt (if negative then - n else n), after)
    | EmptyString => Some (VInt (if negative then - n else n), after)
    end
  else None.

Fixpoint parse_value (fuel : nat) (s : string) : option (pyval * string) :=
  match fuel with
  | O => None
  | S fuel' =>
      let s := skip_spaces s in
      match s with
      | EmptyString => None
      | String c s' =>
          let n := code c in
          if (n =? 123)%Z then
            match skip_spaces s' with
            | String c' after =>
                if (code c' =? 125)%Z then Some (VDict [], after)
                else
                  match parse_members fuel' s' with
                  | Some (d, after) => Some (VDict d, after)
                  | None => None
                  end
            | EmptyString => None
            end
          else if (n =? 91)%Z then
            match skip_spaces s' with
            | String c' after =>
                if (code c' =? 93)%Z then Some (VList [], after)
                else
                  match parse_elements fuel' s' with
                  | Some (l, after) => Some (VList l, after)
                  | None => None
                  end
            | EmptyString => None
            end
          else if (n =? 34)%Z then
            match parse_chars s' with
            | Some (text, after) => Some (VStr text, after)
            | None => None
            end
          else if is_prefix "null" s then Some (VNone, drop 4 s)
          else if is_prefix "true" s then Some (VBool true, drop 4 s)
          else if is_prefix "false" s then Some (VBool false, drop 5 s)
          else parse_number s
      end
  end
with parse_elements (fuel : nat) (s : string) : option (list pyval * string) :=
  match fuel with
  | O => None
  | S fuel' =>
      match parse_value fuel' s with
      | Some (v, after) =>
          match skip_spaces after with
          | String c after' =>
              if (code c =? 93)%Z then Some ([v], after')
              else if (code c =? 44)%Z then
                match parse_elements fuel' after' with
                | Some (l, rest) => Some (v :: l, rest)
                | None => None
                end
              else None
          | EmptyString => None
          end
      | None => None
      end
  end
with parse_members (fuel : nat) (s : string) : option (dict * string) :=
  match fuel with
  | O => None
  | S fuel' =>
      match skip_spaces s with
      | String q s' =>
          if (code q =? 34)%Z then
            match parse_chars s' with
            | Some (k, after_key) =>
                match skip_spaces after_key with
                | String colon after_colon =>
                    if (code colon =? 58)%Z then
                      match parse_value fuel' after_colon with
                      | Some (v, after) =>
                          match skip_spaces after with
                          | String c after' =>
                              if (code c =? 125)%Z then Some ([(k, v)], after')
                              else if (code c =? 44)%Z then
                                match parse_members fuel' after' with
                                | Some (d, rest) =>
                                    (* a repeated key keeps its first place
                                       and its last value *)
                                    Some (match dict_get k d with
                                          | Some v' => (k, v') :: dict_del k d
                                          | None => (k, v) :: d
                                          end, rest)
                                | None => None
                                end
                              else None
                          | EmptyString => None
                          end
                      | None => None
                      end
                    else None
                | EmptyString => None
                end
            | None => None
            end
          else None
      | EmptyString => None
      end
  end.

Definition SerializationError (data : string) : exn :=
  OtherException "SerializationError" data.

Definition json_loads (s : string) : result pyval :=
  match parse_value (2 * String.length s + 2) s with
  | Some (v, after) =>
      match skip_spaces after with
      | EmptyString => Ok v
      | String _ _ => Raise (SerializationError s)
      end
  | None => Raise (SerializationError s)
  end.

(** The error [_raise_error] of the library's [Connection] reads from
    the raw data of a response: the data themselves unless they are a
    JSON object with an [error], and then the [type] of that error when
    it has one.  (Data that are JSON and no object are left as they are
    here; the examples have none.) *)
Definition error_message (raw_data : string) : string :=
  match raw_data with
  | EmptyString => raw_data
  | String _ _ =>
      match json_loads raw_data with
      | Ok (VDict d) =>
          match dict_get "error" d with
          | Some (VDict e) =>
              match dict_get "type" e with
              | Some v => str v
              | None => str (VDict e)
              end
          | Some v => str v
          | None => raw_data
          end
      | _ => raw_data
      end
  end.

(** The part of a mimetype before its first semicolon. *)
Fixpoint before_semicolon (s : string) : string :=
  match s with
  | String c s' => if (code c =? 59)%Z then EmptyString else String c (before_semicolon s')
  | EmptyString => EmptyString
  end.

(** [Deserializer.loads(s, mimetype)]: JSON unless the mimetype names
    the text serializer; an unknown mimetype is an error. *)
Definition loads (s : string) (mimetype : pyval) : result pyval :=
  match mimetype with
  | VStr m =>
      let m := before_semicolon m in
      if String.eqb m "application/json" then json_loads s
      else if String.eqb m "text/plain" then Ok (VStr s)
      else Raise (SerializationError ("Unknown mimetype, unable to deserialize: " ++ m))
  | _ => json_loads s
  end.

Definition status_text (s : status_code) : string :=
  match s with
  | StatusInt n => decimal n
  | StatusText t => t
  end.

Definition class_name (e : exn) : string :=
  match e with
  | TypeError _ => "TypeError"
  | KeyError _ => "KeyError"
  | AttributeError _ => "AttributeError"
  | ValueError _ => "ValueError"
  | TransportError HttpStatusError _ _ => "TransportError"
  | TransportError ConnectionError _ _ => "ConnectionError"
  | TransportError ConnectionTimeout _ _ => "ConnectionTimeout"
  | TransportError SSLError _ _ => "SSLError"
  | OtherException cls _ => cls
  end.

(** [str(e)], in the shape the exception classes print; the text goes
    to the log only. *)
Definition exception_text (e : exn) : string :=
  match e with
  | TypeError msg | AttributeError msg | ValueError msg => msg
  | KeyError k => repr_str k
  | TransportError _ status info =>
      class_name e ++ "(" ++ status_text status ++ ", " ++ repr_str info ++ ")"
  | OtherException _ msg => msg
  end.

(** [traceback.format_exc()], without the frames. *)
Definition traceback (e : exn) : string :=
  "Traceback (most recent call last):" ++ newline
  ++ class_name e ++ ": " ++ exception_text e ++ newline.

Definition runtime : PyRuntime :=
  {| md5_hexdigest := MD5.hexdigest;
     encode_utf8 := utf8;
     py_str := str;
     json_dumps := dumps true;
     serializer_dumps := fun v =>
       match v with
       | VStr s => Ok s
       | _ => Ok (dumps false v)
       end;
     deserializer_loads := loads;
     format_exc := traceback;
     exn_str := exception_text;
     serializer_dumps_str := fun s => eq_refl |}.

(** [urllib.parse.urlencode] of a dict: [quote_plus] of each key and of
    [str] of each value. *)
Definition is_unreserved (c : ascii) : bool :=
  let n := code c in
  (((48 <=? n) && (n <=? 57)) || ((65 <=? n) && (n <=? 90))
   || ((97 <=? n) && (n <=? 122))
   || (n =? 95) || (n =? 46) || (n =? 45) || (n =? 126))%Z.

Definition upper_hex_digit (n : Z) : ascii :=
  ascii_of_nat (Z.to_nat (if n <? 10 then 48 + n else 55 + n)%Z).

Definition percent (b : byte) : string :=
  let n := Z.of_N (Byte.to_N b) in
  String (ascii_of_nat 37)
    (String (upper_hex_digit (n / 16)%Z)
       (String (upper_hex_digit (n mod 16)%Z) EmptyString)).

Definition quote_plus (s : string) : string :=
  String.concat ""
    (map (fun c =>
            if is_unreserved c then String c EmptyString
            else if (code c =? 32)%Z then "+"
            else String.concat "" (map percent (utf8 (String c EmptyString))))
       (list_ascii_of_string s)).

Definition urlencode (query : dict) : string :=
  String.concat "&"
    (map (fun kv => quote_plus (fst kv) ++ "=" ++ quote_plus (str (snd kv))) query).

End CPython.

(* ------------------------------------------------------------------ *)
(** ** Worlds and libraries to run the examples in *)

(** The error of a connection that cannot be opened. *)
Definition refused : exn :=
  TransportError ConnectionError (StatusText "N/A") "Cannot connect to host".

(** A world holding [records] at the addresses 0, 1, ..., whose clock
    reads 1530000000 first and a second more at each of the next
    readings, whose transport picks a new connection after each mark,
    and whose wire answers the n-th request with the n-th of
    [responses], refusing the connection once they are used up. *)
Definition a_world (records : list dict) (responses : list response) : world :=
  {| heap := fun a => nth a records [];
     log := [];
     clock := fun n => nth n [1530000000; 1530000001; 1530000002; 1530000003]%Z
                         1530000004%Z;
     ticks := 0;
     select := fun ms => List.length ms;
     wire := fun n _ _ => nth n responses (Raise refused);
     sent := [];
     marks := [] |}.

(** The transport with the client's defaults. *)
Definition a_transport : transport :=
  {| max_retries := 3; retry_on_timeout := false;
     retry_on_status := [502; 503; 504]%Z; send_get_body_as := "GET" |}.

(** The error of a document that is not there. *)
Definition not_found : exn := TransportError HttpStatusError (StatusInt 404) "Not Found".

(** The record with [appCode] weibo and [id] 123, and the same with
    the number 5 for [id]. *)
Definition weibo_123 : dict := [("appCode", VStr "weibo"); ("id", VStr "123")].
Definition weibo_5 : dict := [("appCode", VStr "weibo"); ("id", VInt 5)].

(** Three records to index, and the response of a server that took the
    first and the third and rejected the second. *)
Definition three_records : list dict :=
  [[("appCode", VStr "weibo"); ("id", VStr "1"); ("title", VStr "first")];
   [("appCode", VStr "weibo"); ("id", VStr "2"); ("title", VStr "second")];
   [("id", VStr "3"); ("likeCount", VInt 7)]].

Definition mapping_error : pyval :=
  VDict [("type", VStr "mapper_parsing_exception");
         ("reason", VStr "failed to parse [likeCount]")].

Definition partial_failure : pyval :=
  VDict [("took", VInt 30); ("errors", VBool true);
         ("items",
          VList [VDict [("index", VDict [("_id", VStr "a"); ("status", VInt 201)])];
                 VDict [("index", VDict [("_id", VStr "b"); ("status", VInt 400);
                                         ("error", mapping_error)])];
                 VDict [("index", VDict [("_id", VStr "c"); ("status", VInt 201)])]])].

Definition all_indexed : pyval :=
  VDict [("took", VInt 12); ("errors", VBool false);
         ("items",
          VList [VDict [("index", VDict [("_id", VStr "a"); ("status", VInt 201)])];
                 VDict [("index", VDict [("_id", VStr "b"); ("status", VInt 201)])];
                 VDict [("index", VDict [("_id", VStr "c"); ("status", VInt 201)])]])].

(** A response with status 200 that carries [v] as JSON. *)
Definition json_response (v : pyval) : response :=
  Ok (200%Z, [("content-type", VStr "application/json; charset=UTF-8")],
      CPython.dumps true v).

(** The three records on their way: the body assembled for them, the
    world it is assembled in, and the answer of the transport. *)
Definition assembled_three :=
  bulk_body (RT := CPython.runtime) (VStr "post20170630") (VStr "news")
    (default_id_hash_func (RT := CPython.runtime)) VNone "index" VNone [0; 1; 2] ""
    (a_world three_records [json_response partial_failure]).

Definition body_three : string :=
  match fst assembled_three with
  | Ok body => body
  | Raise _ => ""
  end.

Definition answered_three :=
  perform_request (RT := CPython.runtime) a_transport "POST" "/_bulk?pretty" None
    (Some (VStr body_three)) VNone None (snd assembled_three).

(** A settings file that configures the three services, and one that
    configures none. *)
Definition configured : main_config :=
  {| has_es_configured := true; has_redis_configured := true;
     has_mysql_configured := true; ini_path := "/root/idataapi-transform.ini" |}.

Definition unconfigured : main_config :=
  {| has_es_configured := false; has_redis_configured := false;
     has_mysql_configured := false; ini_path := "/root/idataapi-transform.ini" |}.

(** The Redis config and the MySQL config the constructors build from
    the usual arguments (see [WRedisConfig_built] and
    [WMySQLConfig_built] below). *)
Definition a_redis_config : WRedisConfig.t :=
  {| WRedisConfig.redis_pool_cli := None;
     WRedisConfig.key := VStr "my_key";
     WRedisConfig.host := VStr "localhost";
     WRedisConfig.port := 6379;
     WRedisConfig.db := VInt 0;
     WRedisConfig.password := VNone;
     WRedisConfig.encoding := VStr "utf8";
     WRedisConfig.timeout := VInt 10;
     WRedisConfig.key_type := VStr "LIST";
     WRedisConfig.filter := None;
     WRedisConfig.name := "localhost_6379->my_key";
     WRedisConfig.redis_write_method := None;
     WRedisConfig.direction := VStr "L";
     WRedisConfig.max_retry := 3;
     WRedisConfig.random_min_sleep := 1;
     WRedisConfig.random_max_sleep := 3;
     WRedisConfig.compress := VBool false;
     WRedisConfig.is_range := true |}.

Definition a_mysql_config : WMySQLConfig.t :=
  {| WMySQLConfig.table := VStr "my_table";
     WMySQLConfig.database := VStr "news";
     WMySQLConfig.max_retry := 3;
     WMySQLConfig.random_min_sleep := 1;
     WMySQLConfig.random_max_sleep := 3;
     WMySQLConfig.filter := None;
     WMySQLConfig.name := "my_table->news";
     WMySQLConfig.host := VStr "localhost";
     WMySQLConfig.port := 3306;
     WMySQLConfig.user := VStr "root";
     WMySQLConfig.password := VStr "";
     WMySQLConfig.encoding := VStr "utf8";
     WMySQLConfig.loop := 0;
     WMySQLConfig.mysql_pool_cli := None;
     WMySQLConfig.connection := None;
     WMySQLConfig.cursor := None |}.

(** Libraries that never fail and have handed out nothing yet. *)
Definition a_net : net :=
  {| fresh := 0; fault := fun _ => None; calls := 0; events := [] |}.

(* ------------------------------------------------------------------ *)
(** ** Vocabulary of the properties *)

(** How the n-th request a world has seen ended. *)
Definition outcome_at (w : world) (n : nat) : option response :=
  match nth_error (sent w) n with
  | Some (connection, rq) => Some (wire w n connection rq)
  | None => None
  end.

(** The failures [main_loop] retries, and the one it answers [False] to. *)
Definition retried (T : transport) (e : exn) : bool :=
  match e with
  | TransportError kind status _ => should_retry T kind status
  | _ => false
  end.

Definition head_not_found (rq : request) (e : exn) : bool :=
  match e with
  | TransportError _ status _ => String.eqb (rq_method rq) "HEAD" && status_is status 404
  | _ => false
  end.

(** What [main_loop] returns for a response that is no error. *)
Definition answer_of {RT : PyRuntime} (rq : request) (status : Z) (headers : dict)
    (data : string) : result pyval :=
  if String.eqb (rq_method rq) "HEAD"
  then Ok (VBool ((200 <=? status)%Z && (status <? 300)%Z))
  else if truthy (VStr data)
       then deserializer_loads data (headers_get headers "content-type")
       else Ok (VStr data).

(** What the loop of [add_dict_to_es] writes into a record before its
    identifier is computed, and what [default_id_hash_func] adds at the
    clock's reading [now]. *)
Definition stamp (app_code create_date : pyval) (d : dict) : dict :=
  let d := if truthy app_code then dict_set "appCode" app_code d else d in
  if truthy create_date then dict_set "createDate" create_date d else d.

Definition dated (now : Z) (d : dict) : dict :=
  if dict_has "createDate" d then d else dict_set "createDate" (VInt now) d.

(** The records [default_id_hash_func] can hash: [appCode] and [id] are
    both [str] when both are there and true. *)
Definition is_text (v : option pyval) : bool :=
  match v with
  | Some (VStr _) => true
  | _ => false
  end.

Definition text_keys (d : dict) : bool :=
  negb (present_and_truthy "appCode" d && present_and_truthy "id" d)
  || (is_text (dict_get "appCode" d) && is_text (dict_get "id" d)).

(** The two lines of a record in the bulk body, and the body of a batch
    given each record's identifier and content. *)
Definition action_line {RT : PyRuntime} (kind : string)
    (indices doc_type id : pyval) : string :=
  json_dumps (VDict [(kind, VDict [("_index", indices); ("_type", doc_type);
                                   ("_id", id)])]).

Definition record_lines {RT : PyRuntime} (kind : string) (indices doc_type : pyval)
    (entry : pyval * dict) : string :=
  action_line kind indices doc_type (fst entry) ++ newline
  ++ json_dumps (VDict (snd entry)) ++ newline.

Definition bulk_lines {RT : PyRuntime} (kind : string) (indices doc_type : pyval)
    (entries : list (pyval * dict)) : string :=
  fold_right (fun entry rest => record_lines kind indices doc_type entry ++ rest)
    "" entries.

(** The per-operation results of the items of a bulk response, the ones
    that report an error, and what a well-formed response looks like:
    every item an object whose values are objects. *)
Definition results_of (items : list pyval) : list pyval :=
  flat_map (fun item => match item with VDict d => map snd d | _ => [] end) items.

Definition has_error (v : pyval) : bool :=
  match v with
  | VDict d => dict_has "error" d
  | _ => false
  end.

Definition error_of (v : pyval) : pyval :=
  match v with
  | VDict d => match dict_get "error" d with Some e => e | None => VNone end
  | _ => VNone
  end.

Definition is_dict (v : pyval) : bool :=
  match v with
  | VDict _ => true
  | _ => false
  end.

Definition well_formed_items (items : list pyval) : bool :=
  forallb is_dict items && forallb is_dict (results_of items).

(** Two worlds that differ in the log at most. *)
Definition same_but_log (w w' : world) : Prop :=
  heap w' = heap w /\ ticks w' = ticks w /\ clock w' = clock w
  /\ sent w' = sent w /\ wire w' = wire w /\ select w' = select w
  /\ marks w' = marks w.

(** The world after the loop of [add_dict_to_es] has stamped the record
    at [item], and after [default_id_hash_func] has dated it. *)
Definition stamp_world (app_code create_date : pyval) (item : addr) (w : world)
  : world :=
  let w := if truthy app_code then snd (setitem item "appCode" app_code w) else w in
  if truthy create_date then snd (setitem item "createDate" create_date w) else w.

Definition date_world (item : addr) (w : world) : world :=
  if dict_has "createDate" (heap w item) then w
  else snd (setitem item "createDate" (VInt (clock w (ticks w)))
              (with_ticks (S (ticks w)) w)).

(** Two worlds that differ in the records and the clock's readings at
    most. *)
Definition same_but_heap (w w' : world) : Prop :=
  log w' = log w /\ clock w' = clock w /\ sent w' = sent w
  /\ wire w' = wire w /\ select w' = select w /\ marks w' = marks w.

(** The request a bulk write puts on the wire. *)
Definition bulk_rq {RT : PyRuntime} (body : string) (timeout : pyval) : request :=
  {| rq_method := "POST"; rq_url := "/_bulk?pretty"; rq_params := None;
     rq_body := Some (encode_utf8 body); rq_ignore := VList [];
     rq_timeout := timeout; rq_headers := None |}.

(* ------------------------------------------------------------------ *)
(** ** Vocabulary of the connection and of the pools *)

(** A status of the 2xx class. *)
Definition successful (status : Z) : bool := (200 <=? status)%Z && (status <? 300)%Z.

(** The calls a connection made of its session, and how many responses
    it released. *)
Definition issued (evs : list connection_event) : list http_call :=
  flat_map (fun ev => match ev with Requested call => [call] | _ => [] end) evs.

Definition releases (evs : list connection_event) : nat :=
  List.length (List.filter (fun ev => match ev with Released => true | _ => false end) evs).

(** The wire of a world whose connections are [AIOHttpConnection]s: the
    n-th request, on the connection [c], is performed by [connections c]
    on a session that deals with it as [sessions n c] says. *)
Definition wire_over (es_headers timeout_ : pyval) (urlencode : dict -> string)
    (connections : nat -> AIOHttpConnection.t)
    (sessions : nat -> nat -> http_call -> exchange)
  : nat -> nat -> request -> response :=
  fun n c rq =>
    fst (AIOHttpConnection.perform_request es_headers timeout_ urlencode
           (connections c) (sessions n c) (rq_method rq) (rq_url rq) (rq_params rq)
           (rq_body rq) (rq_timeout rq) (rq_ignore rq) (rq_headers rq) []).

(** Headers of a request that can be merged into [es_headers]: there
    are none, or [es_headers] is a dict. *)
Definition mergeable (es_headers : pyval) (headers : option dict) : bool :=
  match headers with
  | Some (_ :: _) => is_dict es_headers
  | _ => true
  end.

(** An error of the session other than a timeout. *)
Definition is_timeout (e : session_error) : bool :=
  match e with
  | TimeoutError _ => true
  | _ => false
  end.

(** The mark [main_loop] leaves for a request on [connection] that ended
    as [r]: dead when the failure is one it retries, live when a request
    other than HEAD was answered. *)
Definition mark_after (T : transport) (rq : request) (connection : nat) (r : response)
  : list mark :=
  match r with
  | Ok _ => if String.eqb (rq_method rq) "HEAD" then [] else [Live connection]
  | Raise e =>
      if head_not_found rq e then []
      else if retried T e then [Dead connection] else []
  end.

(** The marks of the requests [new], the first of which is the [n]-th
    request of the world with the wire [wire]. *)
Fixpoint marks_after (T : transport) (wire : nat -> nat -> request -> response)
    (n : nat) (new : list (nat * request)) : list mark :=
  match new with
  | [] => []
  | (connection, rq) :: rest =>
      (mark_after T rq connection (wire n connection rq)
       ++ marks_after T wire (S n) rest)%list
  end.

(** A connection to a local server, the headers [init_es] was given, and
    sessions that answer every call alike. *)
Definition a_connection : AIOHttpConnection.t :=
  {| AIOHttpConnection.base_url := "http://localhost:9200";
     AIOHttpConnection.timeout := VInt 10;
     AIOHttpConnection.error_message := CPython.error_message |}.

(** What a server says of an index it does not have. *)
Definition index_not_found : string :=
  CPython.dumps false
    (VDict [("error", VDict [("type", VStr "index_not_found_exception");
                             ("reason", VStr "no such index")]);
            ("status", VInt 404)]).

Definition json_headers : pyval := VDict [("Content-Type", VStr "application/json")].

Definition answering (status : Z) (raw_data : string) : http_call -> exchange :=
  fun _ => Answered status [("content-type", VStr "application/json")] raw_data.

Definition timing_out : http_call -> exchange :=
  fun _ => RequestFails (TimeoutError "").

(** A transport that also retries the requests that time out. *)
Definition a_patient_transport : transport :=
  {| max_retries := 2; retry_on_timeout := true;
     retry_on_status := [502; 503; 504]%Z; send_get_body_as := "GET" |}.

(** A transport for servers that take no body with GET: the body goes
    into the parameter [source]. *)
Definition a_source_transport : transport :=
  {| max_retries := 3; retry_on_timeout := false;
     retry_on_status := [502; 503; 504]%Z; send_get_body_as := "source" |}.

(** A query for everything. *)
Definition match_all : pyval := VDict [("query", VDict [("match_all", VDict [])])].

(** A world like [a_world] whose wire is a pool of such connections, on
    sessions that deal with the n-th request as the n-th of [exchanges]
    says and time out once they are used up. *)
Definition a_served_world (records : list dict) (exchanges : list (http_call -> exchange))
  : world :=
  {| heap := fun a => nth a records [];
     log := [];
     clock := fun n => nth n [1530000000; 1530000001; 1530000002; 1530000003]%Z
                         1530000004%Z;
     ticks := 0;
     select := fun ms => List.length ms;
     wire := wire_over json_headers VNone CPython.urlencode (fun _ => a_connection)
               (fun n _ => nth n exchanges timing_out);
     sent := [];
     marks := [] |}.

(** Libraries whose [k]-th call fails, the others going through. *)
Definition connection_refused : exn := OtherException "OSError" "Connection refused".

Definition a_failing_net (k : nat) : net :=
  {| fresh := 0;
     fault := fun n => if Nat.eqb n k then Some connection_refused else None;
     calls := 0;
     events := [] |}.

(* ------------------------------------------------------------------ *)
(** * Properties *)

Lemma append_assoc (a b c : string) : (a ++ b) ++ c = a ++ b ++ c.
Proof.
  induction a as [|x a IH]; simpl; [reflexivity | now rewrite IH].
Qed.

Lemma truthy_VStr (s : string) : s <> "" -> truthy (VStr s) = true.
Proof. destruct s; simpl; congruence. Qed.

Section DefaultIdentifier.
Context {RT : PyRuntime}.

(** The identifier is a function of the record's content: the digest of
    [hash_input], or the exception [hash_input] raises. *)
Lemma default_id_hash_func_result (item : addr) (w : world) :
  fst (default_id_hash_func item w)
  = match hash_input (heap w item) with
    | Ok value => Ok (VStr (md5_hexdigest value))
    | Raise e => Raise e
    end.
Proof.
  unfold default_id_hash_func, bind, deref, lift. simpl.
  destruct (hash_input (heap w item)) as [value|e]; [|reflexivity].
  destruct (dict_has "createDate" (heap w item)); reflexivity.
Qed.

Lemma hash_input_text (d : dict) (app id : string) :
  dict_get "appCode" d = Some (VStr app) ->
  dict_get "id" d = Some (VStr id) ->
  app <> "" -> id <> "" ->
  hash_input d = Ok (encode_utf8 (app ++ "_" ++ id)).
Proof.
  intros Ha Hi Na Ni. unfold hash_input, present_and_truthy, py_getitem.
  rewrite Ha, Hi, !truthy_VStr by assumption. simpl.
  now rewrite append_assoc.
Qed.

(** C1 (as amended). For a record whose [appCode] and [id] are both
    non-empty strings, the default identifier is the hex MD5 digest of
    the UTF-8 bytes of [appCode + "_" + id]; for a record that lacks one
    of the two fields, or holds a false value in one, it is the hex MD5
    digest of the UTF-8 bytes of [str(record)]; and two records with the
    same content get the same outcome, in whatever world they are
    hashed. *)
Theorem default_id_hash_func_digest (w : world) (item : addr) :
  (forall app id : string,
      dict_get "appCode" (heap w item) = Some (VStr app) ->
      dict_get "id" (heap w item) = Some (VStr id) ->
      app <> "" -> id <> "" ->
      fst (default_id_hash_func item w)
      = Ok (VStr (md5_hexdigest (encode_utf8 (app ++ "_" ++ id)))))
  /\ (present_and_truthy "appCode" (heap w item)
      && present_and_truthy "id" (heap w item) = false ->
      fst (default_id_hash_func item w)
      = Ok (VStr (md5_hexdigest (encode_utf8 (py_str (VDict (heap w item)))))))
  /\ (forall (w' : world) (item' : addr),
      heap w' item' = heap w item ->
      fst (default_id_hash_func item' w') = fst (default_id_hash_func item w)).
Proof.
  repeat split.
  - intros app id Ha Hi Na Ni.
    now rewrite default_id_hash_func_result, (hash_input_text _ app id).
  - intros Hno. rewrite default_id_hash_func_result.
    unfold hash_input. now rewrite Hno.
  - intros w' item' Hsame.
    now rewrite !default_id_hash_func_result, Hsame.
Qed.

End DefaultIdentifier.


Lemma default_id_hash_func_digest_witness :
  fst (default_id_hash_func (RT := CPython.runtime) 0 (a_world [weibo_123] []))
  = Ok (VStr (@md5_hexdigest CPython.runtime
                (@encode_utf8 CPython.runtime ("weibo" ++ "_" ++ "123")))).
Proof.
  exact (proj1 (default_id_hash_func_digest (RT := CPython.runtime)
                  (a_world [weibo_123] []) 0) "weibo" "123" eq_refl eq_refl
               ltac:(discriminate) ltac:(discriminate)).
Defined.
Example default_id_weibo_123 :
  fst (default_id_hash_func (RT := CPython.runtime) 0 (a_world [weibo_123] []))
  = Ok (VStr "8276ce0e3a9618d1d141a60ddcd51c82").
Proof. vm_compute. reflexivity. Qed.
Lemma default_id_hash_func_number_id :
  present_and_truthy "appCode" weibo_5 && present_and_truthy "id" weibo_5 = true
  /\ default_id_hash_func (RT := CPython.runtime) 0 (a_world [weibo_5] [])
     = (Raise (TypeError ("can only concatenate str (not " ++ dquote ++ "int"
                          ++ dquote ++ ") to str")),
        a_world [weibo_5] []).
Proof. split; reflexivity. Qed.

(* ------------------------------------------------------------------ *)
(** ** The retry loop of the transport *)

Section MainLoop.
Context {RT : PyRuntime}.
Variable T : transport.
Variable rq : request.

(** One turn of the loop, spelled out on the world. *)
Lemma main_loop_for_step (attempt : Z) (rest : list Z) (w : world) :
  main_loop_for T rq (attempt :: rest) w
  = let c := select w (marks w) in
    let w1 := with_sent (sent w ++ [(c, rq)]) w in
    match wire w (List.length (sent w)) c rq with
    | Raise e =>
        if head_not_found rq e then (Ok (VBool false), w1)
        else if retried T e then
          let w2 := with_marks (marks w ++ [Dead c]) w1 in
          if (attempt =? max_retries T)%Z then (Raise e, w2)
          else main_loop_for T rq rest w2
        else (Raise e, w1)
    | Ok (status, headers, data) =>
        (answer_of rq status headers data,
         if String.eqb (rq_method rq) "HEAD" then w1
         else with_marks (marks w ++ [Live c]) w1)
    end.
Proof.
  cbn [main_loop_for]. unfold bind at 1. unfold get_connection at 1.
  unfold bind at 1. unfold catch, connection_perform_request.
  destruct (wire w (List.length (sent w)) (select w (marks w)) rq)
    as [[[status headers] data]|e] eqn:Hwire; cbn zeta.
  - unfold answer_of. destruct (String.eqb (rq_method rq) "HEAD"); [reflexivity|].
    unfold bind, mark_live. cbn [fst snd].
    destruct (truthy (VStr data)); reflexivity.
  - destruct e as [msg|key|msg|msg|kind status info|cls msg]; try reflexivity.
    cbn [head_not_found retried].
    destruct (String.eqb (rq_method rq) "HEAD" && status_is status 404);
      [reflexivity|].
    destruct (should_retry T kind status); [|reflexivity].
    unfold bind at 1. unfold mark_dead at 1.
    destruct (attempt =? max_retries T)%Z; reflexivity.
Qed.


(** The loop touches nothing but the requests sent and the marks. *)
Lemma main_loop_for_frame (attempts : list Z) : forall w : world,
  let w' := snd (main_loop_for T rq attempts w) in
  heap w' = heap w /\ log w' = log w /\ ticks w' = ticks w
  /\ clock w' = clock w /\ wire w' = wire w /\ select w' = select w.
Proof.
  induction attempts as [|attempt rest IH]; intros w; [cbn; auto 10|].
  rewrite main_loop_for_step. cbn zeta.
  destruct (wire w _ _ rq) as [[[status headers] data]|e].
  - cbn [snd]. destruct (String.eqb (rq_method rq) "HEAD"); cbn; auto 10.
  - destruct (head_not_found rq e); [cbn; auto 10|].
    destruct (retried T e); [|cbn; auto 10].
    destruct (attempt =? max_retries T)%Z; [cbn; auto 10|].
    exact (IH (with_marks (marks w ++ [Dead (select w (marks w))])
                 (with_sent (sent w ++ [(select w (marks w), rq)]) w))).
Qed.

Lemma outcome_at_here (w w' : world) (c : nat) (tail : list (nat * request)) :
  sent w' = ((sent w ++ [(c, rq)]) ++ tail)%list -> wire w' = wire w ->
  outcome_at w' (List.length (sent w)) = Some (wire w (List.length (sent w)) c rq).
Proof.
  intros Hs Hw. unfold outcome_at. rewrite Hs, Hw, <- app_assoc.
  rewrite nth_error_app2 by lia. now rewrite Nat.sub_diag.
Qed.

(** The loop over the attempts [k, k + 1, ..., k + m - 1], of which the
    last is [max_retries]. *)
Lemma main_loop_for_trace (m : nat) : forall (k : nat) (w : world),
  m = 0 \/ Z.of_nat (k + m) = (max_retries T + 1)%Z ->
  let r := fst (main_loop_for T rq (map Z.of_nat (seq k m)) w) in
  let w' := snd (main_loop_for T rq (map Z.of_nat (seq k m)) w) in
  exists new : list (nat * request),
    sent w' = (sent w ++ new)%list
    /\ List.length new <= m
    /\ Forall (fun cr => snd cr = rq) new
    /\ (forall i, S i < List.length new ->
        exists e, outcome_at w' (List.length (sent w) + i) = Some (Raise e)
                  /\ retried T e = true /\ head_not_found rq e = false)
    /\ match new with
       | [] => r = Ok VNone /\ m = 0
       | _ :: _ =>
           match outcome_at w' (List.length (sent w') - 1) with
           | Some (Raise e) =>
               if head_not_found rq e then r = Ok (VBool false)
               else r = Raise e /\ (retried T e = true -> List.length new = m)
           | Some (Ok (status, headers, data)) => r = answer_of rq status headers data
           | None => False
           end
       end.
Proof.
  induction m as [|m IH]; intros k w Hk r w'.
  - exists []. subst r w'. cbn. rewrite app_nil_r. repeat split; auto.
    intros i Hi. inversion Hi.
  - subst r w'. cbn [seq map]. rewrite main_loop_for_step. cbn zeta.
    set (c := select w (marks w)).
    set (w1 := with_sent (sent w ++ [(c, rq)]) w).
    assert (Hone : forall w'' : world,
               sent w'' = (sent w ++ [(c, rq)])%list -> wire w'' = wire w ->
               outcome_at w'' (List.length (sent w'') - 1)
               = Some (wire w (List.length (sent w)) c rq)).
    { intros w'' Hs Hw.
      replace (List.length (sent w'') - 1) with (List.length (sent w))
        by (rewrite Hs, length_app; cbn; lia).
      apply (outcome_at_here w w'' c []); [now rewrite app_nil_r | exact Hw]. }
    destruct (wire w (List.length (sent w)) c rq)
      as [[[status headers] data]|e] eqn:Hwire.
    + exists [(c, rq)]. cbn [fst snd].
      assert (Hs : sent (if String.eqb (rq_method rq) "HEAD" then w1
                         else with_marks (marks w ++ [Live c]) w1)
                   = (sent w ++ [(c, rq)])%list)
        by (destruct (String.eqb (rq_method rq) "HEAD"); reflexivity).
      assert (Hw : wire (if String.eqb (rq_method rq) "HEAD" then w1
                         else with_marks (marks w ++ [Live c]) w1) = wire w)
        by (destruct (String.eqb (rq_method rq) "HEAD"); reflexivity).
      repeat split; [exact Hs | cbn; lia | repeat constructor | |].
      * intros i Hi. cbn in Hi. lia.
      * now rewrite (Hone _ Hs Hw).
    + destruct (head_not_found rq e) eqn:Hhead.
      { exists [(c, rq)]. cbn [fst snd].
        repeat split; [cbn; lia | repeat constructor | |].
        - intros i Hi. cbn in Hi. lia.
        - rewrite (Hone w1 eq_refl eq_refl). now rewrite Hhead. }
      destruct (retried T e) eqn:Hretry.
      2:{ exists [(c, rq)]. cbn [fst snd].
          repeat split; [cbn; lia | repeat constructor | |].
          - intros i Hi. cbn in Hi. lia.
          - rewrite (Hone w1 eq_refl eq_refl). rewrite Hhead.
            split; [reflexivity | congruence]. }
      set (w2 := with_marks (marks w ++ [Dead c]) w1).
      destruct (Z.of_nat k =? max_retries T)%Z eqn:Hlast.
      { exists [(c, rq)]. cbn [fst snd].
        repeat split; [cbn; lia | repeat constructor | |].
        - intros i Hi. cbn in Hi. lia.
        - rewrite (Hone w2 eq_refl eq_refl). rewrite Hhead.
          split; [reflexivity|]. intros _. cbn.
          apply Z.eqb_eq in Hlast. destruct Hk as [Hk|Hk]; lia. }
      apply Z.eqb_neq in Hlast.
      assert (Hm : m <> 0) by (destruct Hk as [Hk|Hk]; lia).
      destruct (IH (S k) w2) as (new & Hsent & Hlen & Hall & Hmid & Hend);
        [right; destruct Hk as [Hk|Hk]; lia|].
      pose proof (main_loop_for_frame (map Z.of_nat (seq (S k) m)) w2)
        as (_ & _ & _ & _ & Hw & _).
      cbn zeta in Hw. change (wire w2) with (wire w) in Hw.
      change (sent w2) with (sent w ++ [(c, rq)])%list in Hsent, Hmid.
      exists ((c, rq) :: new).
      split; [now rewrite Hsent, <- app_assoc|].
      split; [cbn; lia|].
      split; [constructor; [reflexivity | exact Hall]|].
      split.
      * intros [|i] Hi.
        -- exists e. rewrite Nat.add_0_r.
           rewrite (outcome_at_here w _ c new Hsent Hw), Hwire. auto.
        -- destruct (Hmid i) as (e' & He' & Hr' & Hh'); [cbn in Hi; lia|].
           exists e'. rewrite length_app in He'. cbn in He'.
           replace (List.length (sent w) + S i) with (List.length (sent w) + 1 + i)
             by lia.
           auto.
      * destruct new as [|x new]; [destruct Hend; contradiction|].
        destruct (outcome_at _ _) as [[[[st hs] dt]|e']|]; auto.
        destruct (head_not_found rq e'); auto.
        destruct Hend as [Hr Hex]. split; [exact Hr|].
        intros Hr'. cbn in *. now rewrite (Hex Hr').
Qed.

End MainLoop.

(** The requests of one [main_loop]: appended to those already sent, at
    most [max_retries + 1] of them, each the request the loop was given,
    and at least one unless there is no attempt to make. *)
Lemma main_loop_sent {RT : PyRuntime} (T : transport) (method url : string)
    (params : option dict) (body : option (list byte)) (ignore timeout : pyval)
    (headers : option dict) (w : world) :
  exists new : list (nat * request),
    sent (snd (main_loop T method url params body ignore timeout headers w))
    = (sent w ++ new)%list
    /\ (Z.of_nat (List.length new) <= Z.max 0 (max_retries T + 1))%Z
    /\ Forall (fun cr => snd cr = {| rq_method := method; rq_url := url;
                                     rq_params := params; rq_body := body;
                                     rq_ignore := ignore; rq_timeout := timeout;
                                     rq_headers := headers |}) new
    /\ (new = [] -> (max_retries T + 1 <= 0)%Z).
Proof.
  unfold main_loop, range.
  set (rq := {| rq_method := method; rq_url := url; rq_params := params;
                rq_body := body; rq_ignore := ignore; rq_timeout := timeout;
                rq_headers := headers |}).
  set (m := Z.to_nat (max_retries T + 1)).
  assert (Hm : m = 0 \/ Z.of_nat (0 + m) = (max_retries T + 1)%Z) by lia.
  destruct (main_loop_for_trace T rq m 0 w Hm)
    as (new & Hsent & Hlen & Hall & _ & Hend).
  exists new. split; [exact Hsent|]. split; [lia|]. split; [exact Hall|].
  intros ->. destruct Hend as [_ H0]. lia.
Qed.

(** C5 (as amended). [main_loop] puts at most [max_retries + 1] requests
    on the wire, all of them the request it was given.  Every request
    but the last ended in a failure the loop retries (a connection
    error, a connection timeout when [retry_on_timeout] is set, or a
    status in [retry_on_status]).  The last one decides: a HEAD request
    answered with status 404 returns [False]; any other failure is
    raised, and it is a retried one only when the [max_retries + 1]
    attempts are used up; a response that is no failure is returned.
    With no attempt to make at all the loop returns [None]. *)
Theorem main_loop_attempts {RT : PyRuntime} (T : transport) (method url : string)
    (params : option dict) (body : option (list byte)) (ignore timeout : pyval)
    (headers : option dict) (w : world) :
  let rq := {| rq_method := method; rq_url := url; rq_params := params;
               rq_body := body; rq_ignore := ignore; rq_timeout := timeout;
               rq_headers := headers |} in
  let r := fst (main_loop T method url params body ignore timeout headers w) in
  let w' := snd (main_loop T method url params body ignore timeout headers w) in
  exists new : list (nat * request),
    sent w' = (sent w ++ new)%list
    /\ (Z.of_nat (List.length new) <= Z.max 0 (max_retries T + 1))%Z
    /\ Forall (fun cr => snd cr = rq) new
    /\ (forall i, S i < List.length new ->
        exists e, outcome_at w' (List.length (sent w) + i) = Some (Raise e)
                  /\ retried T e = true /\ head_not_found rq e = false)
    /\ match new with
       | [] => r = Ok VNone /\ (max_retries T + 1 <= 0)%Z
       | _ :: _ =>
           match outcome_at w' (List.length (sent w') - 1) with
           | Some (Raise e) =>
               if head_not_found rq e then r = Ok (VBool false)
               else r = Raise e
                    /\ (retried T e = true ->
                        Z.of_nat (List.length new) = (max_retries T + 1)%Z)
           | Some (Ok (status, headers, data)) => r = answer_of rq status headers data
           | None => False
           end
       end.
Proof.
  intros rq r w'. subst r w'. unfold main_loop, range. fold rq.
  set (m := Z.to_nat (max_retries T + 1)).
  assert (Hm : m = 0 \/ Z.of_nat (0 + m) = (max_retries T + 1)%Z) by lia.
  destruct (main_loop_for_trace T rq m 0 w Hm)
    as (new & Hsent & Hlen & Hall & Hmid & Hend).
  exists new. repeat split; try assumption; [lia|].
  destruct new as [|x new].
  - destruct Hend as [Hr H0]. split; [exact Hr | lia].
  - destruct (outcome_at _ _) as [[[[st hs] dt]|e]|]; auto.
    destruct (head_not_found rq e); auto.
    destruct Hend as [Hr Hex]. split; [exact Hr|].
    intros Hre. rewrite (Hex Hre). destruct Hm as [Hm|Hm]; [|lia].
    specialize (Hex Hre). cbn in Hex. lia.
Qed.


(** C5, counterexample. A HEAD request answered with status 404, which
    is not in [retry_on_status]: the failure is not one the loop
    retries, and it is not raised either; the loop returns [False]. *)
Lemma main_loop_head_404_returns_False :
  retried a_transport not_found = false
  /\ outcome_at
       (snd (main_loop (RT := CPython.runtime) a_transport "HEAD" "/news/post/1"
               None None (VList []) VNone None (a_world [] [Raise not_found]))) 0
     = Some (Raise not_found)
  /\ fst (main_loop (RT := CPython.runtime) a_transport "HEAD" "/news/post/1"
            None None (VList []) VNone None (a_world [] [Raise not_found]))
     = Ok (VBool false).
Proof. repeat split. Qed.

(** A server that refuses every connection, with [max_retries = 3]: four
    requests, then the error is raised. *)
Example main_loop_gives_up_after_four :
  let run := main_loop (RT := CPython.runtime) a_transport "POST" "/_bulk?pretty"
               None None (VList []) VNone None (a_world [] []) in
  fst run = Raise refused /\ List.length (sent (snd run)) = 4
  /\ marks (snd run) = [Dead 0; Dead 1; Dead 2; Dead 3].
Proof. repeat split. Qed.

(** A status the loop does not retry is raised at once. *)
Example main_loop_raises_400_at_once :
  let bad := TransportError HttpStatusError (StatusInt 400) "Bad Request" in
  let run := main_loop (RT := CPython.runtime) a_transport "POST" "/_bulk?pretty"
               None None (VList []) VNone None (a_world [] [Raise bad]) in
  fst run = Raise bad /\ List.length (sent (snd run)) = 1 /\ marks (snd run) = [].
Proof. repeat split. Qed.

(* ------------------------------------------------------------------ *)
(** ** The bulk request and its response *)

Section BulkRequest.
Context {RT : PyRuntime}.

(** The bulk call reaches [main_loop] as a POST of the encoded body. *)
Lemma perform_request_bulk (T : transport) (body : string) (timeout : pyval) (w : world) :
  perform_request T "POST" "/_bulk?pretty" None (Some (VStr body)) timeout None w
  = main_loop T "POST" "/_bulk?pretty" None (Some (encode_utf8 body)) (VList [])
      timeout None w.
Proof.
  unfold perform_request, bind, lift. now rewrite serializer_dumps_str.
Qed.

(** The counting loops write to the log only. *)
Lemma same_but_log_refl (w : world) : same_but_log w w.
Proof. unfold same_but_log. auto 10. Qed.

Lemma same_but_log_trans (w1 w2 w3 : world) :
  same_but_log w1 w2 -> same_but_log w2 w3 -> same_but_log w1 w3.
Proof. unfold same_but_log. intuition congruence. Qed.

Lemma count_results_frame (error_if_fail : bool) (pairs : dict) :
  forall (counts : Z * Z) (w : world),
  same_but_log w (snd (count_results error_if_fail pairs counts w)).
Proof.
  induction pairs as [|[k v] rest IH]; intros counts w;
    [apply same_but_log_refl|].
  cbn [count_results]. unfold bind at 1, lift at 1.
  destruct (py_contains "error" v) as [[|]|e];
    [| apply IH | apply same_but_log_refl].
  unfold bind at 1.
  destruct error_if_fail; [|apply IH].
  unfold bind at 1, lift at 1.
  destruct (py_getitem v "error") as [err|e]; [|apply same_but_log_refl].
  unfold logging_error at 1.
  exact (IH _ (with_log (log w ++ [json_dumps err]) w)).
Qed.

Lemma count_items_frame (error_if_fail : bool) (items : list pyval) :
  forall (counts : Z * Z) (w : world),
  same_but_log w (snd (count_items error_if_fail items counts w)).
Proof.
  induction items as [|item rest IH]; intros counts w;
    [apply same_but_log_refl|].
  cbn [count_items]. unfold bind at 1, lift at 1.
  destruct (py_items item) as [pairs|e]; [|apply same_but_log_refl].
  unfold bind at 1.
  pose proof (count_results_frame error_if_fail pairs counts w) as Hin.
  destruct (count_results error_if_fail pairs counts w) as [[counts'|e] w1];
    cbn [snd] in Hin; [|exact Hin].
  exact (same_but_log_trans _ _ _ Hin (IH counts' w1)).
Qed.

(** One turn of the inner loop, on a result that is an object. *)
Lemma count_results_step (error_if_fail : bool) (k : string) (d rest : dict)
    (counts : Z * Z) (w : world) :
  count_results error_if_fail ((k, VDict d) :: rest) counts w
  = if dict_has "error" d
    then count_results error_if_fail rest (fst counts, (snd counts + 1)%Z)
           (if error_if_fail
            then with_log (log w ++ [json_dumps (error_of (VDict d))]) w
            else w)
    else count_results error_if_fail rest ((fst counts + 1)%Z, snd counts) w.
Proof.
  cbn [count_results]. unfold bind at 1, lift at 1. cbn [py_contains error_of].
  unfold dict_has. destruct (dict_get "error" d) as [err|] eqn:Herr; [|reflexivity].
  unfold bind at 1. destruct error_if_fail; [|reflexivity].
  unfold bind at 1, lift at 1. cbn [py_getitem]. rewrite Herr. reflexivity.
Qed.

(** The inner loop on results that are objects: one count per result,
    one log line per failed result when [error_if_fail] is set. *)
Lemma count_results_counts (error_if_fail : bool) (pairs : dict) :
  forall (counts : Z * Z) (w : world),
  forallb is_dict (map snd pairs) = true ->
  fst (count_results error_if_fail pairs counts w)
  = Ok ((fst counts
         + Z.of_nat (List.length (List.filter (fun v => negb (has_error v))
                                    (map snd pairs))))%Z,
        (snd counts
         + Z.of_nat (List.length (List.filter has_error (map snd pairs))))%Z)
  /\ log (snd (count_results error_if_fail pairs counts w))
     = (log w ++ if error_if_fail
                 then map (fun v => json_dumps (error_of v))
                        (List.filter has_error (map snd pairs))
                 else [])%list.
Proof.
  induction pairs as [|[k v] rest IH]; intros counts w Hwf.
  - cbn. rewrite !Z.add_0_r. destruct counts, error_if_fail; rewrite app_nil_r; auto.
  - cbn [map forallb snd] in Hwf. apply andb_prop in Hwf as [Hv Hrest].
    destruct v as [| | | | |d]; try discriminate Hv.
    rewrite count_results_step. cbn [map List.filter snd has_error].
    destruct (dict_has "error" d); cbn [negb].
    + destruct (IH (fst counts, (snd counts + 1)%Z)
                  (if error_if_fail
                   then with_log (log w ++ [json_dumps (error_of (VDict d))]) w
                   else w) Hrest) as [Hr Hl].
      rewrite Hr, Hl. cbn [fst snd List.length map].
      split; [f_equal; f_equal; lia|].
      destruct error_if_fail; [cbn [log with_log]; now rewrite <- app_assoc | reflexivity].
    + destruct (IH ((fst counts + 1)%Z, snd counts) w Hrest) as [Hr Hl].
      rewrite Hr, Hl. cbn [fst snd List.length].
      split; [f_equal; f_equal; lia | reflexivity].
Qed.

Lemma count_items_counts (error_if_fail : bool) (items : list pyval) :
  forall (counts : Z * Z) (w : world),
  well_formed_items items = true ->
  fst (count_items error_if_fail items counts w)
  = Ok ((fst counts
         + Z.of_nat (List.length (List.filter (fun v => negb (has_error v))
                                    (results_of items))))%Z,
        (snd counts
         + Z.of_nat (List.length (List.filter has_error (results_of items))))%Z)
  /\ log (snd (count_items error_if_fail items counts w))
     = (log w ++ if error_if_fail
                 then map (fun v => json_dumps (error_of v))
                        (List.filter has_error (results_of items))
                 else [])%list.
Proof.
  unfold well_formed_items.
  induction items as [|item rest IH]; intros counts w Hwf.
  - cbn. rewrite !Z.add_0_r. destruct counts, error_if_fail; rewrite app_nil_r; auto.
  - apply andb_prop in Hwf as [Hitems Hres]. cbn [forallb] in Hitems.
    apply andb_prop in Hitems as [Hitem Hitems].
    destruct item as [| | | | |d]; try discriminate Hitem.
    change (results_of (VDict d :: rest)) with (map snd d ++ results_of rest)%list
      in Hres |- *.
    rewrite forallb_app in Hres. apply andb_prop in Hres as [Hd Hres].
    cbn [count_items]. unfold bind, lift. cbn [py_items].
    destruct (count_results_counts error_if_fail d counts w Hd) as [Hr Hl].
    destruct (count_results error_if_fail d counts w) as [r1 w1].
    cbn [fst snd] in Hr, Hl. subst r1.
    destruct (IH (fst counts + Z.of_nat (List.length (List.filter
                    (fun v => negb (has_error v)) (map snd d))),
                  snd counts + Z.of_nat (List.length (List.filter has_error
                    (map snd d))))%Z w1) as [Hr' Hl'];
      [now rewrite Hitems, Hres|].
    cbv iota beta. rewrite Hr', Hl', Hl. cbn [fst snd].
    rewrite !filter_app, !length_app.
    split; [f_equal; f_equal; lia|].
    rewrite <- app_assoc. destruct error_if_fail; [|reflexivity].
    now rewrite map_app.
Qed.

(** The [try] block, given what the transport returned. *)
Lemma bulk_request_counts (T : transport) (body : string) (error_if_fail : bool)
    (timeout : pyval) (w w1 : world) (r errors : pyval) (ritems : list pyval) :
  perform_request T "POST" "/_bulk?pretty" None (Some (VStr body)) timeout None w
  = (Ok r, w1) ->
  py_getitem r "errors" = Ok errors ->
  py_getitem r "items" = Ok (VList ritems) ->
  well_formed_items ritems = true ->
  fst (bulk_request T body error_if_fail timeout w)
  = Ok (if truthy errors
        then (VInt (Z.of_nat (List.length (List.filter (fun v => negb (has_error v))
                                             (results_of ritems)))),
              VInt (Z.of_nat (List.length (List.filter has_error (results_of ritems)))),
              r)
        else (VInt (Z.of_nat (List.length ritems)), VInt 0, r))
  /\ log (snd (bulk_request T body error_if_fail timeout w))
     = (log w1 ++ if truthy errors && error_if_fail
                  then map (fun v => json_dumps (error_of v))
                         (List.filter has_error (results_of ritems))
                  else [])%list.
Proof.
  intros Hreq Herrors Hitems Hwf. unfold bulk_request, bind, lift.
  rewrite Hreq, Herrors. destruct (truthy errors); rewrite Hitems; cbn [py_iter py_len].
  - destruct (count_items_counts error_if_fail ritems (0, 0)%Z w1 Hwf) as [Hr Hl].
    destruct (count_items error_if_fail ritems (0, 0)%Z w1) as [r1 w2].
    cbn [fst snd] in Hr, Hl. subst r1. cbn [fst snd ret andb]. auto.
  - cbn [fst snd ret andb]. now rewrite app_nil_r.
Qed.

(** Whatever the transport does, a [try] block that completes returns
    two numbers and the response. *)
Lemma bulk_request_returns_counts (T : transport) (body : string)
    (error_if_fail : bool) (timeout : pyval) (w : world)
    (counted : pyval * pyval * pyval) :
  fst (bulk_request T body error_if_fail timeout w) = Ok counted ->
  exists (success fail : Z) (r : pyval), counted = (VInt success, VInt fail, r).
Proof.
  unfold bulk_request, bind, lift.
  destruct (perform_request T _ _ _ _ _ _ w) as [[r|e] w1]; [|discriminate].
  destruct (py_getitem r "errors") as [errors|e]; [|discriminate].
  destruct (truthy errors); destruct (py_getitem r "items") as [items|e];
    try discriminate.
  - destruct (py_iter items) as [visited|e]; [|discriminate].
    destruct (count_items error_if_fail visited (0, 0)%Z w1) as [[counts|e] w2];
      [|discriminate].
    cbn. intros H. injection H as <-. eauto.
  - destruct (py_len items) as [n|e]; [|discriminate].
    cbn. intros H. injection H as <-. eauto.
Qed.

(** The request and the handling of its response leave the records alone. *)
Lemma bulk_request_heap (T : transport) (body : string) (error_if_fail : bool)
    (timeout : pyval) (w : world) :
  heap (snd (bulk_request T body error_if_fail timeout w)) = heap w.
Proof.
  unfold bulk_request, bind, lift. rewrite perform_request_bulk.
  pose proof (main_loop_for_frame T
                {| rq_method := "POST"; rq_url := "/_bulk?pretty"; rq_params := None;
                   rq_body := Some (encode_utf8 body); rq_ignore := VList [];
                   rq_timeout := timeout; rq_headers := None |}
                (range (max_retries T + 1)) w) as (Hheap & _).
  cbn zeta in Hheap. unfold main_loop.
  destruct (main_loop_for T _ _ w) as [[r|e] w1]; cbn [snd] in Hheap |- *;
    [|exact Hheap].
  destruct (py_getitem r "errors") as [errors|e]; [|exact Hheap].
  destruct (truthy errors); destruct (py_getitem r "items") as [items|e];
    try exact Hheap.
  - destruct (py_iter items) as [visited|e]; [|exact Hheap].
    pose proof (count_items_frame error_if_fail visited (0, 0)%Z w1) as (Hc & _).
    destruct (count_items error_if_fail visited (0, 0)%Z w1) as [[counts|e] w2];
      unfold ret; cbn [snd] in Hc |- *; congruence.
  - destruct (py_len items) as [n|e]; exact Hheap.
Qed.

End BulkRequest.

(* ------------------------------------------------------------------ *)
(** ** [add_dict_to_es] as a whole *)

Section AddDictToEs.
Context {RT : PyRuntime}.
Variables (T : transport) (indices doc_type : pyval) (items : list addr)
  (id_hash_func : option (addr -> M pyval)) (app_code : pyval)
  (actions : option string) (create_date : pyval) (error_if_fail : bool)
  (timeout : pyval).

(** The identifier function the call uses. *)
Let id_of : addr -> M pyval :=
  match id_hash_func with
  | Some f => f
  | None => default_id_hash_func
  end.

(** The call, step by step: the body is assembled outside the [try]; the
    request and the reading of its response are inside. *)
Lemma add_dict_to_es_run (w : world) :
  add_dict_to_es T indices doc_type items id_hash_func app_code actions create_date
    error_if_fail timeout w
  = match bulk_body indices doc_type id_of app_code (default_actions actions)
            create_date items "" w with
    | (Raise e, w0) => (Raise e, w0)
    | (Ok body, w0) =>
        match bulk_request T body error_if_fail timeout w0 with
        | (Ok counted, w1) => (Ok counted, w1)
        | (Raise e, w1) =>
            (Ok (VNone, VNone, VNone),
             with_log ((log w1 ++ [format_exc e])
                       ++ [("elasticsearch Exception, give up: " ++ exn_str e)%string])%list w1)
        end
    end.
Proof.
  unfold add_dict_to_es. fold id_of. unfold bind at 1.
  destruct (bulk_body _ _ _ _ _ _ _ _ w) as [[body|e] w0]; [|reflexivity].
  unfold bind at 1, catch at 1.
  destruct (bulk_request T body error_if_fail timeout w0) as [[counted|e] w1];
    reflexivity.
Qed.

(** A call whose body is assembled returns. *)
Lemma add_dict_to_es_completes (w w0 : world) (body : string) :
  bulk_body indices doc_type id_of app_code (default_actions actions)
    create_date items "" w = (Ok body, w0) ->
  exists result,
    fst (add_dict_to_es T indices doc_type items id_hash_func app_code actions
           create_date error_if_fail timeout w) = Ok result.
Proof.
  intros Hbody. rewrite add_dict_to_es_run, Hbody.
  destruct (bulk_request T body error_if_fail timeout w0) as [[counted|e] w1];
    eexists; reflexivity.
Qed.

(** C3. Once the body is assembled, the call never raises: an exception
    raised by the request or while its response is read is logged twice
    and turned into [(None, None, None)]; a request that completes gives
    two numbers and the response, which is never that triple.  (The
    identifiers and the JSON lines are computed before the [try]: an
    exception raised there is the one case that leaves the call.) *)
Theorem add_dict_to_es_sentinel (w : world) :
  match bulk_body indices doc_type id_of app_code (default_actions actions)
          create_date items "" w with
  | (Raise e, w0) =>
      add_dict_to_es T indices doc_type items id_hash_func app_code actions
        create_date error_if_fail timeout w = (Raise e, w0)
  | (Ok body, w0) =>
      match bulk_request T body error_if_fail timeout w0 with
      | (Raise e, w1) =>
          add_dict_to_es T indices doc_type items id_hash_func app_code actions
            create_date error_if_fail timeout w
          = (Ok (VNone, VNone, VNone),
             with_log ((log w1 ++ [format_exc e])
                       ++ [("elasticsearch Exception, give up: " ++ exn_str e)%string])%list w1)
      | (Ok counted, w1) =>
          add_dict_to_es T indices doc_type items id_hash_func app_code actions
            create_date error_if_fail timeout w = (Ok counted, w1)
          /\ (exists (success fail : Z) (r : pyval),
                 counted = (VInt success, VInt fail, r))
          /\ counted <> (VNone, VNone, VNone)
      end
  end.
Proof.
  rewrite add_dict_to_es_run.
  destruct (bulk_body _ _ _ _ _ _ _ _ w) as [[body|e] w0]; [|reflexivity].
  pose proof (bulk_request_returns_counts T body error_if_fail timeout w0) as Hshape.
  destruct (bulk_request T body error_if_fail timeout w0) as [[counted|e] w1];
    [|reflexivity].
  destruct (Hshape counted eq_refl) as (success & fail & r & ->).
  repeat split; [eauto | discriminate].
Qed.

(** C2. A bulk write whose body is assembled and whose request comes back
    with a response that has an [errors] flag and, under [items], one
    object of per-operation results for each record submitted.  With the
    flag true, the successes are the results without an [error] key and
    the failures those with one, and the log gains the [error] of each
    failure exactly when [error_if_fail] is set; with the flag false,
    the successes are as many as the records submitted, there is no
    failure and the log gains nothing.  Neither case raises. *)
Theorem add_dict_to_es_counts (w w0 w1 : world) (body : string)
    (r errors : pyval) (ritems : list pyval) :
  bulk_body indices doc_type id_of app_code (default_actions actions) create_date
    items "" w = (Ok body, w0) ->
  perform_request T "POST" "/_bulk?pretty" None (Some (VStr body)) timeout None w0
  = (Ok r, w1) ->
  py_getitem r "errors" = Ok errors ->
  py_getitem r "items" = Ok (VList ritems) ->
  well_formed_items ritems = true ->
  List.length ritems = List.length items ->
  let failed := List.filter has_error (results_of ritems) in
  let passed := List.filter (fun v => negb (has_error v)) (results_of ritems) in
  let run := add_dict_to_es T indices doc_type items id_hash_func app_code actions
               create_date error_if_fail timeout w in
  (truthy errors = true ->
   fst run = Ok (VInt (Z.of_nat (List.length passed)),
                 VInt (Z.of_nat (List.length failed)), r)
   /\ log (snd run)
      = (log w1 ++ if error_if_fail
                   then map (fun v => json_dumps (error_of v)) failed
                   else [])%list)
  /\ (truthy errors = false ->
      fst run = Ok (VInt (Z.of_nat (List.length items)), VInt 0, r)
      /\ log (snd run) = log w1).
Proof.
  intros Hbody Hreq Herrors Hitems Hwf Hlen failed passed run.
  subst run. rewrite add_dict_to_es_run, Hbody.
  destruct (bulk_request_counts T body error_if_fail timeout w0 w1 r errors ritems
              Hreq Herrors Hitems Hwf) as [Hr Hl].
  destruct (bulk_request T body error_if_fail timeout w0) as [res w2].
  cbn [fst snd] in Hr, Hl. subst res.
  split; intros Hflag; rewrite Hflag in *; cbn [fst snd andb] in *.
  - split; [reflexivity | exact Hl].
  - rewrite Hl, app_nil_r, Hlen. split; reflexivity.
Qed.

End AddDictToEs.

Lemma add_dict_to_es_counts_witness :
  let run :=
    add_dict_to_es (RT := CPython.runtime) a_transport (VStr "post20170630")
      (VStr "news") [0; 1; 2] None VNone None VNone true VNone
      (a_world three_records [json_response partial_failure]) in
  fst run = Ok (VInt 2, VInt 1, partial_failure)
  /\ log (snd run)
     = (log (snd answered_three) ++ [CPython.dumps true mapping_error])%list.
Proof.
  refine (proj1 (add_dict_to_es_counts (RT := CPython.runtime) a_transport
                   (VStr "post20170630") (VStr "news") [0; 1; 2] None VNone None
                   VNone true VNone
                   (a_world three_records [json_response partial_failure])
                   (snd assembled_three) (snd answered_three) body_three
                   partial_failure (VBool true)
                   [VDict [("index", VDict [("_id", VStr "a"); ("status", VInt 201)])];
                    VDict [("index", VDict [("_id", VStr "b"); ("status", VInt 400);
                                            ("error", mapping_error)])];
                    VDict [("index", VDict [("_id", VStr "c"); ("status", VInt 201)])]]
                   _ _ eq_refl eq_refl eq_refl eq_refl) eq_refl).
  - vm_compute. reflexivity.
  - vm_compute. reflexivity.
Defined.

(** The same batch when every item is indexed. *)
Example add_dict_to_es_all_indexed :
  fst (add_dict_to_es (RT := CPython.runtime) a_transport (VStr "post20170630")
         (VStr "news") [0; 1; 2] None VNone None VNone true VNone
         (a_world three_records [json_response all_indexed]))
  = Ok (VInt 3, VInt 0, all_indexed).
Proof. vm_compute. reflexivity. Qed.

(** A server that refuses every connection: four requests, two lines in
    the log, and the three [None]. *)
Example add_dict_to_es_network_failure :
  let run := add_dict_to_es (RT := CPython.runtime) a_transport (VStr "post20170630")
               (VStr "news") [0; 1; 2] None VNone None VNone true VNone
               (a_world three_records []) in
  fst run = Ok (VNone, VNone, VNone)
  /\ List.length (sent (snd run)) = 4 /\ List.length (log (snd run)) = 2.
Proof. vm_compute. repeat split. Qed.

(** A response that is not JSON, and one without the [errors] flag. *)
Example add_dict_to_es_malformed_response :
  fst (add_dict_to_es (RT := CPython.runtime) a_transport (VStr "post20170630")
         (VStr "news") [0; 1; 2] None VNone None VNone true VNone
         (a_world three_records [Ok (200%Z, [], "<html>Bad Gateway</html>")]))
  = Ok (VNone, VNone, VNone)
  /\ fst (add_dict_to_es (RT := CPython.runtime) a_transport (VStr "post20170630")
            (VStr "news") [0; 1; 2] None VNone None VNone true VNone
            (a_world three_records [json_response (VDict [("took", VInt 3)])]))
     = Ok (VNone, VNone, VNone).
Proof. vm_compute. split; reflexivity. Qed.

(* ------------------------------------------------------------------ *)
(** ** The body of the bulk request *)

Lemma append_nil_r (s : string) : s ++ "" = s.
Proof. induction s as [|c s IH]; simpl; [reflexivity | now rewrite IH]. Qed.

Lemma dict_get_set_same (k : string) (v : pyval) (d : dict) :
  dict_get k (dict_set k v d) = Some v.
Proof.
  induction d as [|[k' v'] d IH]; simpl.
  - now rewrite String.eqb_refl.
  - destruct (String.eqb k k') eqn:E; simpl; rewrite ?String.eqb_refl, ?E; auto.
Qed.

Lemma dict_get_set_other (k k' : string) (v : pyval) (d : dict) :
  k <> k' -> dict_get k (dict_set k' v d) = dict_get k d.
Proof.
  intros Hne. induction d as [|[k'' v''] d IH]; simpl.
  - now apply String.eqb_neq in Hne as ->.
  - destruct (String.eqb k' k'') eqn:E; simpl.
    + apply String.eqb_eq in E as <-. now apply String.eqb_neq in Hne as ->.
    + now rewrite IH.
Qed.

Lemma dict_set_same_value (k : string) (v : pyval) (d : dict) :
  dict_get k d = Some v -> dict_set k v d = d.
Proof.
  induction d as [|[k' v'] d IH]; simpl; [discriminate|].
  destruct (String.eqb k k') eqn:E.
  - intros [= ->]. now apply String.eqb_eq in E as ->.
  - intros H. now rewrite IH.
Qed.

Section BulkBody.
Context {RT : PyRuntime}.
Variables (indices doc_type : pyval) (id_of : addr -> M pyval) (app_code : pyval)
  (kind : string) (create_date : pyval).

(** One turn of the first loop of [add_dict_to_es]. *)
Lemma bulk_body_step (item : addr) (rest : list addr) (body : string) (w : world) :
  bulk_body indices doc_type id_of app_code kind create_date (item :: rest) body w
  = match id_of item (stamp_world app_code create_date item w) with
    | (Raise e, w1) => (Raise e, w1)
    | (Ok id, w1) =>
        bulk_body indices doc_type id_of app_code kind create_date rest
          (body ++ record_lines kind indices doc_type (id, heap w1 item)) w1
    end.
Proof.
  cbn [bulk_body]. unfold stamp_world, record_lines, action_line.
  unfold bind at 1.
  destruct (truthy app_code); cbn [setitem snd fst ret];
    unfold bind at 1;
    destruct (truthy create_date); cbn [setitem snd fst ret];
    unfold bind at 1;
    match goal with |- context [id_of item ?w'] =>
      destruct (id_of item w') as [[id|e] w1] end;
    try reflexivity;
    unfold bind at 1, deref at 1; cbn [fst snd]; now rewrite !append_assoc.
Qed.

(** A body that is assembled is the body it started from and two lines
    for each record, the action line of the kind [kind]. *)
Lemma bulk_body_lines (items : list addr) :
  forall (body0 body : string) (w w0 : world),
  bulk_body indices doc_type id_of app_code kind create_date items body0 w
  = (Ok body, w0) ->
  exists entries : list (pyval * dict),
    List.length entries = List.length items
    /\ body = body0 ++ bulk_lines kind indices doc_type entries.
Proof.
  induction items as [|item rest IH]; intros body0 body w w0 Hrun.
  - cbn in Hrun. injection Hrun as <- <-. exists []. cbn.
    now rewrite append_nil_r.
  - rewrite bulk_body_step in Hrun.
    destruct (id_of item _) as [[id|e] w1]; [|discriminate].
    destruct (IH _ _ _ _ Hrun) as (entries & Hlen & ->).
    exists ((id, heap w1 item) :: entries). cbn [List.length bulk_lines fold_right].
    split; [now rewrite Hlen | now rewrite append_assoc].
Qed.

End BulkBody.

Section BulkTransmission.
Context {RT : PyRuntime}.

(** What the [try] block puts on the wire: the encoded body, at most
    [max_retries + 1] times. *)
Lemma bulk_request_sent (T : transport) (body : string) (error_if_fail : bool)
    (timeout : pyval) (w : world) :
  exists new : list (nat * request),
    sent (snd (bulk_request T body error_if_fail timeout w)) = (sent w ++ new)%list
    /\ (Z.of_nat (List.length new) <= Z.max 0 (max_retries T + 1))%Z
    /\ Forall (fun cr => snd cr = bulk_rq body timeout) new
    /\ (new = [] -> (max_retries T + 1 <= 0)%Z).
Proof.
  destruct (main_loop_sent T "POST" "/_bulk?pretty" None
              (Some (encode_utf8 body)) (VList []) timeout None w)
    as (new & Hsent & Hlen & Hall & Hend).
  exists new.
  split; [|split; [exact Hlen | split; [exact Hall | exact Hend]]].
  unfold bulk_request, bind, lift. rewrite perform_request_bulk.
  destruct (main_loop T _ _ _ _ _ _ _ w) as [[r|e] w1]; cbn [snd] in Hsent |- *;
    [|exact Hsent].
  destruct (py_getitem r "errors") as [errors|e]; [|exact Hsent].
  destruct (truthy errors); destruct (py_getitem r "items") as [items|e];
    try exact Hsent.
  - destruct (py_iter items) as [visited|e]; [|exact Hsent].
    pose proof (count_items_frame error_if_fail visited (0, 0)%Z w1)
      as (_ & _ & _ & Hs & _).
    destruct (count_items error_if_fail visited (0, 0)%Z w1) as [[counts|e] w2];
      unfold ret; cbn [snd] in Hs |- *; congruence.
  - destruct (py_len items) as [n|e]; exact Hsent.
Qed.

Variables (T : transport) (indices doc_type : pyval) (items : list addr)
  (id_hash_func : option (addr -> M pyval)) (app_code : pyval)
  (actions : option string) (create_date : pyval) (error_if_fail : bool)
  (timeout : pyval).

Let id_of : addr -> M pyval :=
  match id_hash_func with
  | Some f => f
  | None => default_id_hash_func
  end.

(** The requests of a bulk write all carry the body it assembled. *)
Lemma add_dict_to_es_sent (w w0 : world) (body : string) :
  bulk_body indices doc_type id_of app_code (default_actions actions) create_date
    items "" w = (Ok body, w0) ->
  exists new : list (nat * request),
    sent (snd (add_dict_to_es T indices doc_type items id_hash_func app_code actions
                 create_date error_if_fail timeout w))
    = (sent w0 ++ new)%list
    /\ (Z.of_nat (List.length new) <= Z.max 0 (max_retries T + 1))%Z
    /\ Forall (fun cr => snd cr = bulk_rq body timeout) new
    /\ (new = [] -> (max_retries T + 1 <= 0)%Z).
Proof.
  intros Hbody. rewrite add_dict_to_es_run. fold id_of. rewrite Hbody.
  destruct (bulk_request_sent T body error_if_fail timeout w0)
    as (new & Hsent & Hlen & Hall & Hnone).
  exists new. split; [|split; [exact Hlen | split; [exact Hall | exact Hnone]]].
  destruct (bulk_request T body error_if_fail timeout w0) as [[counted|e] w1];
    exact Hsent.
Qed.

(** The heap a bulk write leaves is the one its body was assembled in. *)
Lemma add_dict_to_es_heap (w w0 : world) (body : string) :
  bulk_body indices doc_type id_of app_code (default_actions actions) create_date
    items "" w = (Ok body, w0) ->
  heap (snd (add_dict_to_es T indices doc_type items id_hash_func app_code actions
               create_date error_if_fail timeout w)) = heap w0.
Proof.
  intros Hbody. rewrite add_dict_to_es_run. fold id_of. rewrite Hbody.
  pose proof (bulk_request_heap T body error_if_fail timeout w0) as Hheap.
  destruct (bulk_request T body error_if_fail timeout w0) as [[counted|e] w1];
    exact Hheap.
Qed.

(** C10. When [actions] is absent or the empty string, every action line
    of the body a bulk write assembles and sends is of the kind [index]:
    the body is, record after record, the line
    [{kind: {"_index": indices, "_type": doc_type, "_id": id}}] and the
    record's line; a non-empty [actions] is that kind as it stands. *)
Theorem add_dict_to_es_action_kind (w w0 : world) (body : string) :
  bulk_body indices doc_type id_of app_code (default_actions actions) create_date
    items "" w = (Ok body, w0) ->
  let kind :=
    match actions with
    | Some a => if truthy (VStr a) then a else "index"
    | None => "index"
    end in
  exists (entries : list (pyval * dict)) (new : list (nat * request)),
    List.length entries = List.length items
    /\ body = bulk_lines kind indices doc_type entries
    /\ sent (snd (add_dict_to_es T indices doc_type items id_hash_func app_code
                    actions create_date error_if_fail timeout w))
       = (sent w0 ++ new)%list
    /\ Forall (fun cr => rq_body (snd cr)
                         = Some (encode_utf8 (bulk_lines kind indices doc_type entries)))
         new.
Proof.
  intros Hbody kind.
  assert (Hkind : default_actions actions = kind)
    by (subst kind; destruct actions as [[|c a]|]; reflexivity).
  destruct (bulk_body_lines _ _ _ _ _ _ _ _ _ _ _ Hbody) as (entries & Hlen & Hlines).
  destruct (add_dict_to_es_sent w w0 body Hbody) as (new & Hsent & _ & Hall & _).
  cbn in Hlines. rewrite Hkind in Hlines.
  exists entries, new. repeat split; try assumption.
  eapply Forall_impl; [|exact Hall].
  intros cr ->. cbn. now rewrite Hlines.
Qed.

End BulkTransmission.

Lemma add_dict_to_es_action_kind_witness :
  exists (entries : list (pyval * dict)) (new : list (nat * request)),
    List.length entries = 3
    /\ body_three = bulk_lines (RT := CPython.runtime) "index"
                      (VStr "post20170630") (VStr "news") entries
    /\ sent (snd (add_dict_to_es (RT := CPython.runtime) a_transport
                    (VStr "post20170630") (VStr "news") [0; 1; 2] None VNone None
                    VNone true VNone
                    (a_world three_records [json_response partial_failure])))
       = (sent (snd assembled_three) ++ new)%list
    /\ Forall (fun cr => rq_body (snd cr)
                         = Some (@encode_utf8 CPython.runtime
                                   (bulk_lines (RT := CPython.runtime) "index"
                                      (VStr "post20170630") (VStr "news") entries)))
         new.
Proof.
  refine (add_dict_to_es_action_kind (RT := CPython.runtime) a_transport
            (VStr "post20170630") (VStr "news") [0; 1; 2] None VNone None VNone
            true VNone (a_world three_records [json_response partial_failure])
            (snd assembled_three) body_three _).
  vm_compute. reflexivity.
Defined.

(** A kind of the caller's own. *)
Example add_dict_to_es_create_kind :
  fst (bulk_body (RT := CPython.runtime) (VStr "post") (VStr "news")
         (default_id_hash_func (RT := CPython.runtime)) VNone
         (default_actions (Some "create")) (VInt 1530000000) [0] ""
         (a_world [weibo_123] []))
  = Ok (action_line (RT := CPython.runtime) "create" (VStr "post") (VStr "news")
          (VStr "8276ce0e3a9618d1d141a60ddcd51c82")
        ++ newline
        ++ CPython.dumps true
             (VDict [("appCode", VStr "weibo"); ("id", VStr "123");
                     ("createDate", VInt 1530000000)])
        ++ newline).
Proof. vm_compute. reflexivity. Qed.

(* ------------------------------------------------------------------ *)
(** ** What a bulk write does to the caller's records *)

Lemma dict_has_set_same (k : string) (v : pyval) (d : dict) :
  dict_has k (dict_set k v d) = true.
Proof. unfold dict_has. now rewrite dict_get_set_same. Qed.

Lemma dict_get_stamp (app_code create_date : pyval) (k : string) (d : dict) :
  dict_get k (stamp app_code create_date d)
  = if String.eqb k "createDate" && truthy create_date then Some create_date
    else if String.eqb k "appCode" && truthy app_code then Some app_code
    else dict_get k d.
Proof.
  unfold stamp.
  destruct (String.eqb k "createDate") eqn:Ecd; cbn [andb].
  - apply String.eqb_eq in Ecd as ->. cbn [String.eqb Ascii.eqb Bool.eqb andb].
    destruct (truthy create_date); [apply dict_get_set_same|].
    destruct (truthy app_code); [|reflexivity].
    now apply dict_get_set_other.
  - apply String.eqb_neq in Ecd.
    destruct (truthy create_date); [rewrite dict_get_set_other by assumption|];
      (destruct (String.eqb k "appCode") eqn:Eac; cbn [andb];
       [apply String.eqb_eq in Eac as ->;
        destruct (truthy app_code); [apply dict_get_set_same | reflexivity]
       |apply String.eqb_neq in Eac;
        destruct (truthy app_code);
        [now apply dict_get_set_other | reflexivity]]).
Qed.

Lemma dict_get_dated (now : Z) (k : string) (d : dict) :
  k <> "createDate" -> dict_get k (dated now d) = dict_get k d.
Proof.
  intros Hk. unfold dated. destruct (dict_has "createDate" d); [reflexivity|].
  now apply dict_get_set_other.
Qed.

Lemma dict_has_dated (now : Z) (d : dict) : dict_has "createDate" (dated now d) = true.
Proof.
  unfold dated. destruct (dict_has "createDate" d) eqn:E; [exact E|].
  apply dict_has_set_same.
Qed.

Lemma dated_dated (now now' : Z) (d : dict) : dated now' (dated now d) = dated now d.
Proof. unfold dated at 1. now rewrite dict_has_dated. Qed.

(** A record the loop has been through is left as it is by a second pass. *)
Lemma stamp_dated_stamp (app_code create_date : pyval) (now : Z) (d : dict) :
  stamp app_code create_date (dated now (stamp app_code create_date d))
  = dated now (stamp app_code create_date d).
Proof.
  set (x := dated now (stamp app_code create_date d)).
  assert (Hac : truthy app_code = true -> dict_get "appCode" x = Some app_code).
  { intros Ht. subst x. rewrite dict_get_dated by discriminate.
    rewrite dict_get_stamp. cbn [String.eqb Ascii.eqb Bool.eqb andb]. now rewrite Ht. }
  assert (Hcd : truthy create_date = true -> dict_get "createDate" x = Some create_date).
  { intros Ht. subst x. unfold dated, dict_has.
    rewrite dict_get_stamp. cbn [String.eqb Ascii.eqb Bool.eqb andb]. rewrite Ht.
    rewrite dict_get_stamp. cbn [String.eqb Ascii.eqb Bool.eqb andb]. now rewrite Ht. }
  unfold stamp at 1.
  destruct (truthy app_code).
  - rewrite (dict_set_same_value "appCode" app_code x (Hac eq_refl)).
    destruct (truthy create_date); [|reflexivity].
    exact (dict_set_same_value "createDate" create_date x (Hcd eq_refl)).
  - destruct (truthy create_date); [|reflexivity].
    exact (dict_set_same_value "createDate" create_date x (Hcd eq_refl)).
Qed.

Lemma text_keys_dated (now : Z) (d : dict) : text_keys (dated now d) = text_keys d.
Proof.
  unfold text_keys, present_and_truthy.
  now rewrite !(dict_get_dated now) by discriminate.
Qed.

Section DefaultIdentifierRuns.
Context {RT : PyRuntime}.

(** A record with text keys gets an identifier, any other a [TypeError]. *)
Lemma hash_input_total (d : dict) :
  text_keys d = true -> exists value, hash_input d = Ok value.
Proof.
  unfold text_keys, hash_input.
  destruct (present_and_truthy "appCode" d && present_and_truthy "id" d);
    [|eauto].
  cbn [negb orb]. unfold py_getitem.
  destruct (dict_get "appCode" d) as [[| | |a| |]|]; try discriminate.
  destruct (dict_get "id" d) as [[| | |i| |]|]; try discriminate.
  cbn. eauto.
Qed.

Lemma hash_input_partial (d : dict) :
  text_keys d = false -> exists msg, hash_input d = Raise (TypeError msg).
Proof.
  unfold text_keys, hash_input, present_and_truthy, py_getitem. intros H.
  destruct (dict_get "appCode" d) as [[|[]|[]|[]|[]|[]]|];
    destruct (dict_get "id" d) as [[|[]|[]|[]|[]|[]]|];
    cbn in H |- *; try discriminate H; eauto.
Qed.

(** The identifier function on the world. *)
Lemma default_id_hash_func_run (item : addr) (w : world) :
  default_id_hash_func item w
  = match hash_input (heap w item) with
    | Ok value => (Ok (VStr (md5_hexdigest value)), date_world item w)
    | Raise e => (Raise e, w)
    end.
Proof.
  unfold default_id_hash_func, date_world, bind, deref, lift.
  destruct (hash_input (heap w item)) as [value|e]; [|reflexivity].
  destruct (dict_has "createDate" (heap w item)); reflexivity.
Qed.

End DefaultIdentifierRuns.

(** How stamping and dating act on the heap. *)
Lemma stamp_world_heap (app_code create_date : pyval) (item : addr) (w : world) :
  heap (stamp_world app_code create_date item w) item
  = stamp app_code create_date (heap w item)
  /\ (forall a, a <> item -> heap (stamp_world app_code create_date item w) a = heap w a)
  /\ ticks (stamp_world app_code create_date item w) = ticks w
  /\ same_but_heap w (stamp_world app_code create_date item w).
Proof.
  unfold stamp_world, stamp, same_but_heap.
  destruct (truthy app_code), (truthy create_date); cbn;
    rewrite ?Nat.eqb_refl; repeat split; auto;
    intros a Ha; apply Nat.eqb_neq in Ha; now rewrite ?Ha.
Qed.

Lemma date_world_heap (item : addr) (w : world) :
  heap (date_world item w) item = dated (clock w (ticks w)) (heap w item)
  /\ (forall a, a <> item -> heap (date_world item w) a = heap w a)
  /\ ticks w <= ticks (date_world item w)
  /\ same_but_heap w (date_world item w).
Proof.
  unfold date_world, dated, same_but_heap.
  destruct (dict_has "createDate" (heap w item)); cbn;
    rewrite ?Nat.eqb_refl; repeat split; auto;
    intros a Ha; apply Nat.eqb_neq in Ha; now rewrite ?Ha.
Qed.

Lemma same_but_heap_refl (w : world) : same_but_heap w w.
Proof. unfold same_but_heap. auto 10. Qed.

Lemma same_but_heap_trans (w1 w2 w3 : world) :
  same_but_heap w1 w2 -> same_but_heap w2 w3 -> same_but_heap w1 w3.
Proof. unfold same_but_heap. intuition congruence. Qed.

Section DefaultBulkBody.
Context {RT : PyRuntime}.
Variables (indices doc_type app_code : pyval) (kind : string) (create_date : pyval).

(** One turn of the loop with the default identifier function, on a
    record it can hash. *)
Lemma bulk_body_default_step (item : addr) (rest : list addr) (body : string)
    (w : world) :
  text_keys (stamp app_code create_date (heap w item)) = true ->
  exists (id : pyval) (w1 : world),
    bulk_body indices doc_type default_id_hash_func app_code kind create_date
      (item :: rest) body w
    = bulk_body indices doc_type default_id_hash_func app_code kind create_date rest
        (body ++ record_lines kind indices doc_type (id, heap w1 item)) w1
    /\ heap w1 item = dated (clock w (ticks w)) (stamp app_code create_date (heap w item))
    /\ (forall a, a <> item -> heap w1 a = heap w a)
    /\ ticks w <= ticks w1
    /\ same_but_heap w w1.
Proof.
  intros Htext.
  destruct (stamp_world_heap app_code create_date item w) as (Hs1 & Hs2 & Hs3 & Hs4).
  set (ws := stamp_world app_code create_date item w) in *.
  destruct (date_world_heap item ws) as (Hd1 & Hd2 & Hd3 & Hd4).
  rewrite <- Hs1 in Htext. destruct (hash_input_total _ Htext) as (value & Hvalue).
  exists (VStr (md5_hexdigest value)), (date_world item ws).
  rewrite bulk_body_step. fold ws. rewrite default_id_hash_func_run, Hvalue.
  split; [reflexivity|].
  split; [rewrite Hd1, Hs1; destruct Hs4 as (_ & -> & _); now rewrite Hs3|].
  split; [intros a Ha; now rewrite Hd2, Hs2|].
  split; [lia|].
  exact (same_but_heap_trans _ _ _ Hs4 Hd4).
Qed.

(** The whole loop with the default identifier function, on records it
    can hash: it completes, every record of the batch is stamped and
    dated where it lies, and no other record is touched. *)
Lemma bulk_body_default_total (items : list addr) :
  forall (body0 : string) (w : world),
  (forall a, In a items -> text_keys (stamp app_code create_date (heap w a)) = true) ->
  exists (body : string) (w0 : world),
    bulk_body indices doc_type default_id_hash_func app_code kind create_date
      items body0 w = (Ok body, w0)
    /\ (forall a, ~ In a items -> heap w0 a = heap w a)
    /\ (forall a, In a items ->
        exists now, heap w0 a = dated now (stamp app_code create_date (heap w a)))
    /\ ticks w <= ticks w0
    /\ same_but_heap w w0.
Proof.
  induction items as [|item rest IH]; intros body0 w Htext.
  - exists body0, w. cbn. repeat split; auto using same_but_heap_refl.
    intros a [].
  - destruct (bulk_body_default_step item rest body0 w (Htext item (or_introl eq_refl)))
      as (id & w1 & Hstep & Hitem & Hother & Hticks & Hsame).
    destruct (IH (body0 ++ record_lines kind indices doc_type (id, heap w1 item)) w1)
      as (body & w0 & Hrun & Hout & Hin & Hticks' & Hsame').
    { intros a Ha. destruct (Nat.eq_dec a item) as [->|Hne].
      - rewrite Hitem, stamp_dated_stamp, text_keys_dated.
        apply Htext. now left.
      - rewrite Hother by assumption. apply Htext. now right. }
    exists body, w0. rewrite Hstep.
    split; [exact Hrun|].
    split; [|split; [|split; [lia | exact (same_but_heap_trans _ _ _ Hsame Hsame')]]].
    + intros a Ha. rewrite Hout by (intros Hin'; apply Ha; now right).
      apply Hother. intros ->. apply Ha. now left.
    + intros a Ha. destruct (in_dec Nat.eq_dec a rest) as [Hrest|Hrest].
      * destruct (Hin a Hrest) as (now & Hnow).
        destruct (Nat.eq_dec a item) as [->|Hne].
        -- rewrite Hnow, Hitem, stamp_dated_stamp, dated_dated. eauto.
        -- rewrite Hnow, Hother by assumption. eauto.
      * rewrite Hout by assumption. destruct Ha as [<-|Ha]; [|contradiction].
        rewrite Hitem. eauto.
Qed.

End DefaultBulkBody.

(** The first place of an element of a list. *)
Lemma in_split_first (a : addr) (l : list addr) :
  In a l -> exists pre post, l = (pre ++ a :: post)%list /\ ~ In a pre.
Proof.
  induction l as [|x l IH]; intros Hin; [contradiction|].
  destruct (Nat.eq_dec x a) as [->|Hne].
  - exists [], l. split; [reflexivity | intros []].
  - destruct Hin as [Heq|Hin]; [contradiction|].
    destruct (IH Hin) as (pre & post & -> & Hfirst).
    exists (x :: pre), post. split; [reflexivity|].
    intros [Heq|Hp]; [contradiction | exact (Hfirst Hp)].
Qed.

Section InPlace.
Context {RT : PyRuntime}.
Variables (T : transport) (indices doc_type : pyval) (app_code : pyval)
  (actions : option string) (create_date : pyval) (error_if_fail : bool)
  (timeout : pyval).

(** The loop over a batch in two parts. *)
Lemma bulk_body_app (id_of : addr -> M pyval) (kind : string) (pre post : list addr) :
  forall (body0 : string) (w : world),
  bulk_body indices doc_type id_of app_code kind create_date (pre ++ post) body0 w
  = match bulk_body indices doc_type id_of app_code kind create_date pre body0 w with
    | (Ok body1, w1) =>
        bulk_body indices doc_type id_of app_code kind create_date post body1 w1
    | (Raise e, w1) => (Raise e, w1)
    end.
Proof.
  induction pre as [|item pre IH]; intros body0 w; [reflexivity|].
  cbn [app]. rewrite !bulk_body_step.
  destruct (id_of item _) as [[id|e] w1]; [apply IH | reflexivity].
Qed.

(** The first time the loop reaches a record of the batch: the records
    before it have been through, and the record is left stamped, and
    dated with the reading of the clock taken for it, for good. *)
Lemma bulk_body_default_at (kind : string) (pre post : list addr) (item : addr)
    (w : world) :
  (forall a, In a (pre ++ item :: post) ->
             text_keys (stamp app_code create_date (heap w a)) = true) ->
  ~ In item pre ->
  exists (body1 : string) (w1 : world) (body : string) (w0 : world),
    bulk_body indices doc_type default_id_hash_func app_code kind create_date pre "" w
    = (Ok body1, w1)
    /\ bulk_body indices doc_type default_id_hash_func app_code kind create_date
         (pre ++ item :: post) "" w = (Ok body, w0)
    /\ ticks w <= ticks w1
    /\ heap w0 item
       = dated (clock w (ticks w1)) (stamp app_code create_date (heap w item)).
Proof.
  intros Htext Hfirst.
  destruct (bulk_body_default_total indices doc_type app_code kind create_date pre "" w)
    as (body1 & w1 & Hpre & Hout1 & Hin1 & Hticks1 & Hsame1).
  { intros a Ha. apply Htext. apply in_or_app. now left. }
  assert (Hitem1 : heap w1 item = heap w item) by now apply Hout1.
  destruct (bulk_body_default_step indices doc_type app_code kind create_date
              item post body1 w1) as (id & w2 & Hstep & Hitem2 & Hother2 & _ & Hsame2).
  { rewrite Hitem1. apply Htext. apply in_or_app. right. now left. }
  assert (Htext2 : forall a, In a post ->
             text_keys (stamp app_code create_date (heap w2 a)) = true).
  { intros a Ha. destruct (Nat.eq_dec a item) as [->|Hne].
    - rewrite Hitem2, stamp_dated_stamp, text_keys_dated, Hitem1.
      apply Htext. apply in_or_app. right. now left.
    - rewrite Hother2 by assumption.
      destruct (in_dec Nat.eq_dec a pre) as [Hp|Hp].
      + destruct (Hin1 a Hp) as (now & ->).
        rewrite stamp_dated_stamp, text_keys_dated.
        apply Htext. apply in_or_app. now left.
      + rewrite Hout1 by assumption.
        apply Htext. apply in_or_app. right. now right. }
  destruct (bulk_body_default_total indices doc_type app_code kind create_date post
              (body1 ++ record_lines kind indices doc_type (id, heap w2 item)) w2 Htext2)
    as (body & w0 & Hpost & Hout0 & Hin0 & _ & _).
  exists body1, w1, body, w0.
  split; [exact Hpre|]. split; [now rewrite bulk_body_app, Hpre, Hstep|].
  split; [exact Hticks1|].
  destruct Hsame1 as (_ & Hclock & _).
  rewrite <- Hclock, <- Hitem1, <- Hitem2.
  destruct (in_dec Nat.eq_dec item post) as [Hp|Hp]; [|now apply Hout0].
  destruct (Hin0 item Hp) as (now & ->).
  now rewrite Hitem2, stamp_dated_stamp, dated_dated.
Qed.

(** C4 (as amended). A bulk write with the default identifier function,
    on records it can identify, completes and updates the caller's
    records where they lie.  Afterwards a record of the batch is the
    record it was with [appCode] set to [app_code] when that is given,
    [createDate] set to [create_date] when that is given, and, when it
    still had no [createDate], a [createDate] that holds the time read
    from the clock when the loop first reached the record (after the
    readings taken for the records before it); a record that is not in
    the batch is as it was. *)
Theorem add_dict_to_es_updates_in_place (items : list addr) (w : world) :
  (forall a, In a items -> text_keys (stamp app_code create_date (heap w a)) = true) ->
  let run := add_dict_to_es T indices doc_type items None app_code actions create_date
               error_if_fail timeout w in
  (exists counted, fst run = Ok counted)
  /\ (forall pre item post,
      items = (pre ++ item :: post)%list -> ~ In item pre ->
      exists (body1 : string) (w1 : world),
        bulk_body indices doc_type default_id_hash_func app_code
          (default_actions actions) create_date pre "" w = (Ok body1, w1)
        /\ ticks w <= ticks w1
        /\ heap (snd run) item
           = dated (clock w (ticks w1)) (stamp app_code create_date (heap w item)))
  /\ (forall a, In a items ->
      exists t, ticks w <= t
                /\ heap (snd run) a
                   = dated (clock w t) (stamp app_code create_date (heap w a)))
  /\ (forall a, ~ In a items -> heap (snd run) a = heap w a).
Proof.
  intros Htext run.
  destruct (bulk_body_default_total indices doc_type app_code (default_actions actions)
              create_date items "" w Htext)
    as (body & w0 & Hrun & Hout & _ & _ & _).
  pose proof (add_dict_to_es_heap T indices doc_type items None app_code actions
                create_date error_if_fail timeout w w0 body Hrun) as Hheap.
  fold run in Hheap.
  assert (Hat : forall pre item post,
             items = (pre ++ item :: post)%list -> ~ In item pre ->
             exists (body1 : string) (w1 : world),
               bulk_body indices doc_type default_id_hash_func app_code
                 (default_actions actions) create_date pre "" w = (Ok body1, w1)
               /\ ticks w <= ticks w1
               /\ heap (snd run) item
                  = dated (clock w (ticks w1))
                      (stamp app_code create_date (heap w item))).
  { intros pre item post Hsplit Hfirst. subst items.
    destruct (bulk_body_default_at (default_actions actions) pre post item w Htext Hfirst)
      as (body1 & w1 & body' & w0' & Hpre & Hall & Hticks & Hitem).
    rewrite Hrun in Hall. injection Hall as <- <-.
    exists body1, w1. rewrite Hheap. auto. }
  split; [exact (add_dict_to_es_completes T indices doc_type items None app_code
                   actions create_date error_if_fail timeout w w0 body Hrun)|].
  split; [exact Hat|]. split.
  - intros a Ha. destruct (in_split_first a items Ha) as (pre & post & Hsplit & Hfirst).
    destruct (Hat pre a post Hsplit Hfirst) as (body1 & w1 & _ & Hticks & Hitem).
    exists (ticks w1). split; assumption.
  - intros a Ha. rewrite Hheap. now apply Hout.
Qed.

(** C8. A bulk write with the default identifier function and no
    [create_date], on records it can hash; a record of the batch that
    has no [createDate] when the loop first reaches it.  The write
    completes; the record then holds, as its [createDate], the reading
    of the clock taken when its identifier was computed; and every
    request the write puts on the wire carries a body in which the
    record's line is the JSON of the record with that [createDate]. *)
Theorem add_dict_to_es_injects_createDate (pre post : list addr) (item : addr)
    (w : world) :
  let items := (pre ++ item :: post)%list in
  (forall a, In a items -> text_keys (stamp app_code create_date (heap w a)) = true) ->
  truthy create_date = false ->
  dict_has "createDate" (heap w item) = false ->
  ~ In item pre ->
  let run := add_dict_to_es T indices doc_type items None app_code actions create_date
               error_if_fail timeout w in
  exists (body1 : string) (w1 : world) (id : pyval) (tail : string)
         (new : list (nat * request)),
    bulk_body indices doc_type default_id_hash_func app_code (default_actions actions)
      create_date pre "" w = (Ok body1, w1)
    /\ dict_get "createDate" (heap (snd run) item) = Some (VInt (clock w (ticks w1)))
    /\ (exists counted, fst run = Ok counted)
    /\ sent (snd run) = (sent w ++ new)%list
    /\ (new = [] -> (max_retries T + 1 <= 0)%Z)
    /\ Forall (fun cr =>
                 rq_body (snd cr)
                 = Some (encode_utf8
                           (body1
                            ++ action_line (default_actions actions) indices doc_type id
                            ++ newline
                            ++ json_dumps (VDict (heap (snd run) item)) ++ newline
                            ++ tail)))
         new.
Proof.
  intros items Htext Hcd Hlacks Hfirst run.
  set (kind := default_actions actions).
  (* the records before *)
  destruct (bulk_body_default_total indices doc_type app_code kind create_date pre "" w)
    as (body1 & w1 & Hpre & Hout1 & Hin1 & _ & Hsame1).
  { intros a Ha. apply Htext. subst items. apply in_or_app. now left. }
  (* the record *)
  assert (Hitem1 : heap w1 item = heap w item) by now apply Hout1.
  destruct (bulk_body_default_step indices doc_type app_code kind create_date
              item post body1 w1) as (id & w2 & Hstep & Hitem2 & Hother2 & _ & Hsame2).
  { rewrite Hitem1. apply Htext. subst items. apply in_or_app. right. now left. }
  (* the records after *)
  assert (Htext2 : forall a, In a post ->
             text_keys (stamp app_code create_date (heap w2 a)) = true).
  { intros a Ha. destruct (Nat.eq_dec a item) as [->|Hne].
    - rewrite Hitem2, stamp_dated_stamp, text_keys_dated, Hitem1.
      apply Htext. subst items. apply in_or_app. right. now left.
    - rewrite Hother2 by assumption.
      destruct (in_dec Nat.eq_dec a pre) as [Hp|Hp].
      + destruct (Hin1 a Hp) as (now & ->).
        rewrite stamp_dated_stamp, text_keys_dated.
        apply Htext. subst items. apply in_or_app. now left.
      + rewrite Hout1 by assumption.
        apply Htext. subst items. apply in_or_app. right. now right. }
  destruct (bulk_body_default_total indices doc_type app_code kind create_date post
              (body1 ++ record_lines kind indices doc_type (id, heap w2 item)) w2 Htext2)
    as (body & w0 & Hpost & Hout0 & Hin0 & _ & Hsame0).
  assert (Hitem0 : heap w0 item = heap w2 item).
  { destruct (in_dec Nat.eq_dec item post) as [Hp|Hp]; [|now apply Hout0].
    destruct (Hin0 item Hp) as (now & ->).
    now rewrite Hitem2, stamp_dated_stamp, dated_dated. }
  (* the whole batch *)
  assert (Hrun : bulk_body indices doc_type default_id_hash_func app_code kind
                   create_date items "" w = (Ok body, w0)).
  { subst items. now rewrite bulk_body_app, Hpre, Hstep. }
  destruct (bulk_body_lines _ _ _ _ _ _ _ _ _ _ _ Hpost) as (entries & _ & Hbody).
  pose proof (add_dict_to_es_heap T indices doc_type items None app_code actions
                create_date error_if_fail timeout w w0 body Hrun) as Hheap.
  destruct (add_dict_to_es_sent T indices doc_type items None app_code actions
              create_date error_if_fail timeout w w0 body Hrun)
    as (new & Hsent & _ & Hall & Hnone).
  destruct (add_dict_to_es_completes T indices doc_type items None app_code actions
              create_date error_if_fail timeout w w0 body Hrun) as (counted & Hok).
  fold run in Hheap, Hsent, Hok.
  exists body1, w1, id, (bulk_lines kind indices doc_type entries), new.
  split; [exact Hpre|].
  split.
  { rewrite Hheap, Hitem0, Hitem2, Hitem1.
    destruct Hsame1 as (_ & -> & _).
    unfold dated, dict_has. rewrite dict_get_stamp.
    cbn [String.eqb Ascii.eqb Bool.eqb andb]. rewrite Hcd.
    unfold dict_has in Hlacks.
    destruct (dict_get "createDate" (heap w item)); [discriminate|].
    apply dict_get_set_same. }
  split; [eauto|].
  split.
  { rewrite Hsent. f_equal.
    destruct Hsame1 as (_ & _ & Hs1 & _), Hsame2 as (_ & _ & Hs2 & _),
             Hsame0 as (_ & _ & Hs0 & _). congruence. }
  split; [exact Hnone|].
  eapply Forall_impl; [|exact Hall].
  intros cr ->. cbn [bulk_rq rq_body]. do 2 f_equal.
  rewrite Hbody, Hheap, Hitem0. unfold record_lines. cbn [fst snd].
  now rewrite !append_assoc.
Qed.

End InPlace.

Lemma add_dict_to_es_updates_in_place_witness :
  let w := a_world three_records [json_response partial_failure] in
  let run := add_dict_to_es (RT := CPython.runtime) a_transport (VStr "post20170630")
               (VStr "news") [0; 1; 2] None (VStr "douban") None VNone true VNone w in
  (forall a, In a [0; 1; 2] ->
             text_keys (stamp (VStr "douban") VNone (heap w a)) = true)
  /\ (exists counted, fst run = Ok counted)
  /\ (forall pre item post,
      [0; 1; 2] = (pre ++ item :: post)%list -> ~ In item pre ->
      exists (body1 : string) (w1 : world),
        bulk_body (RT := CPython.runtime) (VStr "post20170630") (VStr "news")
          (default_id_hash_func (RT := CPython.runtime)) (VStr "douban")
          (default_actions None) VNone pre "" w = (Ok body1, w1)
        /\ ticks w <= ticks w1
        /\ heap (snd run) item
           = dated (clock w (ticks w1)) (stamp (VStr "douban") VNone (heap w item)))
  /\ (forall a, In a [0; 1; 2] ->
      exists t, ticks w <= t
                /\ heap (snd run) a
                   = dated (clock w t) (stamp (VStr "douban") VNone (heap w a)))
  /\ (forall a, ~ In a [0; 1; 2] -> heap (snd run) a = heap w a).
Proof.
  cbv zeta.
  assert (Htext : forall a, In a [0; 1; 2] ->
             text_keys (stamp (VStr "douban") VNone
                          (heap (a_world three_records [json_response partial_failure]) a))
             = true).
  { intros a [<-|[<-|[<-|[]]]]; reflexivity. }
  split; [exact Htext|].
  exact (add_dict_to_es_updates_in_place (RT := CPython.runtime) a_transport
           (VStr "post20170630") (VStr "news") (VStr "douban") None VNone true VNone
           [0; 1; 2] (a_world three_records [json_response partial_failure]) Htext).
Defined.

(** C4, counterexample. The caller's record with [appCode] weibo and
    [id] 123, written with [app_code] douban: after the write the
    caller's own record reads douban and has gained a [createDate]. *)
Lemma add_dict_to_es_changes_the_record :
  let w := a_world [weibo_123] [json_response all_indexed] in
  let run := add_dict_to_es (RT := CPython.runtime) a_transport (VStr "post20170630")
               (VStr "news") [0] None (VStr "douban") None VNone true VNone w in
  heap w 0 = [("appCode", VStr "weibo"); ("id", VStr "123")]
  /\ heap (snd run) 0
     = [("appCode", VStr "douban"); ("id", VStr "123");
        ("createDate", VInt 1530000000)]
  /\ heap (snd run) 0 <> heap w 0.
Proof.
  cbv zeta.
  assert (H : heap (snd (add_dict_to_es (RT := CPython.runtime) a_transport
                           (VStr "post20170630") (VStr "news") [0] None
                           (VStr "douban") None VNone true VNone
                           (a_world [weibo_123] [json_response all_indexed]))) 0
              = [("appCode", VStr "douban"); ("id", VStr "123");
                 ("createDate", VInt 1530000000)])
    by (vm_compute; reflexivity).
  split; [reflexivity|]. split; [exact H|]. rewrite H. discriminate.
Qed.

Lemma add_dict_to_es_injects_createDate_witness :
  let w := a_world three_records [json_response partial_failure] in
  let run := add_dict_to_es (RT := CPython.runtime) a_transport (VStr "post20170630")
               (VStr "news") ([0] ++ 1 :: [2])%list None VNone None VNone true VNone w in
  exists (body1 : string) (w1 : world) (id : pyval) (tail : string)
         (new : list (nat * request)),
    bulk_body (RT := CPython.runtime) (VStr "post20170630") (VStr "news")
      (default_id_hash_func (RT := CPython.runtime)) VNone (default_actions None)
      VNone [0] "" w = (Ok body1, w1)
    /\ dict_get "createDate" (heap (snd run) 1) = Some (VInt (clock w (ticks w1)))
    /\ (exists counted, fst run = Ok counted)
    /\ sent (snd run) = (sent w ++ new)%list
    /\ (new = [] -> (max_retries a_transport + 1 <= 0)%Z)
    /\ Forall (fun cr =>
                 rq_body (snd cr)
                 = Some (@encode_utf8 CPython.runtime
                           (body1
                            ++ action_line (RT := CPython.runtime) (default_actions None)
                                 (VStr "post20170630") (VStr "news") id
                            ++ newline
                            ++ @json_dumps CPython.runtime (VDict (heap (snd run) 1))
                            ++ newline ++ tail)))
         new.
Proof.
  exact (add_dict_to_es_injects_createDate (RT := CPython.runtime) a_transport
           (VStr "post20170630") (VStr "news") VNone None VNone true VNone
           [0] [2] 1 (a_world three_records [json_response partial_failure])
           ltac:(intros a [<-|[<-|[<-|[]]]]; reflexivity)
           eq_refl eq_refl
           ltac:(intros [H|[]]; discriminate H)).
Defined.

(** The second of the three records is dated with the second reading of
    the clock, and so it goes on the wire. *)
Example add_dict_to_es_second_record_dated :
  let run := add_dict_to_es (RT := CPython.runtime) a_transport (VStr "post20170630")
               (VStr "news") [0; 1; 2] None VNone None VNone true VNone
               (a_world three_records [json_response partial_failure]) in
  heap (snd run) 1
  = [("appCode", VStr "weibo"); ("id", VStr "2"); ("title", VStr "second");
     ("createDate", VInt 1530000001)]
  /\ map (fun cr => rq_body (snd cr)) (sent (snd run))
     = [Some (CPython.utf8 body_three)]
  /\ is_substring (CPython.dumps true (VDict (heap (snd run) 1)) ++ newline)
       body_three = true.
Proof. vm_compute. repeat split. Qed.

(* ------------------------------------------------------------------ *)
(** ** The pool handles of the writer configs *)

Lemma construct_ok (ev : nat -> pool_event) (n : net) :
  fault n (calls n) = None ->
  construct ev n
  = (Ok (fresh n),
     {| fresh := S (fresh n); fault := fault n; calls := S (calls n);
        events := events n ++ [ev (fresh n)] |}).
Proof. intros H. unfold construct. now rewrite H. Qed.

Lemma perform_ok (ev : pool_event) (n : net) :
  fault n (calls n) = None ->
  perform ev n
  = (Ok tt,
     {| fresh := fresh n; fault := fault n; calls := S (calls n);
        events := events n ++ [ev] |}).
Proof. intros H. unfold perform. now rewrite H. Qed.

Lemma constructions_snoc (evs : list pool_event) (ev : pool_event) (f : nat -> option exn)
    (k c : nat) :
  constructions {| fresh := k; fault := f; calls := c; events := evs ++ [ev] |}
  = (if is_construction ev then 1 else 0)
    + constructions {| fresh := k; fault := f; calls := c; events := evs |}.
Proof.
  unfold constructions. cbn [events]. rewrite filter_app, length_app. cbn [List.filter].
  destruct (is_construction ev); cbn; lia.
Qed.

Section Pools.
Context {RT : PyRuntime}.

(** The first acquisition on a Redis config without a pool, when the
    library does not fail: one pool is built, of 1 to 3 connections,
    without an encoding when [compress] is set. *)
Lemma get_redis_pool_cli_first (c : WRedisConfig.t) (n : net) :
  WRedisConfig.redis_pool_cli c = None ->
  fault n (calls n) = None ->
  exists (c1 : WRedisConfig.t) (kwargs : dict),
    WRedisConfig.get_redis_pool_cli (c, n)
    = (Ok (fresh n),
       (c1, {| fresh := S (fresh n); fault := fault n; calls := S (calls n);
               events := events n
                         ++ [CreateRedisPool (WRedisConfig.host c, WRedisConfig.port c)
                               kwargs (fresh n)] |}))
    /\ WRedisConfig.redis_pool_cli c1 = Some (fresh n)
    /\ dict_get "minsize" kwargs = Some (VInt 1)
    /\ dict_get "maxsize" kwargs = Some (VInt 3)
    /\ dict_get "encoding" kwargs
       = (if truthy (WRedisConfig.compress c) then None
          else Some (WRedisConfig.encoding c)).
Proof.
  intros Hnone Hfault. unfold WRedisConfig.get_redis_pool_cli.
  unfold bind at 1, self at 1. cbn [fst]. rewrite Hnone.
  unfold bind at 1, on_net at 1. cbn [snd fst]. rewrite (construct_ok _ n Hfault).
  eexists. eexists. split; [reflexivity|].
  split; [reflexivity|].
  destruct (truthy (WRedisConfig.compress c)); repeat split.
Qed.

(** An acquisition on a config that holds a pool hands that pool back
    and changes nothing. *)
Lemma get_redis_pool_cli_cached (c : WRedisConfig.t) (n : net) (pool : nat) :
  WRedisConfig.redis_pool_cli c = Some pool ->
  WRedisConfig.get_redis_pool_cli (c, n) = (Ok pool, (c, n)).
Proof.
  intros Hsome. unfold WRedisConfig.get_redis_pool_cli, bind, self, ret.
  cbn [fst]. now rewrite Hsome.
Qed.

Lemma get_mysql_pool_cli_cached (c : WMySQLConfig.t) (n : net) (pool : nat) :
  WMySQLConfig.mysql_pool_cli c = Some pool ->
  WMySQLConfig.get_mysql_pool_cli (c, n) = (Ok pool, (c, n)).
Proof.
  intros Hsome. unfold WMySQLConfig.get_mysql_pool_cli, bind, self, ret.
  cbn [fst]. now rewrite Hsome.
Qed.

(** The first acquisition on a MySQL config without a pool, when the
    library does not fail: a pool, a connection taken from it and a
    cursor on that connection. *)
Lemma get_mysql_pool_cli_first (c : WMySQLConfig.t) (n : net) :
  WMySQLConfig.mysql_pool_cli c = None ->
  (forall k, fault n k = None) ->
  WMySQLConfig.get_mysql_pool_cli (c, n)
  = (Ok (fresh n),
     (WMySQLConfig.set_handles c (Some (fresh n)) (Some (S (fresh n)))
        (Some (S (S (fresh n)))),
      {| fresh := S (S (S (fresh n))); fault := fault n; calls := S (S (S (calls n)));
         events := ((events n
                     ++ [CreatePool (WMySQLConfig.host c) (WMySQLConfig.port c)
                           (WMySQLConfig.user c) (WMySQLConfig.password c)
                           (WMySQLConfig.database c) (WMySQLConfig.loop c) 1 3
                           (WMySQLConfig.encoding c) (fresh n)])
                    ++ [Acquire (fresh n) (S (fresh n))])
                   ++ [Cursor (S (fresh n)) (S (S (fresh n)))] |})).
Proof.
  intros Hnone Hfault. unfold WMySQLConfig.get_mysql_pool_cli.
  unfold bind at 1, self at 1. cbn [fst]. rewrite Hnone.
  unfold bind, on_net, self, assign, ret. cbn [snd fst].
  rewrite (construct_ok _ n (Hfault _)). cbn [snd fst].
  rewrite construct_ok by (cbn; apply Hfault). cbn [snd fst fresh fault calls events].
  rewrite construct_ok by (cbn; apply Hfault). cbn [snd fst fresh fault calls events].
  reflexivity.
Qed.

(** Releasing a MySQL config that holds a pool, when the library does not
    fail: the connection goes back, the pool is closed, its end is
    awaited in a task, and the three handles are forgotten. *)
Lemma free_resource_done (c : WMySQLConfig.t) (n : net) (pool : nat) :
  WMySQLConfig.mysql_pool_cli c = Some pool ->
  (forall k, fault n k = None) ->
  WMySQLConfig.free_resource (c, n)
  = (Ok tt,
     (WMySQLConfig.set_handles c None None None,
      {| fresh := fresh n; fault := fault n; calls := S (S (S (calls n)));
         events := ((events n ++ [Release pool (WMySQLConfig.connection c)])
                    ++ [Close pool])
                   ++ [CreateTaskWaitClosed (WMySQLConfig.loop c) pool] |})).
Proof.
  intros Hsome Hfault. unfold WMySQLConfig.free_resource.
  unfold bind at 1, self at 1. cbn [fst]. rewrite Hsome.
  unfold bind, on_net, assign. cbn [snd fst].
  rewrite (perform_ok _ n (Hfault _)). cbn [snd fst].
  rewrite perform_ok by (cbn; apply Hfault). cbn [snd fst fresh fault calls events].
  rewrite perform_ok by (cbn; apply Hfault). cbn [snd fst fresh fault calls events].
  reflexivity.
Qed.

(** Releasing a config that holds no pool does nothing. *)
Lemma free_resource_idle (c : WMySQLConfig.t) (n : net) :
  WMySQLConfig.mysql_pool_cli c = None ->
  WMySQLConfig.free_resource (c, n) = (Ok tt, (c, n)).
Proof.
  intros Hnone. unfold WMySQLConfig.free_resource, bind, self, ret.
  cbn [fst]. now rewrite Hnone.
Qed.

(** C7. A Redis config and a MySQL config that hold no pool yet, and
    libraries that do not fail.  The first acquisition builds one pool;
    a second acquisition without a release in between returns the same
    handle and leaves the config and the libraries as they were, so no
    second pool is built.  For the MySQL config, which is the one with a
    release: after [free_resource] the config holds no pool, connection
    or cursor, and the next acquisition builds a new pool, whose handle
    is not the old one. *)
Theorem pool_handle_is_cached (rc : WRedisConfig.t) (mc : WMySQLConfig.t) (n : net) :
  (forall k, fault n k = None) ->
  WRedisConfig.redis_pool_cli rc = None ->
  WMySQLConfig.mysql_pool_cli mc = None ->
  (let first := WRedisConfig.get_redis_pool_cli (rc, n) in
   let second := WRedisConfig.get_redis_pool_cli (snd first) in
   fst first = Ok (fresh n) /\ fst second = Ok (fresh n)
   /\ snd second = snd first
   /\ constructions (snd (snd first)) = S (constructions n))
  /\ (let first := WMySQLConfig.get_mysql_pool_cli (mc, n) in
      let second := WMySQLConfig.get_mysql_pool_cli (snd first) in
      let released := WMySQLConfig.free_resource (snd second) in
      let third := WMySQLConfig.get_mysql_pool_cli (snd released) in
      fst first = Ok (fresh n) /\ fst second = Ok (fresh n)
      /\ snd second = snd first
      /\ constructions (snd (snd first)) = S (constructions n)
      /\ fst released = Ok tt
      /\ WMySQLConfig.mysql_pool_cli (fst (snd released)) = None
      /\ WMySQLConfig.connection (fst (snd released)) = None
      /\ WMySQLConfig.cursor (fst (snd released)) = None
      /\ constructions (snd (snd released)) = S (constructions n)
      /\ (exists pool, fst third = Ok pool /\ pool <> fresh n
                       /\ WMySQLConfig.mysql_pool_cli (fst (snd third)) = Some pool)
      /\ constructions (snd (snd third)) = S (S (constructions n))).
Proof.
  intros Hfault Hrc Hmc. split.
  - destruct (get_redis_pool_cli_first rc n Hrc (Hfault _))
      as (c1 & kwargs & Hfirst & Hpool & _).
    cbv zeta. rewrite Hfirst. cbn [fst snd].
    rewrite (get_redis_pool_cli_cached c1 _ (fresh n) Hpool). cbn [fst snd].
    repeat split. now rewrite constructions_snoc.
  - cbv zeta. rewrite (get_mysql_pool_cli_first mc n Hmc Hfault). cbn [fst snd].
    set (c1 := WMySQLConfig.set_handles mc (Some (fresh n)) (Some (S (fresh n)))
                 (Some (S (S (fresh n))))).
    rewrite (get_mysql_pool_cli_cached c1 _ (fresh n) eq_refl). cbn [fst snd].
    rewrite (free_resource_done c1 _ (fresh n) eq_refl) by (cbn; apply Hfault).
    cbn [fst snd].
    rewrite (get_mysql_pool_cli_first (WMySQLConfig.set_handles c1 None None None) _
               eq_refl) by (cbn; apply Hfault).
    cbn [fst snd fresh events].
    repeat split.
    + now rewrite !constructions_snoc.
    + now rewrite !constructions_snoc.
    + exists (S (S (S (fresh n)))). repeat split. lia.
    + now rewrite !constructions_snoc.
Qed.

End Pools.

Lemma pool_handle_is_cached_witness :
  (let first := WRedisConfig.get_redis_pool_cli (a_redis_config, a_net) in
   let second := WRedisConfig.get_redis_pool_cli (snd first) in
   fst first = Ok (fresh a_net) /\ fst second = Ok (fresh a_net)
   /\ snd second = snd first
   /\ constructions (snd (snd first)) = S (constructions a_net))
  /\ (let first := WMySQLConfig.get_mysql_pool_cli (a_mysql_config, a_net) in
      let second := WMySQLConfig.get_mysql_pool_cli (snd first) in
      let released := WMySQLConfig.free_resource (snd second) in
      let third := WMySQLConfig.get_mysql_pool_cli (snd released) in
      fst first = Ok (fresh a_net) /\ fst second = Ok (fresh a_net)
      /\ snd second = snd first
      /\ constructions (snd (snd first)) = S (constructions a_net)
      /\ fst released = Ok tt
      /\ WMySQLConfig.mysql_pool_cli (fst (snd released)) = None
      /\ WMySQLConfig.connection (fst (snd released)) = None
      /\ WMySQLConfig.cursor (fst (snd released)) = None
      /\ constructions (snd (snd released)) = S (constructions a_net)
      /\ (exists pool, fst third = Ok pool /\ pool <> fresh a_net
                       /\ WMySQLConfig.mysql_pool_cli (fst (snd third)) = Some pool)
      /\ constructions (snd (snd third)) = S (S (constructions a_net))).
Proof.
  exact (pool_handle_is_cached a_redis_config a_mysql_config a_net
           (fun _ => eq_refl) eq_refl eq_refl).
Defined.

(** The calls the libraries see from acquiring the MySQL handle twice,
    releasing it and acquiring it again. *)
Example mysql_pool_events :
  let s1 := snd (WMySQLConfig.get_mysql_pool_cli (a_mysql_config, a_net)) in
  let s2 := snd (WMySQLConfig.get_mysql_pool_cli s1) in
  let s3 := snd (WMySQLConfig.free_resource s2) in
  let s4 := snd (WMySQLConfig.get_mysql_pool_cli s3) in
  events (snd s4)
  = [CreatePool (VStr "localhost") 3306 (VStr "root") (VStr "") (VStr "news") 0 1 3
       (VStr "utf8") 0;
     Acquire 0 1; Cursor 1 2;
     Release 0 (Some 1); Close 0; CreateTaskWaitClosed 0 0;
     CreatePool (VStr "localhost") 3306 (VStr "root") (VStr "") (VStr "news") 0 1 3
       (VStr "utf8") 3;
     Acquire 3 4; Cursor 4 5].
Proof. reflexivity. Qed.

(* ------------------------------------------------------------------ *)
(** ** The constructors of the writer configs *)

Section Constructors.
Context {RT : PyRuntime}.

(** What each constructor does: it either raises a [ValueError] or
    returns a config with every attribute set from its arguments and no
    pool, connection or cursor yet.  [WESConfig] raises exactly when
    Elasticsearch is not configured.  [WRedisConfig] raises exactly when
    Redis is not configured and the port is not positive, or the key
    type is neither LIST nor HASH, or the encoding is missing.
    [WMySQLConfig] raises exactly when MySQL is not configured and the
    port is not positive, or the module could not import aiomysql. *)
Lemma constructors_outcome (mc : main_config) :
  (forall es_hosts indices doc_type filter_ expand id_hash_func appCode actions
          createDate error_if_fail timeout max_retry random_min_sleep
          random_max_sleep auto_insert_createDate,
      match WESConfig.__init__ mc es_hosts indices doc_type filter_ expand id_hash_func
              appCode actions createDate error_if_fail timeout max_retry
              random_min_sleep random_max_sleep auto_insert_createDate with
      | Raise e => (exists msg, e = ValueError msg) /\ has_es_configured mc = false
      | Ok c =>
          has_es_configured mc = true
          /\ c = {| WESConfig.indices := indices; WESConfig.doc_type := doc_type;
                    WESConfig.filter := filter_; WESConfig.expand := expand;
                    WESConfig.id_hash_func := id_hash_func;
                    WESConfig.es_client := {| hosts := es_hosts |};
                    WESConfig.app_code := appCode; WESConfig.actions := actions;
                    WESConfig.create_date := createDate;
                    WESConfig.error_if_fail := error_if_fail;
                    WESConfig.timeout := timeout; WESConfig.max_retry := max_retry;
                    WESConfig.random_min_sleep := random_min_sleep;
                    WESConfig.random_max_sleep := random_max_sleep;
                    WESConfig.auto_insert_createDate := auto_insert_createDate |}
      end)
  /\ (forall key key_type filter_ host port db password timeout encoding direction
             max_retry random_min_sleep random_max_sleep compress,
      match WRedisConfig.__init__ mc key key_type filter_ host port db password timeout
              encoding direction max_retry random_min_sleep random_max_sleep
              compress with
      | Raise e =>
          (exists msg, e = ValueError msg)
          /\ ((has_redis_configured mc = false /\ (port <= 0)%Z)
              \/ (key_type <> VStr "LIST" /\ key_type <> VStr "HASH")
              \/ truthy encoding = false)
      | Ok c =>
          (has_redis_configured mc = true \/ (0 < port)%Z)
          /\ (key_type = VStr "LIST" \/ key_type = VStr "HASH")
          /\ truthy encoding = true
          /\ c = {| WRedisConfig.redis_pool_cli := None; WRedisConfig.key := key;
                    WRedisConfig.host := host; WRedisConfig.port := port;
                    WRedisConfig.db := db;
                    WRedisConfig.password := if truthy password then password else VNone;
                    WRedisConfig.encoding := encoding;
                    WRedisConfig.timeout := timeout;
                    WRedisConfig.key_type := key_type; WRedisConfig.filter := filter_;
                    WRedisConfig.name :=
                      py_str host ++ "_" ++ py_str (VInt port) ++ "->" ++ py_str key;
                    WRedisConfig.redis_write_method := None;
                    WRedisConfig.direction := direction;
                    WRedisConfig.max_retry := max_retry;
                    WRedisConfig.random_min_sleep := random_min_sleep;
                    WRedisConfig.random_max_sleep := random_max_sleep;
                    WRedisConfig.compress := compress;
                    WRedisConfig.is_range := is_str key_type "LIST" |}
      end)
  /\ (forall aiomysql_imported event_loop table filter_ max_retry random_min_sleep
             random_max_sleep host port user password database encoding loop,
      match WMySQLConfig.__init__ mc aiomysql_imported event_loop table filter_
              max_retry random_min_sleep random_max_sleep host port user password
              database encoding loop with
      | Raise e =>
          (exists msg, e = ValueError msg)
          /\ ((has_mysql_configured mc = false /\ (port <= 0)%Z)
              \/ aiomysql_imported = false)
      | Ok c =>
          (has_mysql_configured mc = true \/ (0 < port)%Z)
          /\ aiomysql_imported = true
          /\ c = {| WMySQLConfig.table := table; WMySQLConfig.database := database;
                    WMySQLConfig.max_retry := max_retry;
                    WMySQLConfig.random_min_sleep := random_min_sleep;
                    WMySQLConfig.random_max_sleep := random_max_sleep;
                    WMySQLConfig.filter := filter_;
                    WMySQLConfig.name := py_str table ++ "->" ++ py_str database;
                    WMySQLConfig.host := host; WMySQLConfig.port := port;
                    WMySQLConfig.user := user;
                    WMySQLConfig.password := if truthy password then password else VStr "";
                    WMySQLConfig.encoding := encoding;
                    WMySQLConfig.loop := match loop with Some l => l | None => event_loop end;
                    WMySQLConfig.mysql_pool_cli := None;
                    WMySQLConfig.connection := None; WMySQLConfig.cursor := None |}
      end).
Proof.
  split; [|split].
  - intros. unfold WESConfig.__init__.
    destruct (has_es_configured mc); cbn [negb]; [split; reflexivity|].
    split; [eauto | reflexivity].
  - intros. unfold WRedisConfig.__init__.
    destruct (has_redis_configured mc) eqn:Hconf; cbn [negb andb];
      [|destruct (port <=? 0)%Z eqn:Hport;
        [split; [eauto|left; split; [reflexivity | lia]]|]];
      (assert (Hkt : (is_str key_type "LIST" || is_str key_type "HASH") = true
                     <-> key_type = VStr "LIST" \/ key_type = VStr "HASH")
         by (split;
             [intros H; apply orb_prop in H as [H|H];
              destruct key_type; try discriminate H;
              apply String.eqb_eq in H as ->; auto
             |now intros [->| ->]]);
       destruct (is_str key_type "LIST" || is_str key_type "HASH") eqn:Hk;
         cbn [negb];
         [|split; [eauto|];
           right; left; split; intros E; assert (false = true) by (apply Hkt; auto);
           discriminate];
       destruct (truthy encoding) eqn:Henc; cbn [negb];
         [|split; [eauto | auto]];
       (split; [first [now left | right; lia]|]);
       (split; [now apply Hkt|]);
       (split; [reflexivity|]);
       destruct (truthy password); reflexivity).
  - intros. unfold WMySQLConfig.__init__.
    destruct (has_mysql_configured mc) eqn:Hconf; cbn [negb andb];
      [|destruct (port <=? 0)%Z eqn:Hport;
        [split; [eauto|left; split; [reflexivity | lia]]|]];
      (destruct aiomysql_imported; cbn [negb];
       [|split; [eauto | now right]];
       (split; [first [now left | right; lia]|]);
       (split; [reflexivity|]);
       destruct (truthy password); reflexivity).
Qed.

(** C9. A constructor fails fast.  With its connection parameters
    missing (nothing configured for the sink, and for the key-value and
    the relational sink no positive port either) each of the three
    constructors raises a [ValueError]; so does the key-value
    constructor for a key type that is neither LIST nor HASH and for a
    missing encoding.  The constructors are functions of their arguments
    and of [main_config]: the error is their result, and no library is
    reached.  A construction that does not raise returns a config with
    every attribute set from the arguments; and whatever a constructor
    raises is a [ValueError]. *)
Theorem constructors_fail_fast (mc : main_config) :
  (has_es_configured mc = false ->
   forall es_hosts indices doc_type filter_ expand id_hash_func appCode actions
          createDate error_if_fail timeout max_retry random_min_sleep
          random_max_sleep auto_insert_createDate,
   exists msg,
     WESConfig.__init__ mc es_hosts indices doc_type filter_ expand id_hash_func
       appCode actions createDate error_if_fail timeout max_retry
       random_min_sleep random_max_sleep auto_insert_createDate
     = Raise (ValueError msg))
  /\ (forall key key_type filter_ host port db password timeout encoding direction
             max_retry random_min_sleep random_max_sleep compress,
      (has_redis_configured mc = false /\ (port <= 0)%Z)
      \/ (key_type <> VStr "LIST" /\ key_type <> VStr "HASH")
      \/ truthy encoding = false ->
      exists msg,
        WRedisConfig.__init__ mc key key_type filter_ host port db password timeout
          encoding direction max_retry random_min_sleep random_max_sleep compress
        = Raise (ValueError msg))
  /\ (forall aiomysql_imported event_loop table filter_ max_retry random_min_sleep
             random_max_sleep host port user password database encoding loop,
      has_mysql_configured mc = false /\ (port <= 0)%Z ->
      exists msg,
        WMySQLConfig.__init__ mc aiomysql_imported event_loop table filter_
          max_retry random_min_sleep random_max_sleep host port user password
          database encoding loop
        = Raise (ValueError msg))
  /\ (forall es_hosts indices doc_type filter_ expand id_hash_func appCode actions
             createDate error_if_fail timeout max_retry random_min_sleep
             random_max_sleep auto_insert_createDate r,
      WESConfig.__init__ mc es_hosts indices doc_type filter_ expand id_hash_func
        appCode actions createDate error_if_fail timeout max_retry
        random_min_sleep random_max_sleep auto_insert_createDate = r ->
      match r with
      | Raise e => exists msg, e = ValueError msg
      | Ok c =>
          c = {| WESConfig.indices := indices; WESConfig.doc_type := doc_type;
                 WESConfig.filter := filter_; WESConfig.expand := expand;
                 WESConfig.id_hash_func := id_hash_func;
                 WESConfig.es_client := {| hosts := es_hosts |};
                 WESConfig.app_code := appCode; WESConfig.actions := actions;
                 WESConfig.create_date := createDate;
                 WESConfig.error_if_fail := error_if_fail;
                 WESConfig.timeout := timeout; WESConfig.max_retry := max_retry;
                 WESConfig.random_min_sleep := random_min_sleep;
                 WESConfig.random_max_sleep := random_max_sleep;
                 WESConfig.auto_insert_createDate := auto_insert_createDate |}
      end)
  /\ (forall key key_type filter_ host port db password timeout encoding direction
             max_retry random_min_sleep random_max_sleep compress r,
      WRedisConfig.__init__ mc key key_type filter_ host port db password timeout
        encoding direction max_retry random_min_sleep random_max_sleep compress = r ->
      match r with
      | Raise e => exists msg, e = ValueError msg
      | Ok c =>
          c = {| WRedisConfig.redis_pool_cli := None; WRedisConfig.key := key;
                 WRedisConfig.host := host; WRedisConfig.port := port;
                 WRedisConfig.db := db;
                 WRedisConfig.password := if truthy password then password else VNone;
                 WRedisConfig.encoding := encoding;
                 WRedisConfig.timeout := timeout;
                 WRedisConfig.key_type := key_type; WRedisConfig.filter := filter_;
                 WRedisConfig.name :=
                   py_str host ++ "_" ++ py_str (VInt port) ++ "->" ++ py_str key;
                 WRedisConfig.redis_write_method := None;
                 WRedisConfig.direction := direction;
                 WRedisConfig.max_retry := max_retry;
                 WRedisConfig.random_min_sleep := random_min_sleep;
                 WRedisConfig.random_max_sleep := random_max_sleep;
                 WRedisConfig.compress := compress;
                 WRedisConfig.is_range := is_str key_type "LIST" |}
      end)
  /\ (forall aiomysql_imported event_loop table filter_ max_retry random_min_sleep
             random_max_sleep host port user password database encoding loop r,
      WMySQLConfig.__init__ mc aiomysql_imported event_loop table filter_
        max_retry random_min_sleep random_max_sleep host port user password
        database encoding loop = r ->
      match r with
      | Raise e => exists msg, e = ValueError msg
      | Ok c =>
          c = {| WMySQLConfig.table := table; WMySQLConfig.database := database;
                 WMySQLConfig.max_retry := max_retry;
                 WMySQLConfig.random_min_sleep := random_min_sleep;
                 WMySQLConfig.random_max_sleep := random_max_sleep;
                 WMySQLConfig.filter := filter_;
                 WMySQLConfig.name := py_str table ++ "->" ++ py_str database;
                 WMySQLConfig.host := host; WMySQLConfig.port := port;
                 WMySQLConfig.user := user;
                 WMySQLConfig.password := if truthy password then password else VStr "";
                 WMySQLConfig.encoding := encoding;
                 WMySQLConfig.loop := match loop with Some l => l | None => event_loop end;
                 WMySQLConfig.mysql_pool_cli := None;
                 WMySQLConfig.connection := None; WMySQLConfig.cursor := None |}
      end).
Proof.
  destruct (constructors_outcome mc) as (Hes & Hredis & Hmysql).
  split; [|split; [|split; [|split; [|split]]]].
  - intros Hconf es_hosts indices doc_type filter_ expand id_hash_func appCode actions
      createDate error_if_fail timeout max_retry random_min_sleep random_max_sleep
      auto_insert_createDate.
    specialize (Hes es_hosts indices doc_type filter_ expand id_hash_func appCode
                  actions createDate error_if_fail timeout max_retry random_min_sleep
                  random_max_sleep auto_insert_createDate).
    destruct (WESConfig.__init__ _ _ _ _ _ _ _ _ _ _ _ _ _ _ _ _) as [c|e].
    + destruct Hes as [Hc _]. congruence.
    + destruct Hes as [(msg & ->) _]. eauto.
  - intros key key_type filter_ host port db password timeout encoding direction
      max_retry random_min_sleep random_max_sleep compress Hcause.
    specialize (Hredis key key_type filter_ host port db password timeout encoding
                  direction max_retry random_min_sleep random_max_sleep compress).
    destruct (WRedisConfig.__init__ _ _ _ _ _ _ _ _ _ _ _ _ _ _ _) as [c|e].
    + destruct Hredis as (Hport & Hkey & Henc & _).
      destruct Hcause as [[Hconf Hle]|[[Hl Hh]|Hfalse]].
      * destruct Hport as [Hp|Hp]; [congruence | lia].
      * destruct Hkey as [Hk|Hk]; contradiction.
      * congruence.
    + destruct Hredis as [(msg & ->) _]. eauto.
  - intros aiomysql_imported event_loop table filter_ max_retry random_min_sleep
      random_max_sleep host port user password database encoding loop [Hconf Hle].
    specialize (Hmysql aiomysql_imported event_loop table filter_ max_retry
                  random_min_sleep random_max_sleep host port user password database
                  encoding loop).
    destruct (WMySQLConfig.__init__ _ _ _ _ _ _ _ _ _ _ _ _ _ _ _) as [c|e].
    + destruct Hmysql as (Hport & _). destruct Hport as [Hp|Hp]; [congruence | lia].
    + destruct Hmysql as [(msg & ->) _]. eauto.
  - intros es_hosts indices doc_type filter_ expand id_hash_func appCode actions
      createDate error_if_fail timeout max_retry random_min_sleep random_max_sleep
      auto_insert_createDate r <-.
    specialize (Hes es_hosts indices doc_type filter_ expand id_hash_func appCode
                  actions createDate error_if_fail timeout max_retry random_min_sleep
                  random_max_sleep auto_insert_createDate).
    destruct (WESConfig.__init__ _ _ _ _ _ _ _ _ _ _ _ _ _ _ _ _) as [c|e];
      [now destruct Hes | now destruct Hes].
  - intros key key_type filter_ host port db password timeout encoding direction
      max_retry random_min_sleep random_max_sleep compress r <-.
    specialize (Hredis key key_type filter_ host port db password timeout encoding
                  direction max_retry random_min_sleep random_max_sleep compress).
    destruct (WRedisConfig.__init__ _ _ _ _ _ _ _ _ _ _ _ _ _ _ _) as [c|e];
      [now destruct Hredis as (_ & _ & _ & ->) | now destruct Hredis].
  - intros aiomysql_imported event_loop table filter_ max_retry random_min_sleep
      random_max_sleep host port user password database encoding loop r <-.
    specialize (Hmysql aiomysql_imported event_loop table filter_ max_retry
                  random_min_sleep random_max_sleep host port user password database
                  encoding loop).
    destruct (WMySQLConfig.__init__ _ _ _ _ _ _ _ _ _ _ _ _ _ _ _) as [c|e];
      [now destruct Hmysql as (_ & _ & ->) | now destruct Hmysql].
Qed.

End Constructors.

(** C9, witness.  Nothing is configured and no port is given: each of
    the three constructors raises a [ValueError]; and so does the
    key-value constructor, on a configured system, for the key type SET
    and for an empty encoding. *)
Lemma constructors_fail_fast_witness :
  (has_es_configured unconfigured = false
   /\ exists msg,
        WESConfig.__init__ unconfigured VNone (VStr "post20170630") (VStr "news") None
          None None VNone VNone VNone true VNone 3 1 3 true = Raise (ValueError msg))
  /\ (((has_redis_configured unconfigured = false /\ (0 <= 0)%Z)
       \/ (VStr "LIST" <> VStr "LIST" /\ VStr "LIST" <> VStr "HASH")
       \/ truthy (VStr "utf8") = false)
      /\ exists msg,
           WRedisConfig.__init__ (RT := CPython.runtime) unconfigured (VStr "my_key")
             (VStr "LIST") None VNone 0 VNone VNone VNone (VStr "utf8") VNone 3 1 3
             VNone = Raise (ValueError msg))
  /\ (((has_redis_configured configured = false /\ (6379 <= 0)%Z)
       \/ (VStr "SET" <> VStr "LIST" /\ VStr "SET" <> VStr "HASH")
       \/ truthy (VStr "utf8") = false)
      /\ exists msg,
           WRedisConfig.__init__ (RT := CPython.runtime) configured (VStr "my_key")
             (VStr "SET") None (VStr "localhost") 6379 (VInt 0) VNone (VInt 10)
             (VStr "utf8") (VStr "L") 3 1 3 (VBool false) = Raise (ValueError msg))
  /\ (((has_redis_configured configured = false /\ (6379 <= 0)%Z)
       \/ (VStr "LIST" <> VStr "LIST" /\ VStr "LIST" <> VStr "HASH")
       \/ truthy (VStr "") = false)
      /\ exists msg,
           WRedisConfig.__init__ (RT := CPython.runtime) configured (VStr "my_key")
             (VStr "LIST") None (VStr "localhost") 6379 (VInt 0) VNone (VInt 10)
             (VStr "") (VStr "L") 3 1 3 (VBool false) = Raise (ValueError msg))
  /\ ((has_mysql_configured unconfigured = false /\ (0 <= 0)%Z)
      /\ exists msg,
           WMySQLConfig.__init__ (RT := CPython.runtime) unconfigured true 0
             (VStr "my_table") None 3 1 3 VNone 0 VNone VNone VNone VNone None
           = Raise (ValueError msg)).
Proof.
  assert (Hzero : (0 <= 0)%Z) by lia.
  assert (Hset : VStr "SET" <> VStr "LIST" /\ VStr "SET" <> VStr "HASH")
    by (split; discriminate).
  split.
  { split; [reflexivity|].
    exact (proj1 (constructors_fail_fast (RT := CPython.runtime) unconfigured) eq_refl
             VNone (VStr "post20170630") (VStr "news") None None None VNone VNone VNone
             true VNone 3%Z 1%Q 3%Q true). }
  split.
  { split; [left; split; [reflexivity | exact Hzero]|].
    exact (proj1 (proj2 (constructors_fail_fast (RT := CPython.runtime) unconfigured))
             (VStr "my_key") (VStr "LIST") None VNone 0%Z VNone VNone VNone (VStr "utf8")
             VNone 3%Z 1%Q 3%Q VNone (or_introl (conj eq_refl Hzero))). }
  split.
  { split; [right; left; exact Hset|].
    exact (proj1 (proj2 (constructors_fail_fast (RT := CPython.runtime) configured))
             (VStr "my_key") (VStr "SET") None (VStr "localhost") 6379%Z (VInt 0) VNone
             (VInt 10) (VStr "utf8") (VStr "L") 3%Z 1%Q 3%Q (VBool false)
             (or_intror (or_introl Hset))). }
  split.
  { split; [right; right; reflexivity|].
    exact (proj1 (proj2 (constructors_fail_fast (RT := CPython.runtime) configured))
             (VStr "my_key") (VStr "LIST") None (VStr "localhost") 6379%Z (VInt 0) VNone
             (VInt 10) (VStr "") (VStr "L") 3%Z 1%Q 3%Q (VBool false)
             (or_intror (or_intror eq_refl))). }
  split; [split; [reflexivity | exact Hzero]|].
  exact (proj1 (proj2 (proj2 (constructors_fail_fast (RT := CPython.runtime) unconfigured)))
           true 0 (VStr "my_table") None 3%Z 1%Q 3%Q VNone 0%Z VNone VNone VNone VNone None
           (conj eq_refl Hzero)).
Defined.

(** The guard of the key-value and of the relational constructor asks
    for both: a caller that names a host and a positive port gets its
    config with nothing configured. *)
Example WRedisConfig_without_configuration :
  has_redis_configured unconfigured = false
  /\ exists c,
       WRedisConfig.__init__ (RT := CPython.runtime) unconfigured (VStr "my_key")
         (VStr "LIST") None (VStr "10.0.0.7") 6379 (VInt 0) VNone (VInt 10)
         (VStr "utf8") (VStr "L") 3 1 3 (VBool false) = Ok c.
Proof. split; [reflexivity|]. eexists. reflexivity. Qed.

(** The configs of the examples are the ones the constructors build. *)
Example WRedisConfig_built :
  WRedisConfig.__init__ (RT := CPython.runtime) configured (VStr "my_key") (VStr "LIST")
    None (VStr "localhost") 6379 (VInt 0) (VStr "") (VInt 10) (VStr "utf8") (VStr "L")
    3 1 3 (VBool false) = Ok a_redis_config.
Proof. vm_compute. reflexivity. Qed.

Example WMySQLConfig_built :
  WMySQLConfig.__init__ (RT := CPython.runtime) configured true 0 (VStr "my_table") None
    3 1 3 (VStr "localhost") 3306 (VStr "root") VNone (VStr "news") (VStr "utf8") None
  = Ok a_mysql_config.
Proof. vm_compute. reflexivity. Qed.

(** Nothing configured and no port given: each constructor refuses. *)
Example constructors_refuse_unconfigured :
  (exists msg,
      WESConfig.__init__ unconfigured VNone (VStr "post20170630") (VStr "news") None
        None None VNone VNone VNone true VNone 3 1 3 true = Raise (ValueError msg))
  /\ (exists msg,
         WRedisConfig.__init__ (RT := CPython.runtime) unconfigured (VStr "my_key")
           (VStr "LIST") None VNone 0 VNone VNone VNone (VStr "utf8") VNone 3 1 3
           VNone = Raise (ValueError msg))
  /\ (exists msg,
         WMySQLConfig.__init__ (RT := CPython.runtime) unconfigured true 0
           (VStr "my_table") None 3 1 3 VNone 0 VNone VNone VNone VNone None
         = Raise (ValueError msg)).
Proof. repeat split; eexists; reflexivity. Qed.

(* ------------------------------------------------------------------ *)
(** ** The retry policy of the writers *)

Section RetryPolicyProperties.
Import RetryPolicy.
Context {A : Type}.
Variables (operation : nat -> outcome A) (draw : nat -> Q) (min_sleep max_sleep : Q).

(** From the [i]-th invocation on: [k] more retries, a sleep before each. *)
Lemma attempt_from_trace (retries : nat) : forall (i : nat) (slept : list Q),
  let r := attempt_from operation draw min_sleep max_sleep retries i slept in
  exists k : nat,
    k <= retries
    /\ invocations r = S (i + k)
    /\ sleeps r
       = (slept ++ map (fun j => uniform min_sleep max_sleep (draw j)) (seq i k))%list.
Proof.
  induction retries as [|retries IH]; intros i slept; cbn [attempt_from].
  - exists 0. destruct (operation i); cbn; rewrite app_nil_r, Nat.add_0_r; auto.
  - destruct (operation i) as [a|e|e].
    + exists 0. cbn. rewrite app_nil_r, Nat.add_0_r. repeat split; lia.
    + destruct (IH (S i) (slept ++ [uniform min_sleep max_sleep (draw i)])%list)
        as (k & Hk & Hinv & Hsl).
      exists (S k). cbn zeta in Hinv, Hsl. rewrite Hinv, Hsl. cbn [seq map].
      repeat split; [lia | lia | now rewrite <- app_assoc].
    + exists 0. cbn. rewrite app_nil_r, Nat.add_0_r. repeat split; lia.
Qed.

Lemma uniform_within (u : Q) :
  (0 <= u <= 1)%Q -> (min_sleep <= max_sleep)%Q ->
  (min_sleep <= uniform min_sleep max_sleep u <= max_sleep)%Q.
Proof. unfold uniform. intros [H0 H1] Hle. split; nra. Qed.

Lemma uniform_degenerate (u : Q) :
  (min_sleep == max_sleep)%Q -> (uniform min_sleep max_sleep u == min_sleep)%Q.
Proof. unfold uniform. intros H. rewrite <- H. ring. Qed.

(** C6. The policy modelled from section 4.1 sleeps once between two
    consecutive invocations and not after the last one; each delay is
    [min_sleep + (max_sleep - min_sleep) * u] for a draw [u] of the unit
    interval, so it lies in [[min_sleep, max_sleep]]; and when the two
    bounds are equal every delay is that bound, 0.1 s for 0.1 and 0.1.
    The operation is invoked at most [max_retry + 1] times. *)
Theorem attempt_sleeps_between_attempts (max_retry : Z) :
  (forall n, 0 <= draw n <= 1)%Q ->
  (min_sleep <= max_sleep)%Q ->
  let r := attempt operation draw max_retry min_sleep max_sleep in
  invocations r = S (List.length (sleeps r))
  /\ (Z.of_nat (invocations r) <= Z.max 0 max_retry + 1)%Z
  /\ sleeps r = map (fun j => uniform min_sleep max_sleep (draw j))
                  (seq 0 (List.length (sleeps r)))
  /\ Forall (fun s => (min_sleep <= s <= max_sleep)%Q) (sleeps r)
  /\ ((min_sleep == max_sleep)%Q -> Forall (fun s => (s == min_sleep)%Q) (sleeps r)).
Proof.
  intros Hdraw Hle r. subst r. unfold attempt.
  destruct (attempt_from_trace (Z.to_nat max_retry) 0 []) as (k & Hk & Hinv & Hsl).
  cbn zeta in Hinv, Hsl. cbn [app] in Hsl. rewrite Hinv, Hsl.
  rewrite length_map, length_seq.
  split; [reflexivity|]. split; [lia|]. split; [reflexivity|]. split.
  - apply Forall_forall. intros s Hs. apply in_map_iff in Hs as (j & <- & _).
    now apply uniform_within.
  - intros Heq. apply Forall_forall. intros s Hs.
    apply in_map_iff in Hs as (j & <- & _). now apply uniform_degenerate.
Qed.

End RetryPolicyProperties.


Lemma attempt_sleeps_between_attempts_witness :
  let r := RetryPolicy.attempt (A := unit) (fun _ => RetryPolicy.Transient refused)
             (fun _ => 1 # 2)%Q 3 (1 # 10)%Q (1 # 10)%Q in
  RetryPolicy.invocations r = S (List.length (RetryPolicy.sleeps r))
  /\ (Z.of_nat (RetryPolicy.invocations r) <= Z.max 0 3 + 1)%Z
  /\ RetryPolicy.sleeps r
     = map (fun j => RetryPolicy.uniform (1 # 10) (1 # 10) (1 # 2)%Q)
         (seq 0 (List.length (RetryPolicy.sleeps r)))
  /\ Forall (fun s => (1 # 10 <= s <= 1 # 10)%Q) (RetryPolicy.sleeps r)
  /\ ((1 # 10 == 1 # 10)%Q ->
      Forall (fun s => (s == 1 # 10)%Q) (RetryPolicy.sleeps r)).
Proof.
  assert (Hdraw : forall n : nat, (0 <= (fun _ : nat => 1 # 2) n <= 1)%Q)
    by (intros _; split; unfold Qle; simpl; lia).
  assert (Hle : (1 # 10 <= 1 # 10)%Q) by (unfold Qle; simpl; lia).
  exact (attempt_sleeps_between_attempts (A := unit)
           (fun _ => RetryPolicy.Transient refused) (fun _ => 1 # 2)%Q
           (1 # 10)%Q (1 # 10)%Q 3 Hdraw Hle).
Defined.

(** An operation that fails every time, with [max_retry = 3]: four
    invocations, three sleeps of a tenth of a second, and a failure. *)
Example attempt_exhausted :
  let r := RetryPolicy.attempt (A := unit) (fun _ => RetryPolicy.Transient refused)
             (fun _ => 1 # 2)%Q 3 (1 # 10)%Q (1 # 10)%Q in
  RetryPolicy.answered r = RetryPolicy.Exhausted refused
  /\ RetryPolicy.invocations r = 4
  /\ map Qred (RetryPolicy.sleeps r) = [1 # 10; 1 # 10; 1 # 10]%Q.
Proof. vm_compute. split; [reflexivity|]. split; reflexivity. Qed.

(* ------------------------------------------------------------------ *)
(** ** [AIOHttpConnection.perform_request] *)

Lemma dict_get_absent (k : string) (d : dict) :
  ~ In k (map fst d) -> dict_get k d = None.
Proof.
  induction d as [|[k' v'] d IH]; cbn [dict_get map fst In]; [reflexivity|].
  intros Hn. destruct (String.eqb k k') eqn:E.
  - apply String.eqb_eq in E. exfalso. apply Hn. left. now symmetry.
  - apply IH. intros Hin. apply Hn. now right.
Qed.

(** [d.update(h)]: the keys of [h] win, the others stay. *)
Lemma dict_get_update (h : dict) : forall (d : dict) (k : string),
  NoDup (map fst h) ->
  dict_get k (fold_left (fun d kv => dict_set (fst kv) (snd kv) d) h d)
  = match dict_get k h with
    | Some v => Some v
    | None => dict_get k d
    end.
Proof.
  induction h as [|[k0 v0] h IH]; intros d k Hnd; cbn [fold_left dict_get fst snd];
    [reflexivity|].
  inversion Hnd as [|? ? Hnotin Hnd']; subst.
  rewrite IH by assumption.
  destruct (String.eqb k k0) eqn:E.
  - apply String.eqb_eq in E as ->.
    rewrite (dict_get_absent k0 h Hnotin). apply dict_get_set_same.
  - apply String.eqb_neq in E. now rewrite (dict_get_set_other k k0 v0 d E).
Qed.

Section Connection.
Variables (es_headers timeout_ : pyval) (urlencode : dict -> string).
Variables (self : AIOHttpConnection.t) (session : http_call -> exchange)
  (method url : string) (params : option dict) (body : option (list byte))
  (timeout ignore : pyval) (headers : option dict).

Let run (evs : list connection_event) :=
  AIOHttpConnection.perform_request es_headers timeout_ urlencode self session
    method url params body timeout ignore headers evs.

Ltac issued_events :=
  unfold issued; rewrite !flat_map_app; cbn [flat_map app];
  rewrite ?app_nil_r; reflexivity.

(** X11. How a request ends, given what the session does with the call.
    Whatever the session raises, at the request or when the text of the
    response is read, is raised as a connection error: [SSLError],
    [ConnectionTimeout] or [ConnectionError], with the text N/A or
    TIMEOUT for a status, never a number.  An answer is returned as
    [(status, headers, raw_data)] when its status is of the 2xx class or
    one of [ignore], and only then; for any other status the call raises
    what the library's [_raise_error] raises for the status and the raw
    data, or the [TypeError] of an [ignore] that is no collection.
    Headers to merge into [es_headers] that are no dict raise an
    [AttributeError] before anything is requested. *)
Theorem perform_request_outcome (evs : list connection_event) :
  (if mergeable es_headers headers
   then exists call,
          issued (snd (run evs)) = (issued evs ++ [call])%list
          /\ match session call with
             | RequestFails e => fst (run evs) = Raise (connection_error e)
             | TextFails _ _ e => fst (run evs) = Raise (connection_error e)
             | Answered status response_headers raw_data =>
                 if successful status
                 then fst (run evs) = Ok (status, response_headers, raw_data)
                 else match status_among status ignore with
                      | Ok true => fst (run evs) = Ok (status, response_headers, raw_data)
                      | Ok false =>
                          fst (run evs)
                          = Raise (AIOHttpConnection._raise_error self status raw_data)
                      | Raise e =>
                          fst (run evs) = Raise e /\ exists msg, e = TypeError msg
                      end
             end
   else (exists msg, fst (run evs) = Raise (AttributeError msg)) /\ snd (run evs) = evs)
  /\ (forall status response_headers raw_data,
        fst (run evs) = Ok (status, response_headers, raw_data) ->
        successful status = true \/ status_among status ignore = Ok true)
  /\ (forall e, exists kind code msg,
        connection_error e = TransportError kind code msg
        /\ isinstance_ConnectionError kind = true
        /\ (code = StatusText "N/A" \/ code = StatusText "TIMEOUT")).
Proof.
  assert (Hamong : forall st e, status_among st ignore = Raise e ->
                                exists msg, e = TypeError msg).
  { intros st e. unfold status_among. destruct ignore; intros H;
      try discriminate H; injection H as <-; eauto. }
  assert (Hcore : forall local_headers,
    let call :=
      {| call_method := method;
         call_url := (AIOHttpConnection.base_url self
                      ++ match params with
                         | Some ((_ :: _) as p) => url ++ "?" ++ urlencode p
                         | _ => url
                         end)%string;
         call_data := body; call_headers := local_headers;
         call_timeout :=
           py_or timeout (py_or timeout_ (AIOHttpConnection.timeout self)) |} in
    forall r,
    r = (AIOHttpConnection.note (Requested call) ;;
         match session call with
         | RequestFails e =>
             AIOHttpConnection.note
               (LogRequestFail method (call_url call)
                  match params with
                  | Some ((_ :: _) as p) => (url ++ "?" ++ urlencode p)%string
                  | _ => url
                  end body None None (Some e)) ;;
             raise (connection_error e)
         | TextFails status response_headers e =>
             AIOHttpConnection.note
               (LogRequestFail method (call_url call)
                  match params with
                  | Some ((_ :: _) as p) => (url ++ "?" ++ urlencode p)%string
                  | _ => url
                  end body None None (Some e)) ;;
             AIOHttpConnection.note Released ;;
             raise (connection_error e)
         | Answered status response_headers raw_data =>
             AIOHttpConnection.note Released ;;
             failed <-
               (if (200 <=? status)%Z && (status <? 300)%Z then ret false
                else ignored <- lift (status_among status ignore) ;;
                     ret (negb ignored)) ;;
             if failed : bool then
               AIOHttpConnection.note
                 (LogRequestFail method (call_url call)
                    match params with
                    | Some ((_ :: _) as p) => (url ++ "?" ++ urlencode p)%string
                    | _ => url
                    end body (Some status) (Some raw_data) None) ;;
               raise (AIOHttpConnection._raise_error self status raw_data)
             else
               AIOHttpConnection.note
                 (LogRequestSuccess method (call_url call)
                    match params with
                    | Some ((_ :: _) as p) => (url ++ "?" ++ urlencode p)%string
                    | _ => url
                    end body status raw_data) ;;
               ret (status, response_headers, raw_data)
         end) evs ->
    (exists call,
        issued (snd r) = (issued evs ++ [call])%list
        /\ match session call with
           | RequestFails e => fst r = Raise (connection_error e)
           | TextFails _ _ e => fst r = Raise (connection_error e)
           | Answered status response_headers raw_data =>
               if successful status
               then fst r = Ok (status, response_headers, raw_data)
               else match status_among status ignore with
                    | Ok true => fst r = Ok (status, response_headers, raw_data)
                    | Ok false =>
                        fst r = Raise (AIOHttpConnection._raise_error self status raw_data)
                    | Raise e => fst r = Raise e /\ exists msg, e = TypeError msg
                    end
           end)
    /\ (forall status response_headers raw_data,
          fst r = Ok (status, response_headers, raw_data) ->
          successful status = true \/ status_among status ignore = Ok true)).
  { intros local_headers call r ->.
    unfold bind, AIOHttpConnection.note, raise, ret, lift.
    destruct (session call) as [e|st hs e|st hs raw] eqn:Hs.
    - split; [|intros ? ? ? H; discriminate H].
      exists call. rewrite Hs. cbn [fst snd]. split; [|reflexivity].
      issued_events.
    - split; [|intros ? ? ? H; discriminate H].
      exists call. rewrite Hs. cbn [fst snd]. split; [|reflexivity].
      issued_events.
    - fold (successful st).
      destruct (successful st) eqn:H2xx; cbv beta iota; cbn [fst snd].
      + split; [|intros ? ? ? H; injection H as <- _ _; now left].
        exists call. rewrite Hs, H2xx. split; [|reflexivity].
        issued_events.
      + destruct (status_among st ignore) as [[|]|x] eqn:Hign; cbn [negb];
          cbv beta iota; cbn [fst snd].
        * split; [|intros ? ? ? H; injection H as <- _ _; now right].
          exists call. rewrite Hs, H2xx, Hign. split; [|reflexivity].
          issued_events.
        * split; [|intros ? ? ? H; discriminate H].
          exists call. rewrite Hs, H2xx, Hign. split; [|reflexivity].
          issued_events.
        * split; [|intros ? ? ? H; discriminate H].
          exists call. rewrite Hs, H2xx, Hign.
          split; [|split; [reflexivity | exact (Hamong st x Hign)]].
          issued_events. }
  assert (Hkinds : forall e, exists kind code msg,
             connection_error e = TransportError kind code msg
             /\ isinstance_ConnectionError kind = true
             /\ (code = StatusText "N/A" \/ code = StatusText "TIMEOUT")).
  { intros [msg|msg|cls msg]; cbn; do 3 eexists; repeat split; auto. }
  match goal with
  | |- ?A /\ ?B /\ ?C =>
      cut (A /\ B); [intros [HA HB]; split; [exact HA | split; [exact HB | exact Hkinds]]|]
  end.
  subst run. cbv beta.
  unfold AIOHttpConnection.perform_request, mergeable. unfold bind at 1 3.
  destruct headers as [[|h0 h]|]; cbv beta iota;
    try exact (Hcore es_headers _ eq_refl).
  unfold lift, updated.
  destruct es_headers as [|b0|z0|s0|l0|d0]; cbn [is_dict fst snd]; cbv beta iota;
    try (split; [split; [eexists; reflexivity | reflexivity]
                |intros ? ? ? H; discriminate H]).
  exact (Hcore (VDict (fold_left (fun d kv => dict_set (fst kv) (snd kv) d)
                         (h0 :: h) d0)) _ eq_refl).
Qed.

(** X12. One call of the session at most, and the response released exactly
    when there is one: once the session has handed out a response object
    it is released once, also when its text cannot be read and when its
    status is raised as an error; a request that brought no response
    releases nothing.  Nothing is called when the headers cannot be
    merged. *)
Theorem perform_request_releases (evs : list connection_event) :
  exists new : list connection_event,
    snd (run evs) = (evs ++ new)%list
    /\ match issued new with
       | [] => new = [] /\ exists msg, fst (run evs) = Raise (AttributeError msg)
       | [call] =>
           (exists tail, new = Requested call :: tail)
           /\ call_method call = method /\ call_data call = body
           /\ releases new = match session call with
                             | RequestFails _ => 0
                             | _ => 1
                             end
       | _ => False
       end.
Proof.
  subst run. cbv beta.
  unfold AIOHttpConnection.perform_request, bind, lift, AIOHttpConnection.note,
    raise, ret, updated.
  destruct headers as [[|h0 h]|]; [|destruct es_headers as [|b0|z0|s0|l0|d0]|];
    cbv beta iota;
    try (exists []; cbn [fst snd issued flat_map]; rewrite app_nil_r;
         split; [reflexivity | split; [reflexivity | eexists; reflexivity]]);
    match goal with
    | |- context [session ?c] =>
        set (call := c); destruct (session call) as [e|st hs e|st hs raw] eqn:Hs
    end;
    cbv beta iota; cbn [fst snd];
    try (eexists; split; [rewrite <- !app_assoc; reflexivity|];
         cbn [app issued flat_map releases filter length]; rewrite Hs;
         repeat split; eexists; reflexivity).
  all: fold (successful st); destruct (successful st); cbv beta iota; cbn [fst snd];
       [|destruct (status_among st ignore) as [[|]|x]; cbn [negb]; cbv beta iota;
         cbn [fst snd]];
       (eexists; split; [rewrite <- !app_assoc; reflexivity|];
        cbn [app issued flat_map releases filter length]; rewrite Hs;
        repeat split; eexists; reflexivity).
Qed.

(** X13. The call the session gets.  Its headers are [es_headers] themselves
    when the request brings none, and otherwise a dict in which the
    headers of the request win over those of [es_headers], which keeps
    its other keys; its timeout is the first that is true of the
    request's, [timeout_] and the connection's own, so that a timeout of
    0 or [None] for the request falls back on the configured one; the
    URL is the base URL, the path and, when there are parameters, their
    encoding after a question mark; the body goes out as it came. *)
Theorem perform_request_call (evs : list connection_event) (d : dict) :
  es_headers = VDict d ->
  NoDup (map fst (match headers with Some h => h | None => [] end)) ->
  exists (call : http_call) (tail : list connection_event),
    snd (run evs) = (evs ++ Requested call :: tail)%list
    /\ call_method call = method
    /\ call_data call = body
    /\ call_url call
       = (AIOHttpConnection.base_url self
          ++ match params with
             | Some ((_ :: _) as p) => url ++ "?" ++ urlencode p
             | _ => url
             end)%string
    /\ call_timeout call
       = (if truthy timeout then timeout
          else if truthy timeout_ then timeout_
          else AIOHttpConnection.timeout self)
    /\ (exists merged,
          call_headers call = VDict merged
          /\ (match headers with Some (_ :: _) => True | _ => merged = d end)
          /\ forall k,
               dict_get k merged
               = match dict_get k (match headers with Some h => h | None => [] end) with
                 | Some v => Some v
                 | None => dict_get k d
                 end).
Proof.
  intros -> Hnd.
  subst run. cbv beta.
  unfold AIOHttpConnection.perform_request, bind at 1.
  set (h := match headers with Some h => h | None => [] end) in *.
  assert (Hlocal :
    (match headers with
     | Some ((_ :: _) as h) => lift (updated (VDict d) h)
     | _ => ret (VDict d)
     end) evs
    = (Ok (VDict (fold_left (fun d kv => dict_set (fst kv) (snd kv) d) h d)), evs)).
  { subst h. destruct headers as [[|h0 h]|]; reflexivity. }
  rewrite Hlocal. unfold bind at 1, AIOHttpConnection.note at 1.
  set (merged := fold_left (fun d kv => dict_set (fst kv) (snd kv) d) h d).
  set (call := {| call_method := method; call_url := _; call_data := body;
                  call_headers := VDict merged; call_timeout := _ |}).
  match goal with
  | |- context [snd (?k ?x)] =>
      assert (Hk : exists tail, snd (k x) = (x ++ tail)%list)
  end.
  { destruct (session call) as [e|st hs e|st hs raw];
      unfold bind, AIOHttpConnection.note, raise, ret, lift; cbn [fst snd].
    - eexists. reflexivity.
    - eexists. rewrite <- app_assoc. reflexivity.
    - fold (successful st).
      destruct (successful st); cbv beta iota; cbn [fst snd];
        [|destruct (status_among st ignore) as [[|]|x]; cbn [negb]; cbv beta iota;
          cbn [fst snd]];
        eexists; rewrite <- ?app_assoc; reflexivity. }
  destruct Hk as (tail & Hk).
  exists call, tail. rewrite Hk, <- app_assoc.
  split; [reflexivity|]. split; [reflexivity|]. split; [reflexivity|].
  split; [reflexivity|].
  split.
  { change (call_timeout call)
      with (py_or timeout (py_or timeout_ (AIOHttpConnection.timeout self))).
    unfold py_or. destruct (truthy timeout); reflexivity. }
  exists merged. split; [reflexivity|]. split.
  - subst merged h. destruct headers as [[|h0 h]|]; auto.
  - intros k. subst merged. now apply dict_get_update.
Qed.

End Connection.

(** X13, witness. *)
Lemma perform_request_call_witness :
  let d := [("Content-Type", VStr "application/json")] in
  let headers := Some [("Content-Type", VStr "text/plain"); ("X-Token", VStr "t")] in
  let params := Some [("size", VInt 10)] in
  json_headers = VDict d
  /\ NoDup (map fst (match headers with Some h => h | None => [] end))
  /\ exists (call : http_call) (tail : list connection_event),
       snd (AIOHttpConnection.perform_request json_headers VNone CPython.urlencode
              a_connection (answering 200 "{}") "GET" "/idx/_search" params None
              (VInt 0) (VList []) headers [])
       = ([] ++ Requested call :: tail)%list
       /\ call_method call = "GET"
       /\ call_data call = None
       /\ call_url call
          = (AIOHttpConnection.base_url a_connection
             ++ match params with
                | Some ((_ :: _) as p) => "/idx/_search" ++ "?" ++ CPython.urlencode p
                | _ => "/idx/_search"
                end)%string
       /\ call_timeout call
          = (if truthy (VInt 0) then VInt 0
             else if truthy VNone then VNone
             else AIOHttpConnection.timeout a_connection)
       /\ (exists merged,
             call_headers call = VDict merged
             /\ (match headers with Some (_ :: _) => True | _ => merged = d end)
             /\ forall k,
                  dict_get k merged
                  = match dict_get k (match headers with Some h => h | None => [] end) with
                    | Some v => Some v
                    | None => dict_get k d
                    end).
Proof.
  assert (Hnd : NoDup (map fst [("Content-Type", VStr "text/plain");
                                ("X-Token", VStr "t")])).
  { repeat constructor; cbn; intuition discriminate. }
  split; [reflexivity|]. split; [exact Hnd|].
  exact (perform_request_call json_headers VNone CPython.urlencode a_connection
           (answering 200 "{}") "GET" "/idx/_search" (Some [("size", VInt 10)]) None
           (VInt 0) (VList [])
           (Some [("Content-Type", VStr "text/plain"); ("X-Token", VStr "t")])
           [] [("Content-Type", VStr "application/json")] eq_refl Hnd).
Defined.

(** A search with a page size and a token of its own, on a connection
    whose client sends JSON: the token is added, the content type of the
    request replaces the client's, and the parameters go into the URL. *)
Example perform_request_search :
  AIOHttpConnection.perform_request json_headers VNone CPython.urlencode a_connection
    (answering 200 "{}") "GET" "/idx/_search" (Some [("size", VInt 10)]) None (VInt 0)
    (VList []) (Some [("Content-Type", VStr "text/plain"); ("X-Token", VStr "t")]) []
  = (Ok (200%Z, [("content-type", VStr "application/json")], "{}"),
     [Requested {| call_method := "GET";
                   call_url := "http://localhost:9200/idx/_search?size=10";
                   call_data := None;
                   call_headers := VDict [("Content-Type", VStr "text/plain");
                                          ("X-Token", VStr "t")];
                   call_timeout := VInt 10 |};
      Released;
      LogRequestSuccess "GET" "http://localhost:9200/idx/_search?size=10"
        "/idx/_search?size=10" None 200 "{}"]).
Proof. vm_compute. reflexivity. Qed.

(** A document that is not there, asked for with and without 404 among
    the statuses to ignore; and a server that cannot be reached in time. *)
Example perform_request_not_found :
  fst (AIOHttpConnection.perform_request json_headers VNone CPython.urlencode
         a_connection (answering 404 "{}") "GET" "/idx/doc/1" None None VNone
         (VList [VInt 404]) None [])
  = Ok (404%Z, [("content-type", VStr "application/json")], "{}")
  /\ fst (AIOHttpConnection.perform_request json_headers VNone CPython.urlencode
            a_connection (answering 404 "{}") "GET" "/idx/doc/1" None None VNone
            (VList []) None [])
     = Raise (TransportError HttpStatusError (StatusInt 404) "{}")
  /\ AIOHttpConnection.perform_request json_headers VNone CPython.urlencode
       a_connection timing_out "GET" "/idx/doc/1" None None VNone (VList []) None []
     = (Raise (TransportError ConnectionTimeout (StatusText "TIMEOUT") ""),
        [Requested {| call_method := "GET";
                      call_url := "http://localhost:9200/idx/doc/1";
                      call_data := None; call_headers := json_headers;
                      call_timeout := VInt 10 |};
         LogRequestFail "GET" "http://localhost:9200/idx/doc/1" "/idx/doc/1" None None
           None (Some (TimeoutError ""))]).
Proof. vm_compute. repeat split. Qed.

(** An index that is not there: the exception of the status carries the
    error the library reads from the body. *)
Example perform_request_index_not_found :
  fst (AIOHttpConnection.perform_request json_headers VNone CPython.urlencode
         a_connection (answering 404 index_not_found) "GET" "/idx/_search" None None
         VNone (VList []) None [])
  = Raise (TransportError HttpStatusError (StatusInt 404) "index_not_found_exception").
Proof. vm_compute. reflexivity. Qed.

(* ------------------------------------------------------------------ *)
(** ** The marks of [main_loop] *)

Section MainLoopMarks.
Context {RT : PyRuntime}.
Variables (T : transport) (rq : request).

Lemma main_loop_for_marks (attempts : list Z) : forall w : world,
  let w' := snd (main_loop_for T rq attempts w) in
  exists new : list (nat * request),
    sent w' = (sent w ++ new)%list
    /\ Forall (fun cr => snd cr = rq) new
    /\ marks w' = (marks w ++ marks_after T (wire w) (List.length (sent w)) new)%list.
Proof.
  induction attempts as [|attempt rest IH]; intros w; cbv zeta.
  - exists []. cbn. rewrite !app_nil_r. auto.
  - rewrite main_loop_for_step. cbv zeta.
    set (c := select w (marks w)).
    set (w1 := with_sent (sent w ++ [(c, rq)]) w).
    assert (Hone : forall ms,
               mark_after T rq c (wire w (List.length (sent w)) c rq) = ms ->
               marks_after T (wire w) (List.length (sent w)) [(c, rq)] = ms).
    { intros ms <-. cbn [marks_after]. now rewrite app_nil_r. }
    destruct (wire w (List.length (sent w)) c rq) as [[[status hs] data]|e] eqn:Hwire.
    + exists [(c, rq)]. rewrite (Hone _ eq_refl). cbn [mark_after snd].
      destruct (String.eqb (rq_method rq) "HEAD") eqn:Hhead; cbn;
        rewrite ?app_nil_r; repeat split; auto.
    + destruct (head_not_found rq e) eqn:Hhead.
      * exists [(c, rq)]. rewrite (Hone [] ltac:(cbn [mark_after]; now rewrite Hhead)).
        cbn. rewrite ?app_nil_r. repeat split; auto.
      * destruct (retried T e) eqn:Hretry.
        -- set (w2 := with_marks (marks w ++ [Dead c]) w1).
           assert (Hdead : mark_after T rq c (Raise e) = [Dead c])
             by (cbn [mark_after]; now rewrite Hhead, Hretry).
           destruct (attempt =? max_retries T)%Z.
           ++ exists [(c, rq)]. rewrite (Hone _ Hdead).
              cbn. repeat split; auto.
           ++ destruct (IH w2) as (new & Hsent & Hall & Hmarks). cbv zeta in *.
              exists ((c, rq) :: new). rewrite Hsent, Hmarks.
              cbn [marks_after]. rewrite Hwire, Hdead.
              subst w2 w1. cbn [sent marks wire with_marks with_sent].
              rewrite length_app, <- !app_assoc. cbn [List.length app].
              rewrite Nat.add_1_r.
              repeat split; auto.
        -- exists [(c, rq)].
           rewrite (Hone [] ltac:(cbn [mark_after]; now rewrite Hhead, Hretry)).
           cbn. rewrite ?app_nil_r. repeat split; auto.
Qed.

End MainLoopMarks.

(** X10. The marks a request leaves on the connections.  Each request that
    [main_loop] puts on the wire leaves at most one mark, on the
    connection it used: dead when it failed in a way the loop retries
    (also when that was the last attempt and the failure is raised),
    live when an answer came to a request other than HEAD; a failure that
    is raised at once, a HEAD request answered with 404 and any answered
    HEAD request leave none.  So a HEAD request never marks a connection
    live. *)
Theorem main_loop_marks {RT : PyRuntime} (T : transport) (method url : string)
    (params : option dict) (body : option (list byte)) (ignore timeout : pyval)
    (headers : option dict) (w : world) :
  let w' := snd (main_loop T method url params body ignore timeout headers w) in
  exists new : list (nat * request),
    sent w' = (sent w ++ new)%list
    /\ marks w' = (marks w ++ marks_after T (wire w) (List.length (sent w)) new)%list
    /\ List.length (marks w') <= List.length (marks w) + List.length new
    /\ (forall c, method = "HEAD" -> In (Live c) (marks w') -> In (Live c) (marks w)).
Proof.
  cbv zeta. unfold main_loop.
  set (rq := {| rq_method := method; rq_url := url; rq_params := params;
                rq_body := body; rq_ignore := ignore; rq_timeout := timeout;
                rq_headers := headers |}).
  destruct (main_loop_for_marks T rq (range (max_retries T + 1)) w)
    as (new & Hsent & Hall & Hmarks). cbv zeta in *.
  exists new. split; [exact Hsent|]. split; [exact Hmarks|].
  assert (Hlen : forall n, List.length (marks_after T (wire w) n new) <= List.length new).
  { clear Hsent Hmarks. induction new as [|[c rq'] new IH]; intros n; cbn; [lia|].
    inversion Hall as [|? ? _ Hall']; subst.
    rewrite length_app. specialize (IH Hall' (S n)).
    assert (List.length (mark_after T rq' c (wire w n c rq')) <= 1); [|lia].
    unfold mark_after. destruct (wire w n c rq') as [x|e].
    - destruct (String.eqb _ _); cbn; lia.
    - destruct (head_not_found rq' e); [cbn; lia|].
      destruct (retried T e); cbn; lia. }
  split.
  - rewrite Hmarks, length_app. specialize (Hlen (List.length (sent w))). lia.
  - intros c -> Hin. rewrite Hmarks in Hin. apply in_app_or in Hin as [Hin|Hin];
      [exact Hin|]. exfalso. clear Hsent Hmarks Hlen.
    revert Hin. generalize (List.length (sent w)).
    induction new as [|[c' rq'] new IH]; intros n Hin; cbn in Hin; [contradiction|].
    inversion Hall as [|? ? Hrq Hall']; subst. cbn [snd] in Hrq. subst rq'.
    apply in_app_or in Hin as [Hin|Hin]; [|exact (IH Hall' (S n) Hin)].
    unfold mark_after in Hin. cbn [rq rq_method String.eqb Ascii.eqb Bool.eqb] in Hin.
    destruct (wire w n c' rq) as [x|e].
    + rewrite ?String.eqb_refl in Hin. cbn in Hin. contradiction.
    + destruct (head_not_found rq e); [contradiction|].
      destruct (retried T e); [|contradiction].
      destruct Hin as [Hin|[]]. discriminate Hin.
Qed.

(* ------------------------------------------------------------------ *)
(** ** [main_loop] over [AIOHttpConnection] *)

Section OverConnections.
Context {RT : PyRuntime}.
Variables (es_headers timeout_ : pyval) (urlencode : dict -> string)
  (connections : nat -> AIOHttpConnection.t)
  (sessions : nat -> nat -> http_call -> exchange).

(** A request whose session raises, and one whose session answers. *)
Lemma wire_over_fails (n c : nat) (rq : request) (e : session_error) :
  mergeable es_headers (rq_headers rq) = true ->
  (forall call, exists status response_headers,
      sessions n c call = RequestFails e
      \/ sessions n c call = TextFails status response_headers e) ->
  wire_over es_headers timeout_ urlencode connections sessions n c rq
  = Raise (connection_error e).
Proof.
  intros Hm Hs. unfold wire_over, AIOHttpConnection.perform_request, bind at 1.
  assert (Hlocal : exists local_headers,
    (match rq_headers rq with
     | Some ((_ :: _) as h) => lift (updated es_headers h)
     | _ => ret es_headers
     end) ([] : list connection_event) = (Ok local_headers, [])).
  { unfold mergeable in Hm. destruct (rq_headers rq) as [[|h0 h]|];
      try (eexists; reflexivity).
    destruct es_headers; try discriminate Hm. eexists. reflexivity. }
  destruct Hlocal as (local_headers & ->).
  unfold bind at 1, AIOHttpConnection.note at 1.
  match goal with
  | |- context [sessions n c ?call] =>
      destruct (Hs call) as (st & hs & [-> | ->])
  end; reflexivity.
Qed.

Lemma wire_over_answered (n c : nat) (rq : request) (status : Z)
    (response_headers : dict) (raw_data : string) (ignored : list pyval) :
  mergeable es_headers (rq_headers rq) = true ->
  rq_ignore rq = VList ignored ->
  (forall call, sessions n c call = Answered status response_headers raw_data) ->
  wire_over es_headers timeout_ urlencode connections sessions n c rq
  = match status_among status (VList ignored) with
    | Ok among =>
        if successful status || among then Ok (status, response_headers, raw_data)
        else Raise (AIOHttpConnection._raise_error (connections c) status raw_data)
    | Raise e => Raise e
    end.
Proof.
  intros Hm Hi Hs. unfold wire_over, AIOHttpConnection.perform_request, bind at 1.
  assert (Hlocal : exists local_headers,
    (match rq_headers rq with
     | Some ((_ :: _) as h) => lift (updated es_headers h)
     | _ => ret es_headers
     end) ([] : list connection_event) = (Ok local_headers, [])).
  { unfold mergeable in Hm. destruct (rq_headers rq) as [[|h0 h]|];
      try (eexists; reflexivity).
    destruct es_headers; try discriminate Hm. eexists. reflexivity. }
  destruct Hlocal as (local_headers & ->).
  unfold bind at 1, AIOHttpConnection.note at 1. rewrite Hs, Hi.
  unfold bind, AIOHttpConnection.note, lift, ret, raise.
  fold (successful status). cbn [status_among].
  destruct (successful status); cbn [orb]; [reflexivity|].
  destruct (existsb _ ignored); reflexivity.
Qed.

Variables (T : transport) (rq : request).

(** The loop on a wire where every request fails in a way it retries. *)
Lemma main_loop_for_all_retried (m : nat) : forall (k : nat) (w : world),
  Z.of_nat (k + m) = (max_retries T + 1)%Z ->
  (forall n c, exists e, wire w n c rq = Raise e
                         /\ retried T e = true /\ head_not_found rq e = false) ->
  let r := fst (main_loop_for T rq (map Z.of_nat (seq k m)) w) in
  let w' := snd (main_loop_for T rq (map Z.of_nat (seq k m)) w) in
  exists new : list (nat * request),
    sent w' = (sent w ++ new)%list
    /\ List.length new = m
    /\ Forall (fun cr => snd cr = rq) new
    /\ marks w' = (marks w ++ map (fun cr => Dead (fst cr)) new)%list
    /\ match m with
       | 0 => r = Ok VNone
       | S _ => exists e c, r = Raise e /\ wire w (List.length (sent w) + m - 1) c rq = Raise e
       end.
Proof.
  induction m as [|m IH]; intros k w Hk Hwire; cbv zeta.
  - exists []. cbn. rewrite !app_nil_r. auto.
  - cbn [seq map]. rewrite main_loop_for_step. cbv zeta.
    set (c := select w (marks w)).
    destruct (Hwire (List.length (sent w)) c) as (e & He & Hretry & Hhead).
    rewrite He, Hhead, Hretry.
    set (w2 := with_marks (marks w ++ [Dead c]) (with_sent (sent w ++ [(c, rq)]) w)).
    destruct (Z.of_nat k =? max_retries T)%Z eqn:Hlast.
    + apply Z.eqb_eq in Hlast. assert (m = 0) by lia. subst m.
      exists [(c, rq)]. cbn [fst snd]. subst w2. cbn [sent marks with_marks with_sent].
      repeat split; auto.
      exists e, c. split; [reflexivity|].
      now replace (List.length (sent w) + 1 - 1) with (List.length (sent w)) by lia.
    + apply Z.eqb_neq in Hlast.
      destruct m as [|m]; [lia|].
      destruct (IH (S k) w2 ltac:(lia) Hwire) as (new & Hsent & Hlen & Hall & Hmarks & Hend).
      cbv zeta in *.
      exists ((c, rq) :: new). rewrite Hsent, Hmarks.
      subst w2. cbn [sent marks wire with_marks with_sent] in *.
      rewrite <- !app_assoc. cbn [app map fst List.length].
      repeat split; auto.
      destruct Hend as (e' & c' & Hr & Hw). exists e', c'. split; [exact Hr|].
      rewrite <- Hw. f_equal. rewrite length_app. cbn. lia.
Qed.

End OverConnections.

(** X15. A server that cannot be reached.  On connections of the class above,
    when every call of a session raises (and the errors are no timeouts,
    or the transport retries timeouts), [main_loop] makes exactly
    [max_retries + 1] requests, marks the connection of each of them
    dead, and raises the connection error of one of the failures. *)
Theorem main_loop_unreachable_server {RT : PyRuntime} (es_headers timeout_ : pyval)
    (urlencode : dict -> string) (connections : nat -> AIOHttpConnection.t)
    (sessions : nat -> nat -> http_call -> exchange)
    (errors : nat -> nat -> session_error)
    (T : transport) (method url : string) (params : option dict)
    (body : option (list byte)) (ignore timeout : pyval) (headers : option dict)
    (w : world) :
  wire w = wire_over es_headers timeout_ urlencode connections sessions ->
  mergeable es_headers headers = true ->
  (0 <= max_retries T)%Z ->
  (forall n c call, sessions n c call = RequestFails (errors n c)) ->
  (forall n c, is_timeout (errors n c) = false \/ retry_on_timeout T = true) ->
  let r := fst (main_loop T method url params body ignore timeout headers w) in
  let w' := snd (main_loop T method url params body ignore timeout headers w) in
  exists new : list (nat * request),
    sent w' = (sent w ++ new)%list
    /\ Z.of_nat (List.length new) = (max_retries T + 1)%Z
    /\ marks w' = (marks w ++ map (fun cr => Dead (fst cr)) new)%list
    /\ exists n c, r = Raise (connection_error (errors n c)).
Proof.
  intros Hw Hm Hmax Hs He. cbv zeta. unfold main_loop, range.
  set (rq := {| rq_method := method; rq_url := url; rq_params := params;
                rq_body := body; rq_ignore := ignore; rq_timeout := timeout;
                rq_headers := headers |}).
  assert (Hwire : forall n c,
             wire w n c rq = Raise (connection_error (errors n c))).
  { intros n c. rewrite Hw. apply wire_over_fails; [exact Hm|].
    intros call. exists 0%Z, []. left. apply Hs. }
  assert (Hall : forall n c, exists e, wire w n c rq = Raise e
                   /\ retried T e = true /\ head_not_found rq e = false).
  { intros n c. eexists. split; [apply Hwire|].
    destruct (He n c) as [Ht|Ht]; destruct (errors n c); try discriminate Ht;
      cbn; rewrite ?Ht, ?andb_false_r; auto. }
  destruct (main_loop_for_all_retried T rq (Z.to_nat (max_retries T + 1)) 0 w
              ltac:(lia) Hall) as (new & Hsent & Hlen & _ & Hmarks & Hend).
  cbv zeta in *. exists new.
  split; [exact Hsent|]. split; [lia|]. split; [exact Hmarks|].
  destruct (Z.to_nat (max_retries T + 1)) as [|m] eqn:Hm'; [lia|].
  destruct Hend as (e & c & Hr & Hlast). rewrite Hwire in Hlast.
  injection Hlast as <-. eauto.
Qed.

(** X14. A request that times out is not tried again, unless the transport
    was told to: with [retry_on_timeout] unset, [main_loop] makes the one
    request, marks nothing, and raises the timeout. *)
Theorem main_loop_timeout_not_retried {RT : PyRuntime} (es_headers timeout_ : pyval)
    (urlencode : dict -> string) (connections : nat -> AIOHttpConnection.t)
    (sessions : nat -> nat -> http_call -> exchange) (msg : string)
    (T : transport) (method url : string) (params : option dict)
    (body : option (list byte)) (ignore timeout : pyval) (headers : option dict)
    (w : world) :
  let c := select w (marks w) in
  let rq := {| rq_method := method; rq_url := url; rq_params := params;
               rq_body := body; rq_ignore := ignore; rq_timeout := timeout;
               rq_headers := headers |} in
  wire w = wire_over es_headers timeout_ urlencode connections sessions ->
  mergeable es_headers headers = true ->
  (0 <= max_retries T)%Z ->
  retry_on_timeout T = false ->
  (forall call, sessions (List.length (sent w)) c call = RequestFails (TimeoutError msg)) ->
  main_loop T method url params body ignore timeout headers w
  = (Raise (TransportError ConnectionTimeout (StatusText "TIMEOUT") msg),
     with_sent (sent w ++ [(c, rq)]) w).
Proof.
  intros c rq Hw Hm Hmax Hretry Hs. unfold main_loop, range. fold rq.
  destruct (Z.to_nat (max_retries T + 1)) as [|m] eqn:Hm'; [lia|].
  cbn [seq map]. rewrite main_loop_for_step. cbv zeta. fold c.
  rewrite Hw, (wire_over_fails es_headers timeout_ urlencode connections sessions
                 (List.length (sent w)) c rq (TimeoutError msg) Hm
                 (fun call => ex_intro _ 0%Z (ex_intro _ [] (or_introl (Hs call))))).
  cbn [connection_error head_not_found retried should_retry
       isinstance_ConnectionTimeout status_is].
  now rewrite andb_false_r, Hretry.
Qed.

(** X16. Asking whether something is there.  A HEAD request that the server
    answers with a status of the 2xx class returns [True], and one it
    answers with 404 (or with another status of [ignore]) returns
    [False], whether or not 404 is among the statuses to ignore; either
    way [main_loop] makes the one request and marks nothing. *)
Theorem main_loop_head_answers {RT : PyRuntime} (es_headers timeout_ : pyval)
    (urlencode : dict -> string) (connections : nat -> AIOHttpConnection.t)
    (sessions : nat -> nat -> http_call -> exchange)
    (status : Z) (response_headers : dict) (raw_data : string)
    (T : transport) (url : string) (params : option dict)
    (body : option (list byte)) (ignored : list pyval) (timeout : pyval)
    (headers : option dict) (w : world) :
  let c := select w (marks w) in
  let rq := {| rq_method := "HEAD"; rq_url := url; rq_params := params;
               rq_body := body; rq_ignore := VList ignored; rq_timeout := timeout;
               rq_headers := headers |} in
  wire w = wire_over es_headers timeout_ urlencode connections sessions ->
  mergeable es_headers headers = true ->
  (0 <= max_retries T)%Z ->
  (forall call, sessions (List.length (sent w)) c call
                = Answered status response_headers raw_data) ->
  successful status = true \/ status = 404%Z
  \/ status_among status (VList ignored) = Ok true ->
  main_loop T "HEAD" url params body (VList ignored) timeout headers w
  = (Ok (VBool (successful status)), with_sent (sent w ++ [(c, rq)]) w).
Proof.
  intros c rq Hw Hm Hmax Hs Hstatus. unfold main_loop, range. fold rq.
  destruct (Z.to_nat (max_retries T + 1)) as [|m] eqn:Hm'; [lia|].
  cbn [seq map]. rewrite main_loop_for_step. cbv zeta. fold c.
  rewrite Hw, (wire_over_answered es_headers timeout_ urlencode connections sessions
                 (List.length (sent w)) c rq status response_headers raw_data ignored
                 Hm eq_refl Hs).
  cbn [status_among] in *.
  destruct (successful status || existsb _ ignored) eqn:Hok.
  - unfold answer_of. cbn [rq rq_method String.eqb Ascii.eqb Bool.eqb].
    reflexivity.
  - apply orb_false_elim in Hok as [H2 Hex].
    destruct Hstatus as [H|[->|H]]; [congruence| |congruence].
    cbn [AIOHttpConnection._raise_error head_not_found rq rq_method String.eqb
         Ascii.eqb Bool.eqb status_is andb].
    reflexivity.
Qed.

(** X15, witness. *)
Lemma main_loop_unreachable_server_witness :
  let w := a_served_world [] [] in
  let sessions := fun (n _ : nat) => nth n [] timing_out in
  let errors := fun _ _ : nat => TimeoutError "" in
  let r := fst (main_loop (RT := CPython.runtime) a_patient_transport "GET"
                  "/idx/_count" None None (VList []) VNone None w) in
  let w' := snd (main_loop (RT := CPython.runtime) a_patient_transport "GET"
                   "/idx/_count" None None (VList []) VNone None w) in
  (wire w = wire_over json_headers VNone CPython.urlencode (fun _ => a_connection)
              sessions
   /\ mergeable json_headers None = true
   /\ (0 <= max_retries a_patient_transport)%Z
   /\ (forall n c call, sessions n c call = RequestFails (errors n c))
   /\ (forall n c, is_timeout (errors n c) = false
                   \/ retry_on_timeout a_patient_transport = true))
  /\ exists new : list (nat * request),
       sent w' = (sent w ++ new)%list
       /\ Z.of_nat (List.length new) = (max_retries a_patient_transport + 1)%Z
       /\ marks w' = (marks w ++ map (fun cr => Dead (fst cr)) new)%list
       /\ exists n c, r = Raise (connection_error (errors n c)).
Proof.
  cbv zeta.
  assert (Hs : forall (n c : nat) (call : http_call),
             nth n [] timing_out call = RequestFails (TimeoutError "")).
  { intros [|n] c call; reflexivity. }
  assert (He : forall n c : nat,
             is_timeout (TimeoutError "") = false
             \/ retry_on_timeout a_patient_transport = true).
  { intros n c. now right. }
  assert (Hmax : (0 <= max_retries a_patient_transport)%Z) by (cbn; lia).
  split; [repeat split; auto|].
  exact (main_loop_unreachable_server (RT := CPython.runtime) json_headers VNone
           CPython.urlencode (fun _ => a_connection) (fun (n _ : nat) => nth n [] timing_out)
           (fun _ _ => TimeoutError "") a_patient_transport "GET" "/idx/_count" None None
           (VList []) VNone None (a_served_world [] []) eq_refl eq_refl Hmax Hs He).
Defined.

(** X14, witness. *)
Lemma main_loop_timeout_not_retried_witness :
  let w := a_served_world [] [] in
  (wire w = wire_over json_headers VNone CPython.urlencode (fun _ => a_connection)
              (fun (n _ : nat) => nth n [] timing_out)
   /\ mergeable json_headers None = true
   /\ (0 <= max_retries a_transport)%Z
   /\ retry_on_timeout a_transport = false
   /\ (forall call, nth (List.length (sent w)) [] timing_out call
                    = RequestFails (TimeoutError "")))
  /\ main_loop (RT := CPython.runtime) a_transport "GET" "/idx/_count" None None
       (VList []) VNone None w
     = (Raise (TransportError ConnectionTimeout (StatusText "TIMEOUT") ""),
        with_sent (sent w ++ [(select w (marks w),
                               {| rq_method := "GET"; rq_url := "/idx/_count";
                                  rq_params := None; rq_body := None;
                                  rq_ignore := VList []; rq_timeout := VNone;
                                  rq_headers := None |})]) w).
Proof.
  cbv zeta.
  assert (Hmax : (0 <= max_retries a_transport)%Z) by (cbn; lia).
  split; [repeat split; auto|].
  exact (main_loop_timeout_not_retried (RT := CPython.runtime) json_headers VNone
           CPython.urlencode (fun _ => a_connection) (fun (n _ : nat) => nth n [] timing_out)
           "" a_transport "GET" "/idx/_count" None None (VList []) VNone None
           (a_served_world [] []) eq_refl eq_refl Hmax eq_refl (fun _ => eq_refl)).
Defined.

(** X16, witness. *)
Lemma main_loop_head_answers_witness :
  let w := a_served_world [] [answering 404 "{}"] in
  (wire w = wire_over json_headers VNone CPython.urlencode (fun _ => a_connection)
              (fun (n _ : nat) => nth n [answering 404 "{}"] timing_out)
   /\ mergeable json_headers None = true
   /\ (0 <= max_retries a_transport)%Z
   /\ (forall call, nth (List.length (sent w)) [answering 404 "{}"] timing_out call
                    = Answered 404 [("content-type", VStr "application/json")] "{}")
   /\ (successful 404 = true \/ 404%Z = 404%Z
       \/ status_among 404 (VList []) = Ok true))
  /\ main_loop (RT := CPython.runtime) a_transport "HEAD" "/idx/doc/1" None None
       (VList []) VNone None w
     = (Ok (VBool (successful 404)),
        with_sent (sent w ++ [(select w (marks w),
                               {| rq_method := "HEAD"; rq_url := "/idx/doc/1";
                                  rq_params := None; rq_body := None;
                                  rq_ignore := VList []; rq_timeout := VNone;
                                  rq_headers := None |})]) w).
Proof.
  cbv zeta.
  assert (Hmax : (0 <= max_retries a_transport)%Z) by (cbn; lia).
  assert (Hst : successful 404 = true \/ 404%Z = 404%Z
                \/ status_among 404 (VList []) = Ok true) by (right; now left).
  split; [repeat split; auto|].
  exact (main_loop_head_answers (RT := CPython.runtime) json_headers VNone
           CPython.urlencode (fun _ => a_connection)
           (fun (n _ : nat) => nth n [answering 404 "{}"] timing_out)
           404 [("content-type", VStr "application/json")] "{}"
           a_transport "/idx/doc/1" None None [] VNone None
           (a_served_world [] [answering 404 "{}"]) eq_refl eq_refl Hmax
           (fun _ => eq_refl) Hst).
Defined.

(** Three attempts at a server that never answers in time, by a
    transport that retries timeouts: three requests, three connections
    marked dead, and the timeout raised. *)
Example main_loop_gives_up_on_timeouts :
  let run := main_loop (RT := CPython.runtime) a_patient_transport "GET" "/idx/_count"
               None None (VList []) VNone None (a_served_world [] []) in
  fst run = Raise (TransportError ConnectionTimeout (StatusText "TIMEOUT") "")
  /\ map fst (sent (snd run)) = [0; 1; 2]
  /\ marks (snd run) = [Dead 0; Dead 1; Dead 2].
Proof. vm_compute. repeat split. Qed.

(* ------------------------------------------------------------------ *)
(** ** More on [default_id_hash_func] *)

Section DefaultIdentifierAgain.
Context {RT : PyRuntime}.

Lemma hash_input_dated (now : Z) (d : dict) :
  present_and_truthy "appCode" d && present_and_truthy "id" d = true ->
  hash_input (dated now d) = hash_input d.
Proof.
  unfold hash_input, present_and_truthy, py_getitem.
  rewrite !(dict_get_dated now) by discriminate. intros ->. reflexivity.
Qed.

Lemma date_world_dated (item : addr) (w : world) :
  date_world item (date_world item w) = date_world item w.
Proof.
  unfold date_world at 1.
  destruct (date_world_heap item w) as (-> & _). now rewrite dict_has_dated.
Qed.

(** X1. When the identifier function fails.  It raises exactly for a record
    whose [appCode] and [id] are both true without both being text, and
    then a [TypeError]; the record is left as it was and the clock is
    not read.  For any other record it returns a text, and the world
    afterwards is the one in which the record has its [createDate]. *)
Theorem default_id_hash_func_fails_on_mixed_keys (item : addr) (w : world) :
  if text_keys (heap w item)
  then exists id, default_id_hash_func item w = (Ok (VStr id), date_world item w)
  else exists msg, default_id_hash_func item w = (Raise (TypeError msg), w).
Proof.
  rewrite default_id_hash_func_run.
  destruct (text_keys (heap w item)) eqn:Ht.
  - destruct (hash_input_total _ Ht) as (value & ->). eauto.
  - destruct (hash_input_partial _ Ht) as (msg & ->). eauto.
Qed.

(** X3. Identifying a record a second time.  The second call changes
    nothing: the record has its [createDate] by then, which is never
    overwritten, and the clock is not read again.  A record identified
    by its [appCode] and [id] gets the same identifier again.  A record
    identified by its content does not in general: the first call hashes
    the text of the record as it came, the second the text of the record
    with the [createDate] the first call has put in. *)
Theorem default_id_hash_func_twice (item : addr) (w : world) :
  text_keys (heap w item) = true ->
  let first := default_id_hash_func item w in
  let second := default_id_hash_func item (snd first) in
  snd second = snd first
  /\ (if present_and_truthy "appCode" (heap w item)
         && present_and_truthy "id" (heap w item)
      then fst second = fst first
      else fst first
           = Ok (VStr (md5_hexdigest (encode_utf8 (py_str (VDict (heap w item))))))
           /\ fst second
              = Ok (VStr (md5_hexdigest
                            (encode_utf8
                               (py_str (VDict (dated (clock w (ticks w))
                                                 (heap w item)))))))).
Proof.
  intros Ht. cbv zeta. rewrite (default_id_hash_func_run item w).
  destruct (hash_input_total _ Ht) as (value & Hv). rewrite Hv. cbn [fst snd].
  rewrite default_id_hash_func_run.
  destruct (date_world_heap item w) as (Hheap & _). rewrite Hheap.
  assert (Ht' : text_keys (dated (clock w (ticks w)) (heap w item)) = true)
    by now rewrite text_keys_dated.
  destruct (hash_input_total _ Ht') as (value' & Hv'). rewrite Hv'. cbn [fst snd].
  split; [apply date_world_dated|].
  destruct (present_and_truthy "appCode" (heap w item)
            && present_and_truthy "id" (heap w item)) eqn:Hboth.
  - rewrite hash_input_dated in Hv' by exact Hboth. congruence.
  - assert (Hboth' : present_and_truthy "appCode" (dated (clock w (ticks w)) (heap w item))
                     && present_and_truthy "id" (dated (clock w (ticks w)) (heap w item))
                     = false).
    { unfold present_and_truthy in *.
      now rewrite !(dict_get_dated (clock w (ticks w))) by discriminate. }
    unfold hash_input in Hv, Hv'. rewrite Hboth in Hv. rewrite Hboth' in Hv'.
    injection Hv as <-. injection Hv' as <-. split; reflexivity.
Qed.

(** X2. A [createDate] that is there is kept, whatever it holds: the record
    and the clock are as they were after the call. *)
Theorem default_id_hash_func_keeps_createDate (item : addr) (w : world) :
  dict_has "createDate" (heap w item) = true ->
  snd (default_id_hash_func item w) = w.
Proof.
  intros Hcd. rewrite default_id_hash_func_run.
  destruct (hash_input (heap w item)); [|reflexivity].
  cbn [snd]. unfold date_world. now rewrite Hcd.
Qed.

End DefaultIdentifierAgain.

(** X3, witness. *)
Lemma default_id_hash_func_twice_witness :
  let w := a_world three_records [] in
  text_keys (heap w 2) = true
  /\ (let first := default_id_hash_func (RT := CPython.runtime) 2 w in
      let second := default_id_hash_func (RT := CPython.runtime) 2 (snd first) in
      snd second = snd first
      /\ (if present_and_truthy "appCode" (heap w 2)
             && present_and_truthy "id" (heap w 2)
          then fst second = fst first
          else fst first
               = Ok (VStr (@md5_hexdigest CPython.runtime
                             (@encode_utf8 CPython.runtime
                                (@py_str CPython.runtime (VDict (heap w 2))))))
               /\ fst second
                  = Ok (VStr (@md5_hexdigest CPython.runtime
                                (@encode_utf8 CPython.runtime
                                   (@py_str CPython.runtime
                                      (VDict (dated (clock w (ticks w))
                                                (heap w 2))))))))).
Proof.
  cbv zeta. split; [reflexivity|].
  exact (default_id_hash_func_twice (RT := CPython.runtime) 2
           (a_world three_records []) eq_refl).
Defined.

(** X2, witness. *)
Lemma default_id_hash_func_keeps_createDate_witness :
  let w := a_world [[("id", VStr "3"); ("createDate", VNone)]] [] in
  dict_has "createDate" (heap w 0) = true
  /\ snd (default_id_hash_func (RT := CPython.runtime) 0 w) = w.
Proof.
  cbv zeta. split; [reflexivity|].
  exact (default_id_hash_func_keeps_createDate (RT := CPython.runtime) 0
           (a_world [[("id", VStr "3"); ("createDate", VNone)]] []) eq_refl).
Defined.

(** The third of the three records has no [appCode]: identified twice,
    it gets two identifiers, the second of the record with its date. *)
Example default_id_hash_func_content_changes :
  let first := default_id_hash_func (RT := CPython.runtime) 2 (a_world three_records []) in
  let second := default_id_hash_func (RT := CPython.runtime) 2 (snd first) in
  fst first = Ok (VStr "594ab596ca4fc633e2e0b8695e4a9785")
  /\ fst second = Ok (VStr "ebb388de06cef8e1ab774e629850f4b5").
Proof. vm_compute. split; reflexivity. Qed.

(* ------------------------------------------------------------------ *)
(** ** More on [add_dict_to_es] *)

Lemma stamp_stamp (app_code create_date : pyval) (d : dict) :
  stamp app_code create_date (stamp app_code create_date d)
  = stamp app_code create_date d.
Proof.
  set (x := stamp app_code create_date d).
  assert (Hac : truthy app_code = true -> dict_get "appCode" x = Some app_code).
  { intros Ht. subst x. rewrite dict_get_stamp.
    cbn [String.eqb Ascii.eqb Bool.eqb andb]. now rewrite Ht. }
  assert (Hcd : truthy create_date = true -> dict_get "createDate" x = Some create_date).
  { intros Ht. subst x. rewrite dict_get_stamp.
    cbn [String.eqb Ascii.eqb Bool.eqb andb]. now rewrite Ht. }
  unfold stamp at 1.
  destruct (truthy app_code) eqn:Ea; destruct (truthy create_date) eqn:Ec;
    rewrite ?(dict_set_same_value "appCode" app_code x) by auto;
    rewrite ?(dict_set_same_value "createDate" create_date x) by auto;
    reflexivity.
Qed.

Section Batches.
Context {RT : PyRuntime}.
Variables (T : transport) (indices doc_type : pyval) (app_code : pyval)
  (actions : option string) (create_date : pyval) (error_if_fail : bool)
  (timeout : pyval).

(** X6. A batch with a record that cannot be identified.  The call raises
    the [TypeError] of the first such record and sends nothing; it is
    not undone either: the records before that one have been stamped and
    dated, the record itself has been stamped, and the records after it
    have not been touched. *)
Theorem add_dict_to_es_stops_at_unhashable (pre post : list addr) (item : addr)
    (w : world) :
  (forall a, In a pre -> text_keys (stamp app_code create_date (heap w a)) = true) ->
  text_keys (stamp app_code create_date (heap w item)) = false ->
  let run := add_dict_to_es T indices doc_type (pre ++ item :: post) None app_code
               actions create_date error_if_fail timeout w in
  (exists msg, fst run = Raise (TypeError msg))
  /\ sent (snd run) = sent w
  /\ log (snd run) = log w
  /\ (forall a, In a pre ->
      exists now, heap (snd run) a = dated now (stamp app_code create_date (heap w a)))
  /\ heap (snd run) item = stamp app_code create_date (heap w item)
  /\ (forall a, ~ In a pre -> a <> item -> heap (snd run) a = heap w a).
Proof.
  intros Htext Hitem run.
  assert (Hnotin : ~ In item pre).
  { intros Hin. rewrite (Htext item Hin) in Hitem. discriminate. }
  set (kind := default_actions actions).
  destruct (bulk_body_default_total indices doc_type app_code kind create_date pre "" w
              Htext) as (body1 & w1 & Hpre & Hout1 & Hin1 & _ & Hsame1).
  destruct (stamp_world_heap app_code create_date item w1)
    as (Hstamped & Hothers & _ & Hsame2).
  set (w2 := stamp_world app_code create_date item w1) in *.
  assert (Hw2 : heap w2 item = stamp app_code create_date (heap w item)).
  { rewrite Hstamped. f_equal. now apply Hout1. }
  destruct (hash_input_partial (heap w2 item)) as (msg & Hmsg).
  { now rewrite Hw2. }
  assert (Hrun : run = (Raise (TypeError msg), w2)).
  { subst run. rewrite add_dict_to_es_run. cbv beta iota. fold kind.
    rewrite bulk_body_app, Hpre, bulk_body_step. fold w2.
    now rewrite default_id_hash_func_run, Hmsg. }
  rewrite Hrun. cbn [fst snd].
  destruct Hsame1 as (Hl1 & _ & Hs1 & _), Hsame2 as (Hl2 & _ & Hs2 & _).
  split; [eauto|]. split; [congruence|]. split; [congruence|].
  split; [|split; [exact Hw2|]].
  - intros a Ha. rewrite Hothers by (intros ->; contradiction). now apply Hin1.
  - intros a Ha Hne. rewrite Hothers by assumption. now apply Hout1.
Qed.

(** X7. An empty batch is sent all the same: the call posts a bulk request
    with an empty body, and what it returns is read from the answer. *)
Theorem add_dict_to_es_empty_batch (id_hash_func : option (addr -> M pyval))
    (w : world) :
  (0 <= max_retries T)%Z ->
  let run := add_dict_to_es T indices doc_type [] id_hash_func app_code actions
               create_date error_if_fail timeout w in
  exists new : list (nat * request),
    new <> []
    /\ sent (snd run) = (sent w ++ new)%list
    /\ Forall (fun cr => snd cr = bulk_rq "" timeout) new
    /\ heap (snd run) = heap w.
Proof.
  intros Hmax run.
  destruct (add_dict_to_es_sent T indices doc_type [] id_hash_func app_code actions
              create_date error_if_fail timeout w w "" eq_refl)
    as (new & Hsent & _ & Hall & Hnone).
  exists new. split; [intros ->; specialize (Hnone eq_refl); lia|].
  split; [exact Hsent|]. split; [exact Hall|].
  exact (add_dict_to_es_heap T indices doc_type [] id_hash_func app_code actions
           create_date error_if_fail timeout w w "" eq_refl).
Qed.

(** An identifier function of the caller's that only reads the record:
    what it returns or raises is decided by the record, and it changes
    nothing. *)
Variables (f : addr -> M pyval) (g : dict -> result pyval).
Hypothesis f_reads : forall a w, f a w = (g (heap w a), w).

Lemma bulk_body_reading (kind : string) (items : list addr) :
  forall (body0 : string) (w : world),
  let r := bulk_body indices doc_type f app_code kind create_date items body0 w in
  same_but_heap w (snd r)
  /\ (forall a, ~ In a items -> heap (snd r) a = heap w a)
  /\ (forall a, heap (snd r) a = heap w a
                \/ heap (snd r) a = stamp app_code create_date (heap w a))
  /\ match fst r with
     | Ok _ => forall a, In a items ->
                         heap (snd r) a = stamp app_code create_date (heap w a)
     | Raise e => exists a, In a items
                            /\ g (stamp app_code create_date (heap w a)) = Raise e
     end
  /\ ((forall a, In a items ->
       exists id, g (stamp app_code create_date (heap w a)) = Ok id) ->
      exists body, fst r = Ok body).
Proof.
  induction items as [|item rest IH]; intros body0 w; cbv zeta.
  - cbn [bulk_body]. unfold ret. cbn [fst snd].
    split; [apply same_but_heap_refl|]. split; [auto|]. split; [auto|].
    split; [intros a []|eauto].
  - rewrite bulk_body_step, f_reads.
    destruct (stamp_world_heap app_code create_date item w)
      as (Hitem & Hothers & _ & Hsame).
    set (ws := stamp_world app_code create_date item w) in *.
    assert (Hst : forall a, stamp app_code create_date (heap ws a)
                            = stamp app_code create_date (heap w a)).
    { intros a. destruct (Nat.eq_dec a item) as [->|Hne].
      - now rewrite Hitem, stamp_stamp.
      - now rewrite Hothers. }
    assert (Hws : forall a, heap ws a = heap w a
                            \/ heap ws a = stamp app_code create_date (heap w a)).
    { intros a. destruct (Nat.eq_dec a item) as [->|Hne]; [now right|].
      left. now apply Hothers. }
    destruct (g (heap ws item)) as [id|e] eqn:Hg.
    + destruct (IH (body0 ++ record_lines kind indices doc_type (id, heap ws item)) ws)
        as (Hsame' & Hout & Heither & Hres & Htotal).
      cbv zeta in *.
      split; [exact (same_but_heap_trans _ _ _ Hsame Hsame')|].
      split.
      { intros a Ha. rewrite Hout by (intros Hr; apply Ha; now right).
        apply Hothers. intros ->. apply Ha. now left. }
      split.
      { intros a. destruct (Heither a) as [-> | ->]; [apply Hws|].
        right. apply Hst. }
      split.
      { destruct (fst (bulk_body _ _ _ _ _ _ rest _ ws)) as [body|e].
        - intros a Ha. destruct (in_dec Nat.eq_dec a rest) as [Hr|Hr].
          + rewrite (Hres a Hr). apply Hst.
          + destruct Ha as [<-|Ha]; [|contradiction]. now rewrite (Hout item Hr).
        - destruct Hres as (a & Ha & Hraise). exists a. split; [now right|].
          now rewrite <- Hst. }
      intros Hall. apply Htotal. intros a Ha. rewrite Hst. apply Hall. now right.
    + cbn [fst snd].
      split; [exact Hsame|].
      split; [intros a Ha; apply Hothers; intros ->; apply Ha; now left|].
      split; [exact Hws|].
      split.
      { exists item. split; [now left|]. now rewrite <- Hitem. }
      intros Hall. destruct (Hall item (or_introl eq_refl)) as (id & Hid).
      rewrite <- Hitem, Hg in Hid. discriminate Hid.
Qed.

(** X5. An identifier function of the caller's that only reads the
    record: what it returns or raises is decided by the record, and it
    changes nothing.  With such a function the only changes the call
    makes to the records are the [appCode] and the [createDate] the
    caller asked for, on records of the batch, and without a
    [create_date] argument no record gains a [createDate]: the date of
    the default function is not added.  When the function returns for
    every record of the batch the call completes and every record of the
    batch has been stamped; and when the call raises, it raises what the
    function raised for a record of the batch, and nothing has been sent
    or logged. *)
Theorem add_dict_to_es_custom_identifier (items : list addr) (w : world) :
  let run := add_dict_to_es T indices doc_type items (Some f) app_code actions
               create_date error_if_fail timeout w in
  (forall a, heap (snd run) a = heap w a
             \/ (In a items
                 /\ heap (snd run) a = stamp app_code create_date (heap w a)))
  /\ (truthy create_date = false ->
      forall a, dict_get "createDate" (heap (snd run) a)
                = dict_get "createDate" (heap w a))
  /\ ((forall a, In a items ->
       exists id, g (stamp app_code create_date (heap w a)) = Ok id) ->
      (exists counted, fst run = Ok counted)
      /\ forall a, In a items ->
                   heap (snd run) a = stamp app_code create_date (heap w a))
  /\ (forall e, fst run = Raise e ->
      (exists a, In a items /\ g (stamp app_code create_date (heap w a)) = Raise e)
      /\ sent (snd run) = sent w
      /\ log (snd run) = log w).
Proof.
  intros run.
  destruct (bulk_body_reading (default_actions actions) items "" w)
    as (Hsame & Hout & Heither & Hres & Htotal).
  cbv zeta in *.
  assert (Hrun : run
                 = match bulk_body indices doc_type f app_code (default_actions actions)
                           create_date items "" w with
                   | (Raise e, w0) => (Raise e, w0)
                   | (Ok body, w0) =>
                       match bulk_request T body error_if_fail timeout w0 with
                       | (Ok counted, w1) => (Ok counted, w1)
                       | (Raise e, w1) =>
                           (Ok (VNone, VNone, VNone),
                            with_log ((log w1 ++ [format_exc e])
                                      ++ [("elasticsearch Exception, give up: "
                                           ++ exn_str e)%string])%list w1)
                       end
                   end).
  { subst run. now rewrite add_dict_to_es_run. }
  assert (Hheap : heap (snd run)
                  = heap (snd (bulk_body indices doc_type f app_code
                                 (default_actions actions) create_date items "" w))).
  { destruct (bulk_body indices doc_type f app_code (default_actions actions)
                create_date items "" w) as [[body|e] w0] eqn:Hbody.
    - exact (add_dict_to_es_heap T indices doc_type items (Some f) app_code actions
               create_date error_if_fail timeout w w0 body Hbody).
    - now rewrite Hrun. }
  assert (Hrecords : forall a,
             heap (snd run) a = heap w a
             \/ (In a items
                 /\ heap (snd run) a = stamp app_code create_date (heap w a))).
  { intros a. rewrite Hheap.
    destruct (in_dec Nat.eq_dec a items) as [Ha|Ha]; [|left; now apply Hout].
    destruct (Heither a) as [H|H]; [now left | right; now split]. }
  split; [exact Hrecords|]. split.
  { intros Hcd a. destruct (Hrecords a) as [-> | [_ ->]]; [reflexivity|].
    rewrite dict_get_stamp, Hcd. cbn [String.eqb Ascii.eqb Bool.eqb andb].
    reflexivity. }
  split.
  { intros Hall. destruct (Htotal Hall) as (body & Hbody).
    destruct (bulk_body indices doc_type f app_code (default_actions actions)
                create_date items "" w) as [r w0] eqn:Hb.
    cbn [fst snd] in *. subst r.
    split; [exact (add_dict_to_es_completes T indices doc_type items (Some f) app_code
                     actions create_date error_if_fail timeout w w0 body Hb)|].
    intros a Ha. rewrite Hheap. now apply Hres. }
  intros e He. rewrite Hrun in He |- *.
  destruct (bulk_body indices doc_type f app_code (default_actions actions)
              create_date items "" w) as [[body|e'] w0].
  - destruct (bulk_request T body error_if_fail timeout w0) as [[counted|e''] w1];
      discriminate He.
  - cbn [fst snd] in *. injection He as ->.
    destruct Hsame as (Hlog & _ & Hsent & _). auto.
Qed.

End Batches.

(** X6, witness. *)
Lemma add_dict_to_es_stops_at_unhashable_witness :
  let w := a_world [weibo_123; weibo_5; weibo_123] [] in
  let run := add_dict_to_es (RT := CPython.runtime) a_transport (VStr "post20170630")
               (VStr "news") ([0] ++ 1 :: [2]) None VNone None VNone true VNone w in
  ((forall a, In a [0] -> text_keys (stamp VNone VNone (heap w a)) = true)
   /\ text_keys (stamp VNone VNone (heap w 1)) = false)
  /\ (exists msg, fst run = Raise (TypeError msg))
  /\ sent (snd run) = sent w
  /\ log (snd run) = log w
  /\ (forall a, In a [0] ->
      exists now, heap (snd run) a = dated now (stamp VNone VNone (heap w a)))
  /\ heap (snd run) 1 = stamp VNone VNone (heap w 1)
  /\ (forall a, ~ In a [0] -> a <> 1 -> heap (snd run) a = heap w a).
Proof.
  cbv zeta.
  assert (Htext : forall a, In a [0] ->
             text_keys (stamp VNone VNone
                          (heap (a_world [weibo_123; weibo_5; weibo_123] []) a)) = true).
  { intros a [<-|[]]. reflexivity. }
  split; [split; [exact Htext | reflexivity]|].
  exact (add_dict_to_es_stops_at_unhashable (RT := CPython.runtime) a_transport
           (VStr "post20170630") (VStr "news") VNone None VNone true VNone [0] [2] 1
           (a_world [weibo_123; weibo_5; weibo_123] []) Htext eq_refl).
Defined.

(** X7, witness. *)
Lemma add_dict_to_es_empty_batch_witness :
  let w := a_world [] [json_response all_indexed] in
  let run := add_dict_to_es (RT := CPython.runtime) a_transport (VStr "post20170630")
               (VStr "news") [] None VNone None VNone true VNone w in
  (0 <= max_retries a_transport)%Z
  /\ exists new : list (nat * request),
       new <> []
       /\ sent (snd run) = (sent w ++ new)%list
       /\ Forall (fun cr => snd cr = bulk_rq (RT := CPython.runtime) "" VNone) new
       /\ heap (snd run) = heap w.
Proof.
  cbv zeta.
  assert (Hmax : (0 <= max_retries a_transport)%Z) by (cbn; lia).
  split; [exact Hmax|].
  exact (add_dict_to_es_empty_batch (RT := CPython.runtime) a_transport
           (VStr "post20170630") (VStr "news") VNone None VNone true VNone None
           (a_world [] [json_response all_indexed]) Hmax).
Defined.

(** X5, witness. *)
Lemma add_dict_to_es_custom_identifier_witness :
  let g := fun d : dict => py_getitem (VDict d) "id" in
  let f := fun (a : addr) (w : world) => (g (heap w a), w) in
  let w := a_world three_records [json_response all_indexed] in
  let run := add_dict_to_es (RT := CPython.runtime) a_transport (VStr "post20170630")
               (VStr "news") [0; 1; 2] (Some f) (VStr "douban") None VNone true VNone w in
  (forall a w, f a w = (g (heap w a), w))
  /\ (forall a, heap (snd run) a = heap w a
                \/ (In a [0; 1; 2]
                    /\ heap (snd run) a = stamp (VStr "douban") VNone (heap w a)))
  /\ (truthy VNone = false ->
      forall a, dict_get "createDate" (heap (snd run) a)
                = dict_get "createDate" (heap w a))
  /\ ((forall a, In a [0; 1; 2] ->
       exists id, g (stamp (VStr "douban") VNone (heap w a)) = Ok id) ->
      (exists counted, fst run = Ok counted)
      /\ forall a, In a [0; 1; 2] ->
                   heap (snd run) a = stamp (VStr "douban") VNone (heap w a))
  /\ (forall e, fst run = Raise e ->
      (exists a, In a [0; 1; 2]
                 /\ g (stamp (VStr "douban") VNone (heap w a)) = Raise e)
      /\ sent (snd run) = sent w
      /\ log (snd run) = log w).
Proof.
  cbv zeta. split; [reflexivity|].
  exact (add_dict_to_es_custom_identifier (RT := CPython.runtime) a_transport
           (VStr "post20170630") (VStr "news") (VStr "douban") None VNone true VNone
           (fun (a : addr) (w : world) => (py_getitem (VDict (heap w a)) "id", w))
           (fun d : dict => py_getitem (VDict d) "id")
           (fun a w => eq_refl) [0; 1; 2]
           (a_world three_records [json_response all_indexed])).
Defined.

(** A function that reads [id], on a batch whose second record has
    none: the call raises its [KeyError] and sends nothing; both records
    have the [appCode] of the call by then, and no [createDate]. *)
Example add_dict_to_es_reader_raises :
  let f := fun (a : addr) (w : world) => (py_getitem (VDict (heap w a)) "id", w) in
  let run := add_dict_to_es (RT := CPython.runtime) a_transport (VStr "post20170630")
               (VStr "news") [0; 1] (Some f) (VStr "douban") None VNone true VNone
               (a_world [weibo_123; [("title", VStr "no id")]]
                  [json_response all_indexed]) in
  fst run = Raise (KeyError "id")
  /\ sent (snd run) = []
  /\ heap (snd run) 0 = [("appCode", VStr "douban"); ("id", VStr "123")]
  /\ heap (snd run) 1 = [("title", VStr "no id"); ("appCode", VStr "douban")].
Proof. vm_compute. repeat split. Qed.

Section AppCodeInIdentifier.
Context {RT : PyRuntime}.
Variables (T : transport) (indices doc_type : pyval) (app : string)
  (actions : option string) (create_date : pyval) (error_if_fail : bool)
  (timeout : pyval).

(** X4. The application code of the call goes into the identifier.  With an
    [app_code] that is a text and the default identifier function, a
    record with a text for [id] is sent under the digest of
    [app_code + "_" + id], whatever [appCode] it came with, and its own
    [appCode] is the one of the call afterwards. *)
Theorem add_dict_to_es_identifies_with_app_code (i : string) (pre post : list addr)
    (item : addr) (w : world) :
  let app_code := VStr app in
  let items := (pre ++ item :: post)%list in
  app <> "" -> i <> "" ->
  dict_get "id" (heap w item) = Some (VStr i) ->
  (forall a, In a items -> text_keys (stamp app_code create_date (heap w a)) = true) ->
  ~ In item pre ->
  let run := add_dict_to_es T indices doc_type items None app_code actions create_date
               error_if_fail timeout w in
  exists (body1 : string) (w1 : world) (tail : string) (new : list (nat * request)),
    bulk_body indices doc_type default_id_hash_func app_code (default_actions actions)
      create_date pre "" w = (Ok body1, w1)
    /\ (exists counted, fst run = Ok counted)
    /\ dict_get "appCode" (heap (snd run) item) = Some (VStr app)
    /\ sent (snd run) = (sent w ++ new)%list
    /\ Forall (fun cr =>
                 rq_body (snd cr)
                 = Some (encode_utf8
                           (body1
                            ++ action_line (default_actions actions) indices doc_type
                                 (VStr (md5_hexdigest (encode_utf8 (app ++ "_" ++ i))))
                            ++ newline
                            ++ json_dumps (VDict (heap (snd run) item)) ++ newline
                            ++ tail)))
         new.
Proof.
  intros app_code items Happ Hi Hid Htext Hfirst run.
  set (kind := default_actions actions).
  (* the records before *)
  destruct (bulk_body_default_total indices doc_type app_code kind create_date pre "" w)
    as (body1 & w1 & Hpre & Hout1 & Hin1 & _ & Hsame1).
  { intros a Ha. apply Htext. subst items. apply in_or_app. now left. }
  assert (Hitem1 : heap w1 item = heap w item) by now apply Hout1.
  (* the record *)
  destruct (stamp_world_heap app_code create_date item w1)
    as (Hstamped & Hstamped_others & _ & Hsame_s).
  set (ws := stamp_world app_code create_date item w1) in *.
  destruct (date_world_heap item ws) as (Hdated & Hdated_others & _ & Hsame_d).
  set (w2 := date_world item ws) in *.
  assert (Hac : dict_get "appCode" (heap ws item) = Some (VStr app)).
  { rewrite Hstamped, dict_get_stamp. cbn [String.eqb Ascii.eqb Bool.eqb andb].
    subst app_code. now rewrite (truthy_VStr app Happ). }
  assert (Hid' : dict_get "id" (heap ws item) = Some (VStr i)).
  { rewrite Hstamped, dict_get_stamp. cbn [String.eqb Ascii.eqb Bool.eqb andb].
    now rewrite Hitem1. }
  set (id := VStr (md5_hexdigest (encode_utf8 (app ++ "_" ++ i)))).
  assert (Hstep : bulk_body indices doc_type default_id_hash_func app_code kind
                    create_date (item :: post) body1 w1
                  = bulk_body indices doc_type default_id_hash_func app_code kind
                      create_date post
                      (body1 ++ record_lines kind indices doc_type (id, heap w2 item)) w2).
  { rewrite bulk_body_step. fold ws.
    now rewrite default_id_hash_func_run, (hash_input_text _ app i Hac Hid' Happ Hi). }
  assert (Hitem2 : heap w2 item
                   = dated (clock ws (ticks ws))
                       (stamp app_code create_date (heap w1 item))).
  { now rewrite Hdated, Hstamped. }
  assert (Hother2 : forall a, a <> item -> heap w2 a = heap w1 a).
  { intros a Hne. now rewrite Hdated_others, Hstamped_others. }
  (* the records after *)
  assert (Htext2 : forall a, In a post ->
             text_keys (stamp app_code create_date (heap w2 a)) = true).
  { intros a Ha. destruct (Nat.eq_dec a item) as [->|Hne].
    - rewrite Hitem2, stamp_dated_stamp, text_keys_dated, Hitem1.
      apply Htext. subst items. apply in_or_app. right. now left.
    - rewrite Hother2 by assumption.
      destruct (in_dec Nat.eq_dec a pre) as [Hp|Hp].
      + destruct (Hin1 a Hp) as (now & ->).
        rewrite stamp_dated_stamp, text_keys_dated.
        apply Htext. subst items. apply in_or_app. now left.
      + rewrite Hout1 by assumption.
        apply Htext. subst items. apply in_or_app. right. now right. }
  destruct (bulk_body_default_total indices doc_type app_code kind create_date post
              (body1 ++ record_lines kind indices doc_type (id, heap w2 item)) w2 Htext2)
    as (body & w0 & Hpost & Hout0 & Hin0 & _ & Hsame0).
  assert (Hitem0 : heap w0 item = heap w2 item).
  { destruct (in_dec Nat.eq_dec item post) as [Hp|Hp]; [|now apply Hout0].
    destruct (Hin0 item Hp) as (now & ->).
    now rewrite Hitem2, stamp_dated_stamp, dated_dated. }
  (* the whole batch *)
  assert (Hrun : bulk_body indices doc_type default_id_hash_func app_code kind
                   create_date items "" w = (Ok body, w0)).
  { subst items. now rewrite bulk_body_app, Hpre, Hstep. }
  destruct (bulk_body_lines _ _ _ _ _ _ _ _ _ _ _ Hpost) as (entries & _ & Hbody).
  pose proof (add_dict_to_es_heap T indices doc_type items None app_code actions
                create_date error_if_fail timeout w w0 body Hrun) as Hheap.
  destruct (add_dict_to_es_sent T indices doc_type items None app_code actions
              create_date error_if_fail timeout w w0 body Hrun)
    as (new & Hsent & _ & Hall & _).
  destruct (add_dict_to_es_completes T indices doc_type items None app_code actions
              create_date error_if_fail timeout w w0 body Hrun) as (counted & Hok).
  fold run in Hheap, Hsent, Hok.
  exists body1, w1, (bulk_lines kind indices doc_type entries), new.
  split; [exact Hpre|]. split; [eauto|].
  split.
  { rewrite Hheap, Hitem0, Hdated, dict_get_dated by discriminate. exact Hac. }
  split.
  { rewrite Hsent. f_equal.
    destruct Hsame1 as (_ & _ & Hs1 & _), Hsame_s as (_ & _ & Hs2 & _),
             Hsame_d as (_ & _ & Hs3 & _), Hsame0 as (_ & _ & Hs0 & _). congruence. }
  eapply Forall_impl; [|exact Hall].
  intros cr ->. cbn [bulk_rq rq_body]. do 2 f_equal.
  rewrite Hbody, Hheap, Hitem0. unfold record_lines. cbn [fst snd].
  now rewrite !append_assoc.
Qed.

End AppCodeInIdentifier.

(** X4, witness. *)
Lemma add_dict_to_es_identifies_with_app_code_witness :
  let w := a_world three_records [json_response all_indexed] in
  let items := ([0] ++ 1 :: [2])%list in
  let run := add_dict_to_es (RT := CPython.runtime) a_transport (VStr "post20170630")
               (VStr "news") items None (VStr "douban") None VNone true VNone w in
  ("douban" <> "" /\ "2" <> ""
   /\ dict_get "id" (heap w 1) = Some (VStr "2")
   /\ (forall a, In a items ->
       text_keys (stamp (VStr "douban") VNone (heap w a)) = true)
   /\ ~ In 1 [0])
  /\ exists (body1 : string) (w1 : world) (tail : string) (new : list (nat * request)),
       bulk_body (RT := CPython.runtime) (VStr "post20170630") (VStr "news")
         (default_id_hash_func (RT := CPython.runtime)) (VStr "douban")
         (default_actions None) VNone [0] "" w
       = (Ok body1, w1)
       /\ (exists counted, fst run = Ok counted)
       /\ dict_get "appCode" (heap (snd run) 1) = Some (VStr "douban")
       /\ sent (snd run) = (sent w ++ new)%list
       /\ Forall (fun cr =>
                    rq_body (snd cr)
                    = Some (@encode_utf8 CPython.runtime
                              (body1
                               ++ action_line (RT := CPython.runtime)
                                    (default_actions None) (VStr "post20170630")
                                    (VStr "news")
                                    (VStr (@md5_hexdigest CPython.runtime
                                             (@encode_utf8 CPython.runtime
                                                ("douban" ++ "_" ++ "2"))))
                               ++ newline
                               ++ @json_dumps CPython.runtime
                                    (VDict (heap (snd run) 1)) ++ newline
                               ++ tail)))
            new.
Proof.
  cbv zeta.
  assert (Hd : "douban" <> "") by discriminate.
  assert (H2 : "2" <> "") by discriminate.
  assert (Htext : forall a, In a ([0] ++ 1 :: [2])%list ->
             text_keys (stamp (VStr "douban") VNone
                          (heap (a_world three_records [json_response all_indexed]) a))
             = true).
  { intros a [<-|[<-|[<-|[]]]]; reflexivity. }
  assert (Hfirst : ~ In 1 [0]) by (intros [H|[]]; discriminate H).
  split; [repeat split; auto|].
  exact (add_dict_to_es_identifies_with_app_code (RT := CPython.runtime) a_transport
           (VStr "post20170630") (VStr "news") "douban" None VNone true VNone "2"
           [0] [2] 1 (a_world three_records [json_response all_indexed])
           Hd H2 eq_refl Htext Hfirst).
Defined.

(* ------------------------------------------------------------------ *)
(** ** [MyAsyncTransport.perform_request] *)

Lemma dict_get_del_other (k k' : string) (d : dict) :
  k <> k' -> dict_get k (dict_del k' d) = dict_get k d.
Proof.
  intros Hne. induction d as [|[k'' v] d IH]; cbn [dict_del dict_get]; [reflexivity|].
  destruct (String.eqb k' k'') eqn:E.
  - apply String.eqb_eq in E as <-. now apply String.eqb_neq in Hne as ->.
  - cbn [dict_get]. now rewrite IH.
Qed.

Lemma dict_get_del_same (k : string) (d : dict) :
  NoDup (map fst d) -> dict_get k (dict_del k d) = None.
Proof.
  induction d as [|[k' v] d IH]; cbn [dict_del dict_get map fst]; [reflexivity|].
  intros Hnd. inversion Hnd as [|? ? Hnotin Hnd']; subst.
  destruct (String.eqb k k') eqn:E.
  - apply String.eqb_eq in E as ->. now apply dict_get_absent.
  - cbn [dict_get]. rewrite E. now apply IH.
Qed.

Ltac via_main_loop_sent :=
  match goal with
  | |- context [main_loop ?T ?m ?u ?ps ?bd ?ig ?t ?h ?w] =>
      let new := fresh "new" in
      let Hsent := fresh "Hsent" in
      let Hall := fresh "Hall" in
      destruct (main_loop_sent T m u ps bd ig t h w) as (new & Hsent & _ & Hall & _)
  end.

Section TransportRequest.
Context {RT : PyRuntime}.
Variable T : transport.

(** X8. The statuses to ignore travel as a parameter of the call and are
    taken out of the parameters before the request is made: no request
    on the wire has an [ignore] parameter, the other parameters are
    there as given, and the statuses reach the connection as a
    collection, a single number wrapped into one. *)
Theorem perform_request_takes_ignore_out (method url : string) (p : dict)
    (timeout : pyval) (headers : option dict) (w : world) :
  p <> [] ->
  NoDup (map fst p) ->
  let run := perform_request T method url (Some p) None timeout headers w in
  exists (new : list (nat * request)) (p' : dict),
    sent (snd run) = (sent w ++ new)%list
    /\ Forall (fun cr =>
                 rq_params (snd cr) = Some p'
                 /\ rq_method (snd cr) = method
                 /\ rq_body (snd cr) = None
                 /\ rq_ignore (snd cr)
                    = match dict_get "ignore" p with
                      | Some v => match int_of v with
                                  | Some _ => VList [v]
                                  | None => v
                                  end
                      | None => VList []
                      end) new
    /\ dict_has "ignore" p' = false
    /\ (forall k, k <> "ignore" -> dict_get k p' = dict_get k p).
Proof.
  intros Hp Hnd run. subst run. unfold perform_request.
  unfold bind at 1, ret at 1. cbv beta iota. cbn [option_map].
  destruct p as [|kv p0]; [contradiction|].
  set (p := kv :: p0) in *.
  destruct (main_loop_sent T method url (Some (dict_del "ignore" p)) None
              (match int_of (match dict_get "ignore" p with
                             | Some v => v
                             | None => VList []
                             end) with
               | Some _ => VList [match dict_get "ignore" p with
                                  | Some v => v
                                  | None => VList []
                                  end]
               | None => match dict_get "ignore" p with
                         | Some v => v
                         | None => VList []
                         end
               end) timeout headers w) as (new & Hsent & _ & Hall & _).
  exists new, (dict_del "ignore" p).
  split; [exact Hsent|]. split.
  - eapply Forall_impl; [|exact Hall]. intros cr ->. cbn [rq_params rq_method rq_body rq_ignore].
    repeat split. destruct (dict_get "ignore" p); reflexivity.
  - split.
    + unfold dict_has. now rewrite dict_get_del_same.
    + intros k Hk. now apply dict_get_del_other.
Qed.

(** X9. A body for GET or HEAD.  It is serialised first, and a body that
    cannot be serialised means no request at all.  Then
    [send_get_body_as] decides: for POST the request goes out as a POST
    with the body; for source the method stays, the request has no body
    and the text travels as the parameter [source]; for anything else
    the body goes out with the method as it is. *)
Theorem perform_request_places_get_body (method url : string) (params : option dict)
    (b : pyval) (timeout : pyval) (headers : option dict) (w : world) :
  method = "GET" \/ method = "HEAD" ->
  let run := perform_request T method url params (Some b) timeout headers w in
  match serializer_dumps b with
  | Raise e => run = (Raise e, w)
  | Ok text =>
      exists new : list (nat * request),
        sent (snd run) = (sent w ++ new)%list
        /\ Forall (fun cr =>
                     if String.eqb (send_get_body_as T) "POST"
                     then rq_method (snd cr) = "POST"
                          /\ rq_body (snd cr) = Some (encode_utf8 text)
                     else if String.eqb (send_get_body_as T) "source"
                     then rq_method (snd cr) = method
                          /\ rq_body (snd cr) = None
                          /\ exists p', rq_params (snd cr) = Some p'
                                        /\ dict_get "source" p' = Some (VStr text)
                     else rq_method (snd cr) = method
                          /\ rq_body (snd cr) = Some (encode_utf8 text)) new
  end.
Proof.
  intros Hmethod run. subst run. unfold perform_request.
  unfold bind at 1, bind at 1, lift at 1.
  destruct (serializer_dumps b) as [text|e]; [|reflexivity].
  assert (Hm : String.eqb method "HEAD" || String.eqb method "GET" = true)
    by (destruct Hmethod as [-> | ->]; reflexivity).
  rewrite Hm. cbn [andb].
  destruct (String.eqb (send_get_body_as T) "GET") eqn:Hget; cbn [negb].
  { apply String.eqb_eq in Hget. rewrite Hget.
    cbn [String.eqb Ascii.eqb Bool.eqb]. unfold ret at 1.
    destruct params as [[|kv p0]|]; cbv beta iota zeta; cbn [option_map];
      via_main_loop_sent; exists new;
      (split; [exact Hsent|]); (eapply Forall_impl; [|exact Hall]);
      intros cr ->; split; reflexivity. }
  destruct (String.eqb (send_get_body_as T) "POST") eqn:Hpost.
  { unfold ret at 1.
    destruct params as [[|kv p0]|]; cbv beta iota zeta; cbn [option_map];
      via_main_loop_sent; exists new;
      (split; [exact Hsent|]); (eapply Forall_impl; [|exact Hall]);
      intros cr ->; split; reflexivity. }
  destruct (String.eqb (send_get_body_as T) "source") eqn:Hsource.
  - unfold ret at 1. cbv beta iota.
    set (p1 := dict_set "source" (VStr text)
                 match params with Some p => p | None => [] end).
    assert (Hp1 : exists kv p0, p1 = kv :: p0).
    { subst p1. destruct params as [[|[k v] p0]|]; cbn [dict_set];
        try (eexists; eexists; reflexivity).
      destruct (String.eqb "source" k); eexists; eexists; reflexivity. }
    assert (Hsrc : dict_get "source" (dict_del "ignore" p1) = Some (VStr text)).
    { rewrite dict_get_del_other by discriminate. apply dict_get_set_same. }
    destruct Hp1 as (kv & p0 & Hp1). revert Hsrc. rewrite Hp1. intros Hsrc.
    cbv beta iota zeta. cbn [option_map].
    via_main_loop_sent. exists new. split; [exact Hsent|].
    eapply Forall_impl; [|exact Hall]. intros cr ->.
    cbn [rq_method rq_body rq_params]. repeat split. eauto.
  - unfold ret at 1.
    destruct params as [[|kv p0]|]; cbv beta iota zeta; cbn [option_map];
      via_main_loop_sent; exists new;
      (split; [exact Hsent|]); (eapply Forall_impl; [|exact Hall]);
      intros cr ->; split; reflexivity.
Qed.

End TransportRequest.

(** X8, witness. *)
Lemma perform_request_takes_ignore_out_witness :
  let p := [("size", VInt 10); ("ignore", VInt 404)] in
  let w := a_world [] [] in
  let run := perform_request (RT := CPython.runtime) a_transport "GET" "/idx/_search"
               (Some p) None VNone None w in
  (p <> [] /\ NoDup (map fst p))
  /\ exists (new : list (nat * request)) (p' : dict),
       sent (snd run) = (sent w ++ new)%list
       /\ Forall (fun cr =>
                    rq_params (snd cr) = Some p'
                    /\ rq_method (snd cr) = "GET"
                    /\ rq_body (snd cr) = None
                    /\ rq_ignore (snd cr)
                       = match dict_get "ignore" p with
                         | Some v => match int_of v with
                                     | Some _ => VList [v]
                                     | None => v
                                     end
                         | None => VList []
                         end) new
       /\ dict_has "ignore" p' = false
       /\ (forall k, k <> "ignore" -> dict_get k p' = dict_get k p).
Proof.
  cbv zeta.
  assert (Hp : [("size", VInt 10); ("ignore", VInt 404)] <> ([] : dict)) by discriminate.
  assert (Hnd : NoDup (map fst [("size", VInt 10); ("ignore", VInt 404)])).
  { repeat constructor; cbn; intuition discriminate. }
  split; [split; assumption|].
  exact (perform_request_takes_ignore_out (RT := CPython.runtime) a_transport "GET"
           "/idx/_search" [("size", VInt 10); ("ignore", VInt 404)] VNone None
           (a_world [] []) Hp Hnd).
Defined.

(** X9, witness. *)
Lemma perform_request_places_get_body_witness :
  let w := a_world [] [] in
  let run := perform_request (RT := CPython.runtime) a_source_transport "GET"
               "/idx/_search" None (Some match_all) VNone None w in
  ("GET" = "GET" \/ "GET" = "HEAD")
  /\ match @serializer_dumps CPython.runtime match_all with
     | Raise e => run = (Raise e, w)
     | Ok text =>
         exists new : list (nat * request),
           sent (snd run) = (sent w ++ new)%list
           /\ Forall (fun cr =>
                        if String.eqb (send_get_body_as a_source_transport) "POST"
                        then rq_method (snd cr) = "POST"
                             /\ rq_body (snd cr) = Some (@encode_utf8 CPython.runtime text)
                        else if String.eqb (send_get_body_as a_source_transport) "source"
                        then rq_method (snd cr) = "GET"
                             /\ rq_body (snd cr) = None
                             /\ exists p', rq_params (snd cr) = Some p'
                                           /\ dict_get "source" p' = Some (VStr text)
                        else rq_method (snd cr) = "GET"
                             /\ rq_body (snd cr) = Some (@encode_utf8 CPython.runtime text))
                new
     end.
Proof.
  cbv zeta. split; [now left|].
  exact (perform_request_places_get_body (RT := CPython.runtime) a_source_transport
           "GET" "/idx/_search" None match_all VNone None (a_world [] [])
           (or_introl eq_refl)).
Defined.

(** A search with a query on such a transport: the one request made has
    the query as its parameter [source] and no body. *)
Example perform_request_search_as_source :
  map snd (sent (snd (perform_request (RT := CPython.runtime) a_source_transport "GET"
                        "/idx/_search" (Some [("ignore", VInt 404)]) (Some match_all)
                        VNone None (a_world [] [Ok (200%Z, [], "")]))))
  = [{| rq_method := "GET"; rq_url := "/idx/_search";
        rq_params := Some [("source", VStr (CPython.dumps false match_all))];
        rq_body := None; rq_ignore := VList [VInt 404]; rq_timeout := VNone;
        rq_headers := None |}].
Proof. vm_compute. reflexivity. Qed.

(* ------------------------------------------------------------------ *)
(** ** More on the pools *)

Lemma construct_fails (ev : nat -> pool_event) (n : net) (e : exn) :
  fault n (calls n) = Some e ->
  construct ev n
  = (Raise e, {| fresh := fresh n; fault := fault n; calls := S (calls n);
                 events := events n |}).
Proof. intros H. unfold construct. now rewrite H. Qed.

Lemma perform_fails (ev : pool_event) (n : net) (e : exn) :
  fault n (calls n) = Some e ->
  perform ev n
  = (Raise e, {| fresh := fresh n; fault := fault n; calls := S (calls n);
                 events := events n |}).
Proof. intros H. unfold perform. now rewrite H. Qed.

Section PoolsAgain.
Context {RT : PyRuntime}.

(** X17. The write method of a Redis config.  For a config the constructor
    built, the first acquisition binds the write method to the pool it
    returns and caches: for the key type LIST the push from the left
    when the direction is the text L and the push from the right for
    any other direction, and for HASH the field setter; [is_range] tells
    the two apart the same way. *)
Theorem get_redis_pool_cli_write_method (mc : main_config) (key key_type : pyval)
    (filter_ : option callable) (host : pyval) (port : Z)
    (db password timeout encoding direction : pyval) (max_retry : Z)
    (random_min_sleep random_max_sleep : Q) (compress : pyval)
    (c : WRedisConfig.t) (n : net) :
  WRedisConfig.__init__ mc key key_type filter_ host port db password timeout encoding
    direction max_retry random_min_sleep random_max_sleep compress = Ok c ->
  fault n (calls n) = None ->
  exists (c1 : WRedisConfig.t) (n1 : net),
    WRedisConfig.get_redis_pool_cli (c, n) = (Ok (fresh n), (c1, n1))
    /\ WRedisConfig.redis_pool_cli c1 = Some (fresh n)
    /\ ((key_type = VStr "LIST" /\ WRedisConfig.is_range c1 = true
         /\ WRedisConfig.redis_write_method c1
            = Some (if is_str direction "L" then lpush (fresh n) else rpush (fresh n)))
        \/ (key_type = VStr "HASH" /\ WRedisConfig.is_range c1 = false
            /\ WRedisConfig.redis_write_method c1 = Some (hset (fresh n)))).
Proof.
  unfold WRedisConfig.__init__. intros Hinit Hfault.
  destruct (negb (has_redis_configured mc) && (port <=? 0)%Z); [discriminate|].
  destruct (is_str key_type "LIST") eqn:Hlist; cbn [orb negb] in Hinit.
  - destruct (negb (truthy encoding)); [discriminate|].
    injection Hinit as <-.
    unfold WRedisConfig.get_redis_pool_cli.
    unfold bind, self, on_net, assign, ret. cbn [fst snd WRedisConfig.redis_pool_cli].
    rewrite (construct_ok _ n Hfault).
    cbn [fst snd WRedisConfig.set_pool WRedisConfig.set_write_method
         WRedisConfig.key_type WRedisConfig.direction WRedisConfig.is_range
         WRedisConfig.redis_pool_cli WRedisConfig.redis_write_method].
    rewrite Hlist. eexists. eexists. split; [reflexivity|].
    cbn [WRedisConfig.redis_pool_cli WRedisConfig.is_range
         WRedisConfig.redis_write_method].
    split; [reflexivity|]. left.
    destruct key_type; try discriminate Hlist. cbn [is_str] in Hlist.
    apply String.eqb_eq in Hlist as ->. auto.
  - destruct (is_str key_type "HASH") eqn:Hhash; cbn [negb] in Hinit; [|discriminate].
    destruct (negb (truthy encoding)); [discriminate|].
    injection Hinit as <-.
    unfold WRedisConfig.get_redis_pool_cli.
    unfold bind, self, on_net, assign, ret. cbn [fst snd WRedisConfig.redis_pool_cli].
    rewrite (construct_ok _ n Hfault).
    cbn [fst snd WRedisConfig.set_pool WRedisConfig.set_write_method
         WRedisConfig.key_type WRedisConfig.direction WRedisConfig.is_range
         WRedisConfig.redis_pool_cli WRedisConfig.redis_write_method].
    rewrite Hlist. eexists. eexists. split; [reflexivity|].
    cbn [WRedisConfig.redis_pool_cli WRedisConfig.is_range
         WRedisConfig.redis_write_method].
    split; [reflexivity|]. right.
    destruct key_type; try discriminate Hhash. cbn [is_str] in Hhash.
    apply String.eqb_eq in Hhash as ->. auto.
Qed.

(** X18. A pool that cannot be built.  When the library fails to build the
    Redis pool the exception leaves the method and the config is as it
    was, without a pool and without a write method bound; so the next
    acquisition tries again, and builds the pool if the library lets
    it. *)
Theorem get_redis_pool_cli_failure_is_not_cached (c : WRedisConfig.t) (n : net)
    (e : exn) :
  WRedisConfig.redis_pool_cli c = None ->
  fault n (calls n) = Some e ->
  fault n (S (calls n)) = None ->
  let first := WRedisConfig.get_redis_pool_cli (c, n) in
  let second := WRedisConfig.get_redis_pool_cli (snd first) in
  fst first = Raise e
  /\ fst (snd first) = c
  /\ constructions (snd (snd first)) = constructions n
  /\ fst second = Ok (fresh n)
  /\ WRedisConfig.redis_pool_cli (fst (snd second)) = Some (fresh n)
  /\ constructions (snd (snd second)) = S (constructions n).
Proof.
  intros Hnone Hfault Hnext. cbv zeta.
  assert (Hfirst : WRedisConfig.get_redis_pool_cli (c, n)
                   = (Raise e, (c, {| fresh := fresh n; fault := fault n;
                                      calls := S (calls n); events := events n |}))).
  { unfold WRedisConfig.get_redis_pool_cli.
    unfold bind at 1, self at 1. cbn [fst]. rewrite Hnone.
    unfold bind at 1, on_net at 1. cbn [snd fst].
    now rewrite (construct_fails _ n e Hfault). }
  rewrite Hfirst. cbn [fst snd].
  destruct (get_redis_pool_cli_first c
              {| fresh := fresh n; fault := fault n; calls := S (calls n);
                 events := events n |} Hnone Hnext)
    as (c1 & kwargs & Hsecond & Hpool & _).
  rewrite Hsecond. cbn [fst snd fresh events].
  repeat split; auto.
  unfold constructions. cbn [events]. rewrite filter_app, length_app. cbn. lia.
Qed.

(** X19. A MySQL pool without a connection.  The pool is stored on the config
    as soon as it is built, before a connection is acquired from it: if
    acquiring fails, the exception leaves the method with the pool
    cached, and every later acquisition hands that pool back at once,
    with the connection and the cursor of the config still unset. *)
Theorem get_mysql_pool_cli_acquire_failure_is_cached (c : WMySQLConfig.t) (n : net)
    (e : exn) :
  WMySQLConfig.mysql_pool_cli c = None ->
  fault n (calls n) = None ->
  fault n (S (calls n)) = Some e ->
  let first := WMySQLConfig.get_mysql_pool_cli (c, n) in
  let second := WMySQLConfig.get_mysql_pool_cli (snd first) in
  fst first = Raise e
  /\ fst (snd first)
     = WMySQLConfig.set_handles c (Some (fresh n)) (WMySQLConfig.connection c)
         (WMySQLConfig.cursor c)
  /\ constructions (snd (snd first)) = S (constructions n)
  /\ fst second = Ok (fresh n)
  /\ snd second = snd first.
Proof.
  intros Hnone Hfault Hnext. cbv zeta.
  assert (Hfirst :
    WMySQLConfig.get_mysql_pool_cli (c, n)
    = (Raise e,
       (WMySQLConfig.set_handles c (Some (fresh n)) (WMySQLConfig.connection c)
          (WMySQLConfig.cursor c),
        {| fresh := S (fresh n); fault := fault n; calls := S (S (calls n));
           events := events n
                     ++ [CreatePool (WMySQLConfig.host c) (WMySQLConfig.port c)
                           (WMySQLConfig.user c) (WMySQLConfig.password c)
                           (WMySQLConfig.database c) (WMySQLConfig.loop c) 1 3
                           (WMySQLConfig.encoding c) (fresh n)] |}))).
  { unfold WMySQLConfig.get_mysql_pool_cli.
    unfold bind at 1, self at 1. cbn [fst]. rewrite Hnone.
    unfold bind, on_net, self, assign, ret. cbn [snd fst].
    rewrite (construct_ok _ n Hfault). cbn [snd fst].
    rewrite (construct_fails _ _ e) by (cbn; exact Hnext).
    reflexivity. }
  rewrite Hfirst. cbn [fst snd].
  split; [reflexivity|]. split; [reflexivity|]. split.
  { unfold constructions. cbn [events]. rewrite filter_app, length_app. cbn. lia. }
  rewrite (get_mysql_pool_cli_cached _ _ (fresh n)) by reflexivity.
  split; reflexivity.
Qed.

(** X20. Freeing twice.  The first call releases the connection of the
    config to the pool, closes the pool and schedules the wait for its
    closing, in that order, and unsets the three handles; a second call
    finds no pool and does nothing at all. *)
Theorem free_resource_twice (c : WMySQLConfig.t) (n : net) (pool : nat) :
  WMySQLConfig.mysql_pool_cli c = Some pool ->
  (forall k, fault n k = None) ->
  let first := WMySQLConfig.free_resource (c, n) in
  let second := WMySQLConfig.free_resource (snd first) in
  fst first = Ok tt
  /\ fst (snd first) = WMySQLConfig.set_handles c None None None
  /\ events (snd (snd first))
     = (events n ++ [Release pool (WMySQLConfig.connection c); Close pool;
                     CreateTaskWaitClosed (WMySQLConfig.loop c) pool])%list
  /\ second = (Ok tt, snd first).
Proof.
  intros Hsome Hfault. cbv zeta.
  rewrite (free_resource_done c n pool Hsome Hfault). cbn [fst snd events].
  split; [reflexivity|]. split; [reflexivity|].
  split; [now rewrite <- !app_assoc|].
  now rewrite free_resource_idle.
Qed.

(** X21. A release that fails.  If handing the connection back raises, the
    exception leaves [free_resource] before the pool is closed: the
    config keeps its pool, its connection and its cursor. *)
Theorem free_resource_release_failure (c : WMySQLConfig.t) (n : net) (pool : nat)
    (e : exn) :
  WMySQLConfig.mysql_pool_cli c = Some pool ->
  fault n (calls n) = Some e ->
  fst (WMySQLConfig.free_resource (c, n)) = Raise e
  /\ fst (snd (WMySQLConfig.free_resource (c, n))) = c
  /\ events (snd (snd (WMySQLConfig.free_resource (c, n)))) = events n.
Proof.
  intros Hsome Hfault.
  assert (Hrun : WMySQLConfig.free_resource (c, n)
                 = (Raise e, (c, {| fresh := fresh n; fault := fault n;
                                    calls := S (calls n); events := events n |}))).
  { unfold WMySQLConfig.free_resource.
    unfold bind at 1, self at 1. cbn [fst]. rewrite Hsome.
    unfold bind, on_net, assign. cbn [snd fst].
    now rewrite (perform_fails _ n e Hfault). }
  rewrite Hrun. repeat split.
Qed.

End PoolsAgain.

(** X17, witness. *)
Lemma get_redis_pool_cli_write_method_witness :
  (WRedisConfig.__init__ (RT := CPython.runtime) configured (VStr "my_key")
     (VStr "LIST") None (VStr "localhost") 6379 (VInt 0) (VStr "") (VInt 10)
     (VStr "utf8") (VStr "L") 3 1 3 (VBool false) = Ok a_redis_config
   /\ fault a_net (calls a_net) = None)
  /\ exists (c1 : WRedisConfig.t) (n1 : net),
       WRedisConfig.get_redis_pool_cli (a_redis_config, a_net)
       = (Ok (fresh a_net), (c1, n1))
       /\ WRedisConfig.redis_pool_cli c1 = Some (fresh a_net)
       /\ ((VStr "LIST" = VStr "LIST" /\ WRedisConfig.is_range c1 = true
            /\ WRedisConfig.redis_write_method c1
               = Some (if is_str (VStr "L") "L" then lpush (fresh a_net)
                       else rpush (fresh a_net)))
           \/ (VStr "LIST" = VStr "HASH" /\ WRedisConfig.is_range c1 = false
               /\ WRedisConfig.redis_write_method c1 = Some (hset (fresh a_net)))).
Proof.
  assert (Hinit : WRedisConfig.__init__ (RT := CPython.runtime) configured
                    (VStr "my_key") (VStr "LIST") None (VStr "localhost") 6379 (VInt 0)
                    (VStr "") (VInt 10) (VStr "utf8") (VStr "L") 3 1 3 (VBool false)
                  = Ok a_redis_config) by (vm_compute; reflexivity).
  split; [split; [exact Hinit | reflexivity]|].
  exact (get_redis_pool_cli_write_method (RT := CPython.runtime) configured
           (VStr "my_key") (VStr "LIST") None (VStr "localhost") 6379 (VInt 0) (VStr "")
           (VInt 10) (VStr "utf8") (VStr "L") 3 1 3 (VBool false) a_redis_config a_net
           Hinit eq_refl).
Defined.

(** X18, witness. *)
Lemma get_redis_pool_cli_failure_is_not_cached_witness :
  let n := a_failing_net 0 in
  let first := WRedisConfig.get_redis_pool_cli (a_redis_config, n) in
  let second := WRedisConfig.get_redis_pool_cli (snd first) in
  (WRedisConfig.redis_pool_cli a_redis_config = None
   /\ fault n (calls n) = Some connection_refused
   /\ fault n (S (calls n)) = None)
  /\ fst first = Raise connection_refused
  /\ fst (snd first) = a_redis_config
  /\ constructions (snd (snd first)) = constructions n
  /\ fst second = Ok (fresh n)
  /\ WRedisConfig.redis_pool_cli (fst (snd second)) = Some (fresh n)
  /\ constructions (snd (snd second)) = S (constructions n).
Proof.
  cbv zeta. split; [repeat split|].
  exact (get_redis_pool_cli_failure_is_not_cached a_redis_config (a_failing_net 0)
           connection_refused eq_refl eq_refl eq_refl).
Defined.

(** X19, witness. *)
Lemma get_mysql_pool_cli_acquire_failure_is_cached_witness :
  let n := a_failing_net 1 in
  let first := WMySQLConfig.get_mysql_pool_cli (a_mysql_config, n) in
  let second := WMySQLConfig.get_mysql_pool_cli (snd first) in
  (WMySQLConfig.mysql_pool_cli a_mysql_config = None
   /\ fault n (calls n) = None
   /\ fault n (S (calls n)) = Some connection_refused)
  /\ fst first = Raise connection_refused
  /\ fst (snd first)
     = WMySQLConfig.set_handles a_mysql_config (Some (fresh n))
         (WMySQLConfig.connection a_mysql_config) (WMySQLConfig.cursor a_mysql_config)
  /\ constructions (snd (snd first)) = S (constructions n)
  /\ fst second = Ok (fresh n)
  /\ snd second = snd first.
Proof.
  cbv zeta. split; [repeat split|].
  exact (get_mysql_pool_cli_acquire_failure_is_cached a_mysql_config (a_failing_net 1)
           connection_refused eq_refl eq_refl eq_refl).
Defined.

(** X20, witness. *)
Lemma free_resource_twice_witness :
  let c := WMySQLConfig.set_handles a_mysql_config (Some 0) (Some 1) (Some 2) in
  let first := WMySQLConfig.free_resource (c, a_net) in
  let second := WMySQLConfig.free_resource (snd first) in
  (WMySQLConfig.mysql_pool_cli c = Some 0 /\ (forall k, fault a_net k = None))
  /\ fst first = Ok tt
  /\ fst (snd first) = WMySQLConfig.set_handles c None None None
  /\ events (snd (snd first))
     = (events a_net ++ [Release 0 (WMySQLConfig.connection c); Close 0;
                         CreateTaskWaitClosed (WMySQLConfig.loop c) 0])%list
  /\ second = (Ok tt, snd first).
Proof.
  cbv zeta. split; [split; [reflexivity | intros k; reflexivity]|].
  exact (free_resource_twice
           (WMySQLConfig.set_handles a_mysql_config (Some 0) (Some 1) (Some 2)) a_net 0
           eq_refl (fun _ => eq_refl)).
Defined.

(** X21, witness. *)
Lemma free_resource_release_failure_witness :
  let c := WMySQLConfig.set_handles a_mysql_config (Some 0) (Some 1) (Some 2) in
  let n := a_failing_net 0 in
  (WMySQLConfig.mysql_pool_cli c = Some 0
   /\ fault n (calls n) = Some connection_refused)
  /\ fst (WMySQLConfig.free_resource (c, n)) = Raise connection_refused
  /\ fst (snd (WMySQLConfig.free_resource (c, n))) = c
  /\ events (snd (snd (WMySQLConfig.free_resource (c, n)))) = events n.
Proof.
  cbv zeta. split; [split; reflexivity|].
  exact (free_resource_release_failure
           (WMySQLConfig.set_handles a_mysql_config (Some 0) (Some 1) (Some 2))
           (a_failing_net 0) 0 connection_refused eq_refl eq_refl).
Defined.
